(** * Rendering of migration operations: alembic/autogenerate/render.py

    A shallow embedding of the autogenerate renderer.  Python text is
    [string]; the per-pass [AutogenContext] is threaded through every
    renderer by a small state-and-exception monad; the objects handed
    over by SQLAlchemy and by the operations package are records holding
    the attributes the renderer reads. *)

From Stdlib Require Import Ascii String ZArith NArith Lia.
From stdpp Require Import base option list gmap strings pretty sorting.

Set Warnings "-register-all".

(** ** Python text and values *)

Module Py.

Definition nl : string := String "010"%char "".
Definition squote : ascii := "'"%char.
Definition dquote : ascii := "034"%char.
Definition backslash : ascii := "\"%char.

(** [sep.join(l)] *)
Fixpoint join (sep : string) (l : list string) : string :=
  match l with
  | [] => ""
  | [x] => x
  | x :: l' => x +:+ sep +:+ join sep l'
  end.

(** [s.startswith(p)] *)
Definition startswith (s p : string) : bool := String.prefix p s.

(** [s.split(sep)] for a one-character separator. *)
Fixpoint split (sep : ascii) (s : string) : list string :=
  match s with
  | EmptyString => [""]
  | String c s' =>
      if Ascii.eqb c sep then "" :: split sep s'
      else match split sep s' with
           | [] => [String c ""]
           | tok :: toks => String c tok :: toks
           end
  end.

(** [s.replace(a, b)] for one-character [a] and [b]. *)
Fixpoint replace (a b : ascii) (s : string) : string :=
  match s with
  | EmptyString => EmptyString
  | String c s' => String (if Ascii.eqb c a then b else c) (replace a b s')
  end.

Fixpoint contains (c : ascii) (s : string) : bool :=
  match s with
  | EmptyString => false
  | String c' s' => Ascii.eqb c c' || contains c s'
  end.

(** Truth value of a [str]: only the empty string is false. *)
Definition truthy (s : string) : bool :=
  match s with EmptyString => false | _ => true end.

Definition truthy_opt (o : option string) : bool :=
  match o with Some s => truthy s | None => false end.

Definition hexdigit (n : N) : ascii :=
  ascii_of_N (if (n <? 10)%N then 48 + n else 87 + n).

(** One character of [repr(str)], for the quote [q] in use.  Bytes above
    127 stand for the UTF-8 encoding of printable characters and are
    copied. *)
Definition repr_char (q c : ascii) : string :=
  if Ascii.eqb c q || Ascii.eqb c backslash then String backslash (String c "")
  else if Ascii.eqb c "009" then "\t"
  else if Ascii.eqb c "010" then "\n"
  else if Ascii.eqb c "013" then "\r"
  else
    let n := N_of_ascii c in
    if (n <? 32)%N || (n =? 127)%N
    then "\x" +:+ String (hexdigit (n / 16)) (String (hexdigit (n mod 16)) "")
    else String c "".

Fixpoint repr_body (q : ascii) (s : string) : string :=
  match s with
  | EmptyString => EmptyString
  | String c s' => repr_char q c +:+ repr_body q s'
  end.

(** [repr(s)] for a [str]: single quotes unless the text holds a single
    quote and no double quote. *)
Definition repr_str (s : string) : string :=
  let q := if contains squote s && negb (contains dquote s)
           then dquote else squote in
  String q (repr_body q s) +:+ String q "".

(** The values the renderer formats with [%r] and [%s]. *)
Inductive Val :=
| VNone
| VBool (b : bool)
| VInt (z : Z)
| VStr (s : string)
| VList (l : list Val)
| VObj (repr_ str_ : string).  (* any other object, by its repr() and str() *)

Definition repr_bool (b : bool) : string := if b then "True" else "False".

Fixpoint repr (v : Val) : string :=
  match v with
  | VNone => "None"
  | VBool b => repr_bool b
  | VInt z => pretty z
  | VStr s => repr_str s
  | VList l => "[" +:+ join ", " (map repr l) +:+ "]"
  | VObj r _ => r
  end.

Definition str (v : Val) : string :=
  match v with
  | VStr s => s
  | VObj _ s => s
  | _ => repr v
  end.

(** [v != s] for a [str] [s]: only an equal [str] compares equal. *)
Definition ne_str (v : Val) (s : string) : bool :=
  match v with
  | VStr s' => negb (String.eqb s' s)
  | _ => true
  end.

Definition of_opt (o : option string) : Val :=
  match o with Some s => VStr s | None => VNone end.

(** [%r] and [%s] of an [Optional[str]]. *)
Definition repr_opt (o : option string) : string := repr (of_opt o).
Definition str_opt (o : option string) : string := str (of_opt o).

Definition repr_opt_bool (o : option bool) : string :=
  match o with Some b => repr_bool b | None => "None" end.

(** [sorted(l)] on text: insertion into an ordered list. *)
Fixpoint insert_by {A} (key : A -> string) (x : A) (l : list A) : list A :=
  match l with
  | [] => [x]
  | y :: l' => if String.leb (key x) (key y) then x :: y :: l'
               else y :: insert_by key x l'
  end.

Definition sorted_by {A} (key : A -> string) (l : list A) : list A :=
  foldr (insert_by key) [] l.

Definition sorted (l : list string) : list string := sorted_by id l.

End Py.

(** ** Exceptions, the rendering context and the monad *)

Inductive PyError :=
| NotImplementedError (msg : string)
| ValueError (msg : string)
| AssertionError
| AttributeError (msg : string)
| OtherError (cls msg : string).   (* raised by an external collaborator *)

Inductive Res (A : Type) :=
| Ok (a : A)
| Raise (e : PyError).
Arguments Ok {A} a.
Arguments Raise {A} e.

(** [autogen_context.opts]: the rendering options of section 6 read by
    this module. *)
Record Opts := mkOpts {
  render_as_batch : bool;
  sqlalchemy_module_prefix : option string;
  alembic_module_prefix : option string;
  user_module_prefix : option string }.

(** The mutable state of one rendering pass: the context's import set
    (which the code allows to be [None]), its options, its batch flag, and
    the messages passed to [util.warn]. *)
Record AutogenContext := mkContext {
  imports : option (gset string);
  opts : Opts;
  _has_batch : bool;
  warnings : list string }.

Definition M (A : Type) : Type := AutogenContext -> Res A * AutogenContext.

Definition ret {A} (a : A) : M A := fun ctx => (Ok a, ctx).
Definition raise {A} (e : PyError) : M A := fun ctx => (Raise e, ctx).
Definition bind {A B} (m : M A) (k : A -> M B) : M B := fun ctx =>
  match m ctx with
  | (Ok a, ctx') => k a ctx'
  | (Raise e, ctx') => (Raise e, ctx')
  end.
Definition gets {A} (f : AutogenContext -> A) : M A := fun ctx => (Ok (f ctx), ctx).
Definition lift {A} (r : Res A) : M A := fun ctx => (r, ctx).

Notation "'let*' x ':=' c1 'in' c2" := (bind c1 (fun x => c2))
  (at level 10, x name, c1 at level 100, c2 at level 200).
Notation "'let*' x ':' T ':=' c1 'in' c2" := (bind c1 (fun x : T => c2))
  (at level 10, x name, c1 at level 100, c2 at level 200).

Fixpoint mapM {A B} (f : A -> M B) (l : list A) : M (list B) :=
  match l with
  | [] => ret []
  | x :: l' => let* y := f x in let* ys := mapM f l' in ret (y :: ys)
  end.

(** Running a list of deferred calls in order. *)
Definition sequence {A} (l : list (M A)) : M (list A) := mapM id l.

(** [imports.add(entry)], guarded by [if imports is not None]. *)
Definition add_import (entry : string) : M unit := fun ctx =>
  (Ok tt,
   match imports ctx with
   | Some s => mkContext (Some ({[entry]} ∪ s)) (opts ctx) (_has_batch ctx) (warnings ctx)
   | None => ctx
   end).

(** [util.warn(msg)] *)
Definition warn (msg : string) : M unit := fun ctx =>
  (Ok tt, mkContext (imports ctx) (opts ctx) (_has_batch ctx) (warnings ctx ++ [msg])).

Definition set_has_batch (b : bool) (ctx : AutogenContext) : AutogenContext :=
  mkContext (imports ctx) (opts ctx) b (warnings ctx).

(** Modelled from the spec: [AutogenContext._within_batch] belongs to
    autogenerate/api.py, which is not among the sources.  Section 3: the
    flag is scoped to the extent of one batch container's children, set on
    entry and the prior state restored on exit. *)
Definition _within_batch {A} (body : M A) : M A := fun ctx =>
  let '(r, ctx') := body (set_has_batch true ctx) in
  (r, set_has_batch (_has_batch ctx) ctx').

(** ** Schema objects, by the attributes the renderer reads *)

(** A name: a plain [str], a [quoted_name], or a [conv] (a name produced
    by a naming convention). *)
Inductive Name :=
| Str (s : string)
| quoted_name (s : string)
| conv (s : string).

Definition name_text (n : Name) : string :=
  match n with Str s | quoted_name s | conv s => s end.

Definition name_truthy (o : option Name) : bool :=
  match o with Some n => Py.truthy (name_text n) | None => false end.

(** A SQL expression construct ([sql.ClauseElement]).  The renderer only
    passes it on to the dialect; it is kept by the text identifying it. *)
Record ClauseElement := mkClause { clause_text : string }.

(** A value that may be a SQL expression or any plain Python value. *)
Inductive Expr :=
| Clause (e : ClauseElement)
| Plain (v : Py.Val).

(** A [TypeEngine] instance.  An attribute the object need not have is an
    [option]. *)
Inductive TypeEngine := mkTypeEngine {
  type_is_Variant : bool;          (* type(type_) is sqltypes.Variant *)
  type_module : string;            (* type(type_).__module__ *)
  type_visit_name : string;        (* type_.__visit_name__ *)
  type_repr : string;              (* repr(type_) *)
  item_type : option TypeEngine;   (* getattr(type_, "item_type", None) *)
  type_impl : option TypeEngine;   (* type_.impl *)
  type_mapping : list (string * TypeEngine) }.  (* type_.mapping, as items *)

(** A column's server default. *)
Inductive ServerDefault :=
| Computed (sqltext : Expr) (persisted : option bool)
| Identity (always on_null : option bool)
           (options : list (string * Py.Val))
    (* options: (attr, getattr(identity, attr, None)) for attr in
       sqla_compat._identity_options_attrs *)
| DefaultClause (arg : Expr)
| DefaultStr (s : string)                (* a plain str *)
| FetchedValue (str_ : string).          (* any other object, by its str() *)

Definition sd_truthy (d : ServerDefault) : bool :=
  match d with DefaultStr s => Py.truthy s | _ => true end.

(** A field that is either the sentinel [False] or a value. *)
Inductive OrFalse (A : Type) :=
| IsFalse
| Val (v : A).
Arguments IsFalse {A}.
Arguments Val {A} v.

Record Column := mkColumn {
  column_name : option Name;
  column_type : TypeEngine;
  column_server_default : option ServerDefault;
  column_autoincrement : Py.Val;
  column_nullable : option bool;
  column_system : bool;
  column_comment : option string;
  column_kwargs : list (string * Expr) }.  (* sqla_compat._column_kwargs(column).items() *)

Record TableRef := mkTableRef {
  table_name : Name;
  table_schema : option Name }.

(** The parent column of a [ForeignKey]. *)
Record FkParent := mkFkParent {
  parent_name : option Name;
  parent_has_table : bool }.             (* fk.parent.table is not None *)

Record ForeignKey := mkForeignKey {
  fk_colspec : string;                   (* fk._get_colspec() *)
  link_to_name : bool;
  parent : option FkParent }.

Record PrimaryKeyConstraint := mkPrimaryKey {
  pk_name : option Name;
  pk_columns : list Name }.              (* c.name for c in constraint.columns *)

Record ForeignKeyConstraint := mkForeignKeyConstraint {
  fkc_name : option Name;
  onupdate : option string;
  ondelete : option string;
  fkc_initially : option string;
  fkc_deferrable : option bool;
  use_alter : bool;
  elements : list ForeignKey }.

Record UniqueConstraint := mkUnique {
  uq_name : option Name;
  uq_deferrable : option bool;
  uq_initially : option string;
  uq_table : option TableRef;
  uq_columns : list Name }.              (* col.name for col in constraint.columns *)

Record CheckConstraint := mkCheck {
  ck_name : option Name;
  ck_sqltext : Expr;
  ck_type_bound : bool }.
  (* ck_type_bound: _create_rule has a target that is a TypeEngine *)

Inductive Constraint :=
| CPrimaryKey (c : PrimaryKeyConstraint)
| CForeignKey (c : ForeignKeyConstraint)
| CUnique (c : UniqueConstraint)
| CCheck (c : CheckConstraint)
| COther (cls repr_ : string).           (* a constraint of any other class *)

(** [MetaData]: the default schema and, per table full name, the columns
    of [table.c] by key. *)
Record MetaData := mkMetaData {
  md_schema : option string;
  md_tables : gmap string (gmap string Name) }.

Record Table := mkTable {
  t_columns : list Column;
  t_constraints : list Constraint;
  t_comment : option Name;
  t_prefixes : list string }.

Inductive IndexExpr :=
| IdxColumn (name : option Name)         (* a Column, by getattr(exp, "name", None) *)
| IdxExpr (e : Expr).

Record Index := mkIndex {
  idx_name : option Name;
  idx_table : option TableRef;
  idx_expressions : list IndexExpr;
  idx_unique : option bool;
  idx_kwargs : list (string * Expr) }.

(** ** Operations *)

Record CreateTableCommentOp := mkCreateTableComment {
  ctc_table_name : string;
  ctc_comment : option string;
  ctc_existing_comment : option string;
  ctc_schema : option string }.

Record DropTableCommentOp := mkDropTableComment {
  dtc_table_name : string;
  dtc_existing_comment : option string;
  dtc_schema : option string }.

Record CreateTableOp := mkCreateTable {
  ct_table_name : Name;
  ct_schema : option Name;
  ct_kw : gmap string Py.Val;
  ct_to_table : Table;                   (* op.to_table() *)
  _namespace_metadata : option MetaData }.

Record DropTableOp := mkDropTable {
  dt_table_name : Name;
  dt_schema : option Name }.

Record CreateIndexOp := mkCreateIndex {
  ci_to_index : Index }.                 (* op.to_index() *)

Record DropIndexOp := mkDropIndex {
  di_index_name : option Name;
  di_table_name : option Name;
  di_schema : option Name;
  di_kwargs : list (string * Expr) }.    (* op.to_index().kwargs.items() *)

Record CreateUniqueConstraintOp := mkCreateUnique {
  cu_to_constraint : UniqueConstraint }. (* op.to_constraint() *)

Record CreateForeignKeyOp := mkCreateForeignKey {
  cfk_constraint_name : option Name;
  source_table : Name;
  referent_table : Name;
  local_cols : list Name;
  remote_cols : list Name;
  cfk_kw : gmap string Py.Val }.

Record CreatePrimaryKeyOp := mkCreatePrimaryKey {
  cpk_constraint_name : option Name;
  cpk_table_name : string;
  cpk_columns : list string }.

Record CreateCheckConstraintOp := mkCreateCheck {
  cck_constraint_name : option Name;
  cck_table_name : string;
  cck_condition : Expr }.

Record DropConstraintOp := mkDropConstraint {
  dc_constraint_name : option Name;
  dc_table_name : Name;
  dc_constraint_type : option string;
  dc_schema : option Name }.

Record AddColumnOp := mkAddColumn {
  ac_schema : option string;
  ac_table_name : string;
  ac_column : Column }.

Record DropColumnOp := mkDropColumn {
  dcol_schema : option Name;
  dcol_table_name : Name;
  dcol_column_name : Name }.

Record AlterColumnOp := mkAlterColumn {
  al_table_name : string;
  al_column_name : string;
  modify_server_default : OrFalse (option ServerDefault);
  modify_type : option TypeEngine;
  modify_nullable : option bool;
  modify_comment : OrFalse (option string);
  kw_autoincrement : Py.Val;             (* op.kw.get("autoincrement", None) *)
  existing_type : option TypeEngine;
  existing_nullable : option bool;
  existing_comment : option string;
  existing_server_default : OrFalse (option ServerDefault);
  al_schema : option string }.

Inductive SqlText :=
| SqlStr (s : string)                    (* a plain SQL string *)
| SqlClause (e : ClauseElement).         (* a SQL expression construct *)

Record ExecuteSQLOp := mkExecuteSQL {
  sqltext : SqlText }.

(** The operation tree.  [ModifyTableOps] is the container; [OtherOp] is
    an operation of a class this module registers no renderer for. *)
Inductive MigrateOperation :=
| ModifyTableOps (table_name : string) (schema : option string)
                 (ops : list MigrateOperation)
| Op_CreateTableComment (o : CreateTableCommentOp)
| Op_DropTableComment (o : DropTableCommentOp)
| Op_CreateTable (o : CreateTableOp)
| Op_DropTable (o : DropTableOp)
| Op_CreateIndex (o : CreateIndexOp)
| Op_DropIndex (o : DropIndexOp)
| Op_CreateUniqueConstraint (o : CreateUniqueConstraintOp)
| Op_CreateForeignKey (o : CreateForeignKeyOp)
| Op_CreatePrimaryKey (o : CreatePrimaryKeyOp)
| Op_CreateCheckConstraint (o : CreateCheckConstraintOp)
| Op_DropConstraint (o : DropConstraintOp)
| Op_AddColumn (o : AddColumnOp)
| Op_DropColumn (o : DropColumnOp)
| Op_AlterColumn (o : AlterColumnOp)
| Op_ExecuteSQL (o : ExecuteSQLOp)
| OtherOp (cls str_ : string).

(** ** External collaborators *)

(** What the [render_item] hook is handed as its second argument. *)
Inductive RenderItem :=
| ItemColumn (c : Column)
| ItemServerDefault (d : option ServerDefault)
| ItemType (t : TypeEngine)
| ItemPrimaryKey (c : PrimaryKeyConstraint)
| ItemForeignKey (c : ForeignKeyConstraint)
| ItemUnique (c : UniqueConstraint)
| ItemCheck (c : CheckConstraint).

(** [autogen_context.migration_context.impl].  [render_type] is handed the
    context; a false result ([None], [False]) is [None]. *)
Record DialectImpl := mkImpl {
  render_type : TypeEngine -> M (option string);
  render_ddl_sql_expr : ClauseElement -> bool -> Res string }.

(** Modelled from the spec: [util.Dispatcher] belongs to alembic/util,
    which is not among the sources.  Section 4.1: the dispatch key is the
    object's runtime kind, and an unregistered kind fails with a dispatch
    error naming the unhandled type; render.py catches that error as
    [ValueError].  A target is registered once. *)
Section Dispatcher.
Context {K R : Type} `{EqDecision K}.

Definition Dispatcher : Type := list (K * R).

Fixpoint registered (target : K) (d : Dispatcher) : option R :=
  match d with
  | [] => None
  | (k, fn) :: d' => if decide (k = target) then Some fn else registered target d'
  end.

Definition dispatch_for (target : K) (fn : R) (d : Dispatcher) : Dispatcher :=
  match registered target d with
  | Some _ => d
  | None => d ++ [(target, fn)]
  end.

Definition dispatch (d : Dispatcher) (target : K) (name : string) : Res R :=
  match registered target d with
  | Some fn => Ok fn
  | None => Raise (ValueError ("no dispatch function for object: " +:+ name))
  end.

Definition branch (d : Dispatcher) : Dispatcher := d.
End Dispatcher.
Arguments Dispatcher : clear implicits.

(** Modelled from the spec: [util.to_list] belongs to alembic/util.  A
    renderer returns one statement or a list of statements (section 4.1),
    and [render_op] returns the lines as a list. *)
Inductive Rendered :=
| Text (s : string)
| Lines (l : list string).

Definition to_list (x : Rendered) : list string :=
  match x with
  | Text s => [s]
  | Lines l => l
  end.

(** ** Pieces of text handling used by the renderers *)

(** [re.sub(r"^'|'$", "", s)]: a leading quote goes, and so does a quote
    that ends the text or stands before its final newline. *)
Fixpoint drop_final_quote (s : string) : string :=
  match s with
  | EmptyString => EmptyString
  | String c s' =>
      if Ascii.eqb c Py.squote &&
         (String.eqb s' "" || String.eqb s' Py.nl)
      then s'
      else String c (drop_final_quote s')
  end.

Definition sub_outer_quotes (s : string) : string :=
  match s with
  | String c s' => if Ascii.eqb c Py.squote then drop_final_quote s'
                   else drop_final_quote s
  | EmptyString => EmptyString
  end.

(** [re.sub(r"([\(\)])", r"\\\1", s)] *)
Fixpoint escape_parens (s : string) : string :=
  match s with
  | EmptyString => EmptyString
  | String c s' =>
      if Ascii.eqb c "("%char || Ascii.eqb c ")"%char
      then String Py.backslash (String c (escape_parens s'))
      else String c (escape_parens s')
  end.

(** [\w], on ASCII text. *)
Definition is_word (c : ascii) : bool :=
  let n := N_of_ascii c in
  ((48 <=? n) && (n <=? 57) || (65 <=? n) && (n <=? 90) ||
   (97 <=? n) && (n <=? 122) || (n =? 95))%N.

Fixpoint take_word (s : string) : string :=
  match s with
  | String c s' => if is_word c then String c (take_word s') else EmptyString
  | EmptyString => EmptyString
  end.

Fixpoint drop_prefix (p s : string) : option string :=
  match p, s with
  | EmptyString, _ => Some s
  | String a p', String b s' => if Ascii.eqb a b then drop_prefix p' s' else None
  | String _ _, EmptyString => None
  end.

(** [re.match(r"sqlalchemy\.dialects\.(\w+)", mod)], giving [group(1)]. *)
Definition match_dialect (mod_ : string) : option string :=
  match drop_prefix "sqlalchemy.dialects." mod_ with
  | Some rest => let w := take_word rest in
                 if Py.truthy w then Some w else None
  | None => None
  end.

(** Truth value of what [_render_server_default] returns. *)
Definition val_truthy (v : Py.Val) : bool :=
  match v with
  | Py.VNone => false
  | Py.VBool b => b
  | Py.VInt z => negb (z =? 0)%Z
  | Py.VStr s => Py.truthy s
  | Py.VList l => match l with [] => false | _ => true end
  | Py.VObj _ _ => true
  end.

(** [kwargs[key] = value] on an [OrderedDict] kept as its items. *)
Fixpoint odict_set (key : string) (v : Py.Val) (d : list (string * Py.Val))
  : list (string * Py.Val) :=
  match d with
  | [] => [(key, v)]
  | (k, w) :: d' => if String.eqb k key then (k, v) :: d'
                    else (k, w) :: odict_set key v d'
  end.

Definition MAX_PYTHON_ARGS : nat := 255.

(** ** The renderers *)

Section Render.

(** [opts["render_item"]] when it is present and true: the user's
    override hook, handed the item kind, the item and the context; it
    answers with text, or with [False] ([None] here) to decline. *)
Variable render_item : option (string -> RenderItem -> M (option string)).

(** [migration_context.impl], when the migration context has one. *)
Variable impl : option DialectImpl.

(** [re.sub(pattern, repl, string)] of the standard library. *)
Variable re_sub : string -> string -> string -> Res string.

(** [repr()] of a [quoted_name], which SQLAlchemy defines. *)
Variable repr_quoted_name : string -> string.

(** [sqla_compat.AUTOINCREMENT_DEFAULT] *)
Variable AUTOINCREMENT_DEFAULT : string.

Definition repr_name (n : Name) : string :=
  match n with
  | Str s => Py.repr_str s
  | quoted_name s | conv s => repr_quoted_name s
  end.

Definition repr_opt_name (o : option Name) : string :=
  match o with Some n => repr_name n | None => "None" end.

Definition _ident (name : option Name) : option string :=
  match name with
  | None => None
  | Some (quoted_name s) | Some (conv s) => Some s
  | Some (Str s) => Some s
  end.

Definition _sqlalchemy_autogenerate_prefix : M string :=
  gets (fun ctx => default "" (sqlalchemy_module_prefix (opts ctx))).

(** The prefix [_alembic_autogenerate_prefix] reads off a context. *)
Definition _alembic_autogenerate_prefix_of (ctx : AutogenContext) : string :=
  if _has_batch ctx then "batch_op."
  else default "" (alembic_module_prefix (opts ctx)).

Definition _alembic_autogenerate_prefix : M string :=
  gets _alembic_autogenerate_prefix_of.

Definition _user_autogenerate_prefix (target : TypeEngine) : M string :=
  gets (fun ctx =>
          match user_module_prefix (opts ctx) with
          | None => type_module target +:+ "."
          | Some prefix => prefix
          end).

(** An [_f_name] object, by its [__repr__]. *)
Definition _f_name (prefix : string) (name : Name) : Py.Val :=
  let r := prefix +:+ "f(" +:+ Py.repr_opt (_ident (Some name)) +:+ ")" in
  Py.VObj r r.

Definition _render_gen_name (name : option Name) : M Py.Val :=
  match name with
  | Some (conv s) =>
      let* prefix := _alembic_autogenerate_prefix in
      ret (_f_name prefix (conv s))
  | Some n => ret (Py.VObj (repr_name n) (name_text n))
  | None => ret Py.VNone
  end.

Definition _user_defined_render (type_ : string) (object_ : RenderItem)
  : M (option string) :=
  match render_item with
  | Some render => render type_ object_
  | None => ret None
  end.

Definition _render_potential_expr (value : Expr)
    (wrap_in_text is_server_default : bool) : M string :=
  match value with
  | Clause e =>
      let* prefix := _sqlalchemy_autogenerate_prefix in
      let* sql :=
        match impl with
        | Some i => lift (render_ddl_sql_expr i e is_server_default)
        | None => raise (AttributeError "impl")
        end in
      if wrap_in_text
      then ret (prefix +:+ "text(" +:+ Py.repr_str sql +:+ ")")
      else ret (Py.repr_str sql)
  | Plain v => ret (Py.repr v)
  end.

Definition _get_index_rendered_expressions (idx : Index) : M (list string) :=
  mapM (fun exp =>
          match exp with
          | IdxColumn name => ret (Py.repr_opt (_ident name))
          | IdxExpr e => _render_potential_expr e true false
          end) (idx_expressions idx).

Definition kwarg_r (kv : string * Py.Val) : string :=
  fst kv +:+ "=" +:+ Py.repr (snd kv).

Definition kwarg_s (kv : string * string) : string :=
  fst kv +:+ "=" +:+ snd kv.

Definition _uq_constraint (constraint : UniqueConstraint) (alter : bool)
  : M string :=
  let* has_batch := gets _has_batch in
  let opts1 :=
    if default false (uq_deferrable constraint)
    then [("deferrable", Py.VStr (Py.repr_opt_bool (uq_deferrable constraint)))]
    else [] in
  let opts2 :=
    if Py.truthy_opt (uq_initially constraint)
    then opts1 ++ [("initially", Py.VStr (Py.str_opt (uq_initially constraint)))]
    else opts1 in
  let* opts3 :=
    if negb has_batch && alter then
      match uq_table constraint with
      | None => raise (AttributeError "schema")
      | Some t =>
          if name_truthy (table_schema t)
          then ret (opts2 ++ [("schema", Py.of_opt (_ident (table_schema t)))])
          else ret opts2
      end
    else ret opts2 in
  let* opts4 :=
    if negb alter && name_truthy (uq_name constraint) then
      let* n := _render_gen_name (uq_name constraint) in
      ret (opts3 ++ [("name", n)])
    else ret opts3 in
  let cols := map (fun c => Py.of_opt (_ident (Some c))) (uq_columns constraint) in
  if alter then
    let* n := _render_gen_name (uq_name constraint) in
    let args := [Py.repr n] in
    let* args :=
      if negb has_batch then
        match uq_table constraint with
        | None => raise (AttributeError "name")
        | Some t => ret (args ++ [Py.repr_opt (_ident (Some (table_name t)))])
        end
      else ret args in
    let args := args ++ [Py.repr (Py.VList cols)] in
    let args := args ++ map kwarg_r opts4 in
    let* prefix := _alembic_autogenerate_prefix in
    ret (prefix +:+ "create_unique_constraint(" +:+ Py.join ", " args +:+ ")")
  else
    let args := map Py.repr cols in
    let args := args ++ map kwarg_r opts4 in
    let* prefix := _sqlalchemy_autogenerate_prefix in
    ret (prefix +:+ "UniqueConstraint(" +:+ Py.join ", " args +:+ ")").

Definition _server_default_is_computed (d : option ServerDefault) : bool :=
  match d with Some (Computed _ _) => true | _ => false end.

Definition _server_default_is_identity (d : option ServerDefault) : bool :=
  match d with Some (Identity _ _ _) => true | _ => false end.

Definition _should_render_server_default_positionally
    (server_default : option ServerDefault) : bool :=
  _server_default_is_computed server_default
  || _server_default_is_identity server_default.

Definition _render_computed (sqltext : Expr) (persisted : option bool)
  : M string :=
  let* text := _render_potential_expr sqltext false false in
  let kwargs :=
    match persisted with
    | Some b => [("persisted", Py.repr_bool b)]
    | None => []
    end in
  let* prefix := _sqlalchemy_autogenerate_prefix in
  ret (prefix +:+ "Computed(" +:+ text +:+ ", "
       +:+ Py.join ", " (map kwarg_s kwargs) +:+ ")").

Definition _get_identity_options (options : list (string * Py.Val))
  : list (string * Py.Val) :=
  foldl (fun kwargs av =>
           match snd av with
           | Py.VNone => kwargs
           | value => odict_set (fst av) value kwargs
           end) [] options.

Definition _render_identity (always on_null : option bool)
    (options : list (string * Py.Val)) : M string :=
  let kwargs := [("always", match always with
                            | Some b => Py.VBool b
                            | None => Py.VNone
                            end)] in
  let kwargs :=
    match on_null with
    | Some b => odict_set "on_null" (Py.VBool b) kwargs
    | None => kwargs
    end in
  let kwargs :=
    foldl (fun kw kv => odict_set (fst kv) (snd kv) kw) kwargs
          (_get_identity_options options) in
  let* prefix := _sqlalchemy_autogenerate_prefix in
  ret (prefix +:+ "Identity("
       +:+ Py.join ", " (map (fun kv => fst kv +:+ "=" +:+ Py.str (snd kv)) kwargs)
       +:+ ")").

Definition _render_server_default (default_ : option ServerDefault)
    (repr_ : bool) : M Py.Val :=
  let* rendered := _user_defined_render "server_default" (ItemServerDefault default_) in
  match rendered with
  | Some r => ret (Py.VStr r)
  | None =>
      let finish (d : Py.Val) : M Py.Val :=
        match d with
        | Py.VStr s => if repr_ then ret (Py.VStr (Py.repr_str (sub_outer_quotes s)))
                       else ret d
        | _ => ret d
        end in
      match default_ with
      | Some (Computed sqltext persisted) =>
          let* r := _render_computed sqltext persisted in ret (Py.VStr r)
      | Some (Identity always on_null options) =>
          let* r := _render_identity always on_null options in ret (Py.VStr r)
      | Some (DefaultClause (Plain (Py.VStr s))) => finish (Py.VStr s)
      | Some (DefaultClause arg) =>
          let* r := _render_potential_expr arg true true in ret (Py.VStr r)
      | Some (DefaultStr s) => finish (Py.VStr s)
      | Some (FetchedValue s) => finish (Py.VObj s s)
      | None => finish Py.VNone
      end
  end.

(** [getattr(type_, attrname, None)] *)
Definition getattr_type (type_ : TypeEngine) (attrname : string)
  : option TypeEngine :=
  if String.eqb attrname "item_type" then item_type type_
  else if String.eqb attrname "impl" then type_impl type_
  else None.

(** [_repr_type] and the renderers of parameterized types call each
    other; [self] is [_repr_type]. *)
Definition _render_type_w_subtype (self : TypeEngine -> M Py.Val)
    (type_ : TypeEngine) (attrname regexp : string) (prefix : option string)
  : M Py.Val :=
  let outer_repr := type_repr type_ in
  match getattr_type type_ attrname with
  | None => ret (Py.VBool false)
  | Some inner_type =>
      let inner_repr := escape_parens (type_repr inner_type) in
      let* sub_type := self inner_type in
      let* outer_type :=
        lift (re_sub (regexp +:+ inner_repr) ("\1" +:+ Py.str sub_type) outer_repr) in
      if Py.truthy_opt prefix then ret (Py.VStr (Py.str_opt prefix +:+ outer_type))
      else
        let mod_ := type_module type_ in
        if Py.startswith mod_ "sqlalchemy.dialects" then
          match match_dialect mod_ with
          | None => raise AssertionError
          | Some dname => ret (Py.VStr (dname +:+ "." +:+ outer_type))
          end
        else if Py.startswith mod_ "sqlalchemy" then
          let* prefix := _sqlalchemy_autogenerate_prefix in
          ret (Py.VStr (prefix +:+ outer_type))
        else ret Py.VNone
  end.

Definition _render_ARRAY_type (self : TypeEngine -> M Py.Val)
    (type_ : TypeEngine) : M Py.Val :=
  _render_type_w_subtype self type_ "item_type" "(.+?\()" None.

Definition _render_Variant_type (self : TypeEngine -> M Py.Val)
    (type_ : TypeEngine) : M Py.Val :=
  match type_impl type_ with
  | None => raise (AttributeError "impl")
  | Some impl_ =>
      let* base := self impl_ in
      match base with
      | Py.VNone | Py.VBool false => raise AssertionError
      | _ =>
          let variants :=
            Py.sorted_by fst
              (map (fun dt => (fst dt, self (snd dt))) (type_mapping type_)) in
          let* base :=
            foldl (fun acc dv =>
                     let* base := acc in
                     let* typ := snd dv in
                     ret (base +:+ ".with_variant(" +:+ Py.str typ +:+ ", "
                          +:+ Py.repr_str (fst dv) +:+ ")"))
                  (ret (Py.str base)) variants in
          ret (Py.VStr base)
      end
  end.

Fixpoint _repr_type (type_ : TypeEngine) : M Py.Val :=
  let* rendered := _user_defined_render "type" (ItemType type_) in
  match rendered with
  | Some r => ret (Py.VStr r)
  | None =>
      let* impl_rt :=
        match impl with
        | Some i => render_type i type_
        | None => ret None
        end in
      let mod_ := type_module type_ in
      if Py.startswith mod_ "sqlalchemy.dialects" then
        match match_dialect mod_ with
        | None => raise AssertionError
        | Some dname =>
            let* _ := add_import ("from sqlalchemy.dialects import " +:+ dname) in
            if Py.truthy_opt impl_rt then ret (Py.of_opt impl_rt)
            else ret (Py.VStr (dname +:+ "." +:+ type_repr type_))
        end
      else if Py.truthy_opt impl_rt then ret (Py.of_opt impl_rt)
      else if Py.startswith mod_ "sqlalchemy." then
        if type_is_Variant type_ then _render_Variant_type _repr_type type_
        else if String.eqb (type_visit_name type_) "ARRAY"
        then _render_ARRAY_type _repr_type type_
        else if String.eqb (type_visit_name type_) "Variant"
        then _render_Variant_type _repr_type type_
        else
          let* prefix := _sqlalchemy_autogenerate_prefix in
          ret (Py.VStr (prefix +:+ type_repr type_))
      else
        let* prefix := _user_autogenerate_prefix type_ in
        ret (Py.VStr (prefix +:+ type_repr type_))
  end.

Definition _render_column (column : Column) : M string :=
  let* rendered := _user_defined_render "column" (ItemColumn column) in
  match rendered with
  | Some r => ret r
  | None =>
      let* args_opts : list Py.Val * list (string * string) :=
        match column_server_default column with
        | Some d =>
            if sd_truthy d then
              let* rendered := _render_server_default (Some d) true in
              if val_truthy rendered then
                if _should_render_server_default_positionally (Some d)
                then ret ([rendered], [])
                else ret ([], [("server_default", Py.str rendered)])
              else ret ([], [])
            else ret ([], [])
        | None => ret ([], [])
        end in
      let args : list Py.Val := fst args_opts in
      let opts : list (string * string) := snd args_opts in
      let opts :=
        match column_autoincrement column with
        | Py.VNone => opts
        | a => if Py.ne_str a AUTOINCREMENT_DEFAULT
               then opts ++ [("autoincrement", Py.str a)]
               else opts
        end in
      let opts :=
        match column_nullable column with
        | Some b => opts ++ [("nullable", Py.repr_bool b)]
        | None => opts
        end in
      let opts :=
        if column_system column
        then opts ++ [("system", Py.repr_bool (column_system column))]
        else opts in
      let opts :=
        if Py.truthy_opt (column_comment column)
        then opts ++ [("comment", Py.repr_opt (column_comment column))]
        else opts in
      let* prefix := _sqlalchemy_autogenerate_prefix in
      let name := Py.repr_opt (_ident (column_name column)) in
      let* type_ := _repr_type (column_type column) in
      let args_text :=
        match args with
        | [] => ""
        | _ => Py.join ", " (map Py.str args) +:+ ", "
        end in
      let* kwargs :=
        mapM (fun kv =>
                let* v := _render_potential_expr (snd kv) true false in
                ret (fst kv +:+ "=" +:+ v)) (column_kwargs column) in
      ret (prefix +:+ "Column(" +:+ name +:+ ", " +:+ Py.str type_ +:+ ", "
           +:+ args_text +:+ Py.join ", " (map kwarg_s opts ++ kwargs) +:+ ")")
  end.

(** *** Constraints *)

Definition name_opts (name : option Name) : M (list (string * string)) :=
  if name_truthy name then
    let* n := _render_gen_name name in
    ret [("name", Py.repr n)]
  else ret [].

Definition _render_primary_key (constraint : PrimaryKeyConstraint)
    (namespace_metadata : option MetaData) : M (option string) :=
  let* rendered := _user_defined_render "primary_key" (ItemPrimaryKey constraint) in
  match rendered with
  | Some r => ret (Some r)
  | None =>
      match pk_columns constraint with
      | [] => ret None
      | columns =>
          let* opts := name_opts (pk_name constraint) in
          let* prefix := _sqlalchemy_autogenerate_prefix in
          ret (Some (prefix +:+ "PrimaryKeyConstraint("
                     +:+ Py.join ", " (map repr_name columns ++ map kwarg_s opts)
                     +:+ ")"))
      end
  end.

(** [tokens[-2:]] unpacked into two names. *)
Definition last_two (tokens : list string) : Res (string * string) :=
  match reverse tokens with
  | colname :: tname :: _ => Ok (tname, colname)
  | _ => Raise (ValueError "not enough values to unpack (expected 2, got 1)")
  end.

Definition _fk_colspec (fk : ForeignKey) (metadata_schema : option string)
    (namespace_metadata : MetaData) : Res string :=
  let colspec := fk_colspec fk in
  let tokens := Py.split "." colspec in
  match last_two tokens with
  | Raise e => Raise e
  | Ok (tname, colname) =>
      let table_fullname :=
        match metadata_schema with
        | Some s => if decide (length tokens = 2) then s +:+ "." +:+ tname
                    else Py.join "." (removelast tokens)
        | None => Py.join "." (removelast tokens)
        end in
      let colname : option string :=
        if negb (link_to_name fk)
           && match parent fk with
              | Some p => parent_has_table p
              | None => false
              end
        then
          match md_tables namespace_metadata !! table_fullname with
          | Some c =>
              match c !! colname with
              | Some col_name => _ident (Some col_name)
              | None => Some colname
              end
          | None => Some colname
          end
        else Some colname in
      Ok (table_fullname +:+ "." +:+ Py.str_opt colname)
  end.

Definition _populate_render_fk_opts (constraint : ForeignKeyConstraint)
    (opts : list (string * string)) : list (string * string) :=
  let opts := if Py.truthy_opt (onupdate constraint)
              then opts ++ [("onupdate", Py.repr_opt (onupdate constraint))]
              else opts in
  let opts := if Py.truthy_opt (ondelete constraint)
              then opts ++ [("ondelete", Py.repr_opt (ondelete constraint))]
              else opts in
  let opts := if Py.truthy_opt (fkc_initially constraint)
              then opts ++ [("initially", Py.repr_opt (fkc_initially constraint))]
              else opts in
  let opts := if default false (fkc_deferrable constraint)
              then opts ++ [("deferrable", Py.repr_opt_bool (fkc_deferrable constraint))]
              else opts in
  if use_alter constraint
  then opts ++ [("use_alter", Py.repr_bool (use_alter constraint))]
  else opts.

Definition _render_foreign_key (constraint : ForeignKeyConstraint)
    (namespace_metadata : option MetaData) : M (option string) :=
  let* rendered := _user_defined_render "foreign_key" (ItemForeignKey constraint) in
  match rendered with
  | Some r => ret (Some r)
  | None =>
      let* opts := name_opts (fkc_name constraint) in
      let opts := _populate_render_fk_opts constraint opts in
      match namespace_metadata with
      | None => raise (AttributeError "schema")
      | Some md =>
          let apply_metadata_schema := md_schema md in
          let* prefix := _sqlalchemy_autogenerate_prefix in
          let* cols :=
            mapM (fun f =>
                    match parent f with
                    | Some p => ret (Py.repr_opt (_ident (parent_name p)))
                    | None => raise (AttributeError "name")
                    end) (elements constraint) in
          let* refcols :=
            mapM (fun f =>
                    let* spec := lift (_fk_colspec f apply_metadata_schema md) in
                    ret (Py.repr_str spec)) (elements constraint) in
          ret (Some (prefix +:+ "ForeignKeyConstraint([" +:+ Py.join ", " cols
                     +:+ "], [" +:+ Py.join ", " refcols +:+ "], "
                     +:+ Py.join ", " (map kwarg_s opts) +:+ ")"))
      end
  end.

Definition _render_unique_constraint (constraint : UniqueConstraint)
    (namespace_metadata : option MetaData) : M (option string) :=
  let* rendered := _user_defined_render "unique" (ItemUnique constraint) in
  match rendered with
  | Some r => ret (Some r)
  | None => let* r := _uq_constraint constraint false in ret (Some r)
  end.

Definition _render_check_constraint (constraint : CheckConstraint)
    (namespace_metadata : option MetaData) : M (option string) :=
  let* rendered := _user_defined_render "check" (ItemCheck constraint) in
  match rendered with
  | Some r => ret (Some r)
  | None =>
      if ck_type_bound constraint then ret None
      else
        let* opts := name_opts (ck_name constraint) in
        let* prefix := _sqlalchemy_autogenerate_prefix in
        let opts_text :=
          match opts with
          | [] => ""
          | _ => ", " +:+ Py.join ", " (map kwarg_s opts)
          end in
        let* sqltext_ := _render_potential_expr (ck_sqltext constraint) false false in
        ret (Some (prefix +:+ "CheckConstraint(" +:+ sqltext_ +:+ opts_text +:+ ")"))
  end.

Inductive ConstraintKind :=
| K_PrimaryKeyConstraint
| K_ForeignKeyConstraint
| K_UniqueConstraint
| K_CheckConstraint
| K_OtherConstraint (cls : string).

#[global] Instance ConstraintKind_eq_dec : EqDecision ConstraintKind.
Proof. solve_decision. Defined.

Definition constraint_kind (c : Constraint) : ConstraintKind :=
  match c with
  | CPrimaryKey _ => K_PrimaryKeyConstraint
  | CForeignKey _ => K_ForeignKeyConstraint
  | CUnique _ => K_UniqueConstraint
  | CCheck _ => K_CheckConstraint
  | COther cls _ => K_OtherConstraint cls
  end.

Definition constraint_cls (c : Constraint) : string :=
  match c with
  | CPrimaryKey _ => "PrimaryKeyConstraint"
  | CForeignKey _ => "ForeignKeyConstraint"
  | CUnique _ => "UniqueConstraint"
  | CCheck _ => "CheckConstraint"
  | COther cls _ => cls
  end.

Definition ConstraintRenderer : Type :=
  Constraint -> option MetaData -> M (option string).

(** The constraint registry, as the [dispatch_for] decorators fill it. *)
Definition _constraint_renderers : Dispatcher ConstraintKind ConstraintRenderer :=
  dispatch_for K_CheckConstraint
    (fun c md => match c with
                 | CCheck c => _render_check_constraint c md
                 | _ => raise (AttributeError "_create_rule")
                 end)
  (dispatch_for K_UniqueConstraint
    (fun c md => match c with
                 | CUnique c => _render_unique_constraint c md
                 | _ => raise (AttributeError "columns")
                 end)
  (dispatch_for K_ForeignKeyConstraint
    (fun c md => match c with
                 | CForeignKey c => _render_foreign_key c md
                 | _ => raise (AttributeError "elements")
                 end)
  (dispatch_for K_PrimaryKeyConstraint
    (fun c md => match c with
                 | CPrimaryKey c => _render_primary_key c md
                 | _ => raise (AttributeError "columns")
                 end)
    []))).

(** [repr(constraint)]; it is read only when dispatch fails, that is
    for a constraint of another class. *)
Definition repr_constraint (c : Constraint) : string :=
  match c with
  | COther _ r => r
  | _ => constraint_cls c +:+ "()"
  end.

Definition _render_constraint (constraint : Constraint)
    (namespace_metadata : option MetaData) : M (option string) :=
  match dispatch _constraint_renderers (constraint_kind constraint)
                 (constraint_cls constraint) with
  | Raise (ValueError _) =>
      let* _ := warn ("No renderer is established for object "
                      +:+ repr_constraint constraint) in
      ret (Some ("[Unknown Python object " +:+ repr_constraint constraint +:+ "]"))
  | Raise e => raise e
  | Ok renderer => renderer constraint namespace_metadata
  end.

(** *** Operations *)

Definition quoted_or_None (o : option string) : string :=
  match o with
  | Some s => "'" +:+ s +:+ "'"
  | None => "None"
  end.

Definition _render_create_table_comment (op : CreateTableCommentOp) : M string :=
  let indent := "    " in
  let* prefix := _alembic_autogenerate_prefix in
  ret (prefix +:+ "create_table_comment(" +:+ Py.nl
       +:+ indent +:+ "'" +:+ ctc_table_name op +:+ "'," +:+ Py.nl
       +:+ indent +:+ Py.repr_opt (ctc_comment op) +:+ "," +:+ Py.nl
       +:+ indent +:+ "existing_comment=" +:+ Py.repr_opt (ctc_existing_comment op)
       +:+ "," +:+ Py.nl
       +:+ indent +:+ "schema=" +:+ quoted_or_None (ctc_schema op) +:+ Py.nl
       +:+ ")").

Definition _render_drop_table_comment (op : DropTableCommentOp) : M string :=
  let indent := "    " in
  let* prefix := _alembic_autogenerate_prefix in
  ret (prefix +:+ "drop_table_comment(" +:+ Py.nl
       +:+ indent +:+ "'" +:+ dtc_table_name op +:+ "'," +:+ Py.nl
       +:+ indent +:+ "existing_comment=" +:+ Py.repr_opt (dtc_existing_comment op)
       +:+ "," +:+ Py.nl
       +:+ indent +:+ "schema=" +:+ quoted_or_None (dtc_schema op) +:+ Py.nl
       +:+ ")").

(** The [args] list of [_add_table]: the rendered columns that are true,
    then the rendered constraints that are not [None], sorted. *)
Definition _add_table_args (op : CreateTableOp) : M (list string) :=
  let table := ct_to_table op in
  let* cols := mapM _render_column (t_columns table) in
  let* conss :=
    mapM (fun cons => _render_constraint cons (_namespace_metadata op))
         (t_constraints table) in
  ret (filter (fun col => Py.truthy col = true) cols
       ++ Py.sorted (omap id conss)).

(** [args_str]: the unpacked-list form past [MAX_PYTHON_ARGS]. *)
Definition args_str (args : list string) : string :=
  if (MAX_PYTHON_ARGS <? length args)%nat
  then "*[" +:+ Py.join ("," +:+ Py.nl) args +:+ "]"
  else Py.join ("," +:+ Py.nl) args.

(** What [_add_table] appends after the positional arguments. *)
Definition _add_table_tail (op : CreateTableOp) : string :=
  let table := ct_to_table op in
  let text := "" in
  let text :=
    if name_truthy (ct_schema op)
    then text +:+ "," +:+ Py.nl +:+ "schema=" +:+ Py.repr_opt (_ident (ct_schema op))
    else text in
  let comment := t_comment table in
  let text :=
    if name_truthy comment
    then text +:+ "," +:+ Py.nl +:+ "comment=" +:+ Py.repr_opt (_ident comment)
    else text in
  let text :=
    foldl (fun text kv =>
             text +:+ "," +:+ Py.nl +:+ Py.replace " " "_" (fst kv)
             +:+ "=" +:+ Py.repr (snd kv))
          text (Py.sorted_by fst (map_to_list (ct_kw op))) in
  let text :=
    match t_prefixes table with
    | [] => text
    | ps =>
        let prefixes := Py.join ", " (map (fun p => "'" +:+ p +:+ "'") ps) in
        text +:+ "," +:+ Py.nl +:+ "prefixes=[" +:+ prefixes +:+ "]"
    end in
  text +:+ Py.nl +:+ ")".

Definition _add_table (op : CreateTableOp) : M string :=
  let* args := _add_table_args op in
  let args_str := args_str args in
  let tablename := Py.repr_opt (_ident (Some (ct_table_name op))) in
  let* prefix := _alembic_autogenerate_prefix in
  let text := prefix +:+ "create_table(" +:+ tablename +:+ "," +:+ Py.nl
              +:+ args_str in
  ret (text +:+ _add_table_tail op).

Definition _drop_table (op : DropTableOp) : M string :=
  let* prefix := _alembic_autogenerate_prefix in
  let text := prefix +:+ "drop_table("
              +:+ Py.repr_opt (_ident (Some (dt_table_name op))) in
  let text :=
    if name_truthy (dt_schema op)
    then text +:+ ", schema=" +:+ Py.repr_opt (_ident (dt_schema op))
    else text in
  ret (text +:+ ")").

Definition render_kwargs (kwargs : list (string * Expr)) : M string :=
  match kwargs with
  | [] => ret ""
  | _ =>
      let* items :=
        mapM (fun kv =>
                let* v := _render_potential_expr (snd kv) true false in
                ret (fst kv +:+ "=" +:+ v)) kwargs in
      ret (", " +:+ Py.join ", " items)
  end.

Definition schema_kwarg (schema : option Name) : string :=
  if name_truthy schema then ", schema=" +:+ Py.repr_opt (_ident schema) else "".

Definition _add_index (op : CreateIndexOp) : M string :=
  let index := ci_to_index op in
  let* has_batch := gets _has_batch in
  match idx_table index with
  | None => raise AssertionError
  | Some table =>
      let* prefix := _alembic_autogenerate_prefix in
      let* name := _render_gen_name (idx_name index) in
      let table_ := Py.repr_opt (_ident (Some (table_name table))) in
      let* columns := _get_index_rendered_expressions index in
      let unique := Py.repr_bool (default false (idx_unique index)) in
      let schema := schema_kwarg (table_schema table) in
      let* kwargs := render_kwargs (idx_kwargs index) in
      if has_batch then
        ret (prefix +:+ "create_index(" +:+ Py.repr name +:+ ", ["
             +:+ Py.join ", " columns +:+ "], unique=" +:+ unique +:+ kwargs +:+ ")")
      else
        ret (prefix +:+ "create_index(" +:+ Py.repr name +:+ ", " +:+ table_
             +:+ ", [" +:+ Py.join ", " columns +:+ "], unique=" +:+ unique
             +:+ schema +:+ kwargs +:+ ")")
  end.

Definition _drop_index (op : DropIndexOp) : M string :=
  let* has_batch := gets _has_batch in
  let* prefix := _alembic_autogenerate_prefix in
  let* name := _render_gen_name (di_index_name op) in
  let table_name_ := Py.repr_opt (_ident (di_table_name op)) in
  let schema := schema_kwarg (di_schema op) in
  let* kwargs := render_kwargs (di_kwargs op) in
  if has_batch then
    ret (prefix +:+ "drop_index(" +:+ Py.repr name +:+ kwargs +:+ ")")
  else
    ret (prefix +:+ "drop_index(" +:+ Py.repr name +:+ ", table_name="
         +:+ table_name_ +:+ schema +:+ kwargs +:+ ")").

Definition _add_unique_constraint (op : CreateUniqueConstraintOp)
  : M (list string) :=
  let* r := _uq_constraint (cu_to_constraint op) true in
  ret [r].

Definition _add_fk_constraint (op : CreateForeignKeyOp) : M string :=
  let* name := _render_gen_name (cfk_constraint_name op) in
  let args := [Py.repr name] in
  let* has_batch := gets _has_batch in
  let args :=
    if negb has_batch
    then args ++ [Py.repr_opt (_ident (Some (source_table op)))]
    else args in
  let idents (cols : list Name) : Py.Val :=
    Py.VList (map (fun col => Py.of_opt (_ident (Some col))) cols) in
  let args :=
    args ++ [Py.repr_opt (_ident (Some (referent_table op)));
             Py.repr (idents (local_cols op));
             Py.repr (idents (remote_cols op))] in
  let kwargs := ["referent_schema"; "onupdate"; "ondelete"; "initially";
                 "deferrable"; "use_alter"] in
  let* has_batch := gets _has_batch in
  let kwargs := if negb has_batch then "source_schema" :: kwargs else kwargs in
  let args :=
    foldl (fun args k =>
             match cfk_kw op !! k with
             | Some Py.VNone | None => args
             | Some value => args ++ [k +:+ "=" +:+ Py.repr value]
             end) args kwargs in
  let* prefix := _alembic_autogenerate_prefix in
  ret (prefix +:+ "create_foreign_key(" +:+ Py.join ", " args +:+ ")").

(** The parameters are named [constraint] and [autogen_context] in the
    source; the renderer is called with the context and the operation. *)
Definition _add_pk_constraint (op : CreatePrimaryKeyOp) : M string :=
  raise (NotImplementedError "").

Definition _add_check_constraint (op : CreateCheckConstraintOp) : M string :=
  raise (NotImplementedError "").

Definition _drop_constraint (op : DropConstraintOp) : M string :=
  let* has_batch := gets _has_batch in
  let* prefix := _alembic_autogenerate_prefix in
  let* name := _render_gen_name (dc_constraint_name op) in
  let table_name_ := Py.str_opt (_ident (Some (dc_table_name op))) in
  let type_ := Py.repr_opt (dc_constraint_type op) in
  let schema := schema_kwarg (dc_schema op) in
  if has_batch then
    ret (prefix +:+ "drop_constraint(" +:+ Py.repr name +:+ ", type_="
         +:+ type_ +:+ ")")
  else
    ret (prefix +:+ "drop_constraint(" +:+ Py.repr name +:+ ", '"
         +:+ table_name_ +:+ "'" +:+ schema +:+ ", type_=" +:+ type_ +:+ ")").

Definition _add_column (op : AddColumnOp) : M string :=
  let schema := ac_schema op in
  let tname := ac_table_name op in
  let column := ac_column op in
  let* has_batch := gets _has_batch in
  let* prefix := _alembic_autogenerate_prefix in
  let* column_ := _render_column column in
  if has_batch then
    ret (prefix +:+ "add_column(" +:+ column_ +:+ ")")
  else
    ret (prefix +:+ "add_column(" +:+ Py.repr_str tname +:+ ", " +:+ column_
         +:+ (if Py.truthy_opt schema then ", schema=" +:+ Py.repr_opt schema else "")
         +:+ ")").

Definition _drop_column (op : DropColumnOp) : M string :=
  let schema := dcol_schema op in
  let tname := dcol_table_name op in
  let column_name := dcol_column_name op in
  let* has_batch := gets _has_batch in
  let* prefix := _alembic_autogenerate_prefix in
  if has_batch then
    ret (prefix +:+ "drop_column(" +:+ Py.repr_opt (_ident (Some column_name)) +:+ ")")
  else
    ret (prefix +:+ "drop_column(" +:+ Py.repr_opt (_ident (Some tname)) +:+ ", "
         +:+ Py.repr_opt (_ident (Some column_name))
         +:+ (if name_truthy schema
              then ", schema=" +:+ Py.repr_opt (_ident schema) else "")
         +:+ ")").

Definition indent11 : string := "           ".

(** One keyword argument appended by [_alter_column]:
    [",\n%s<key>=<value>" % indent]. *)
Definition alter_kwarg (key value : string) : string :=
  "," +:+ Py.nl +:+ indent11 +:+ key +:+ "=" +:+ value.

Definition or_false_truthy (d : OrFalse (option ServerDefault)) : bool :=
  match d with
  | Val (Some d) => sd_truthy d
  | _ => false
  end.

Definition repr_or_false (c : OrFalse (option string)) : string :=
  match c with
  | IsFalse => "False"
  | Val o => Py.repr_opt o
  end.

Definition _alter_column (op : AlterColumnOp) : M string :=
  let tname := al_table_name op in
  let cname := al_column_name op in
  let server_default := modify_server_default op in
  let type_ := modify_type op in
  let nullable := modify_nullable op in
  let comment := modify_comment op in
  let autoincrement := kw_autoincrement op in
  let schema := al_schema op in
  let* has_batch := gets _has_batch in
  let* prefix := _alembic_autogenerate_prefix in
  let text :=
    if has_batch
    then prefix +:+ "alter_column(" +:+ Py.repr_str cname
    else prefix +:+ "alter_column(" +:+ Py.repr_str tname +:+ ", "
         +:+ Py.repr_str cname in
  let* text :=
    match existing_type op with
    | Some t => let* r := _repr_type t in
                ret (text +:+ alter_kwarg "existing_type" (Py.str r))
    | None => ret text
    end in
  let* text :=
    match server_default with
    | Val d => let* rendered := _render_server_default d true in
               ret (text +:+ alter_kwarg "server_default" (Py.str rendered))
    | IsFalse => ret text
    end in
  let* text :=
    match type_ with
    | Some t => let* r := _repr_type t in
                ret (text +:+ alter_kwarg "type_" (Py.str r))
    | None => ret text
    end in
  let text :=
    match nullable with
    | Some b => text +:+ alter_kwarg "nullable" (Py.repr_bool b)
    | None => text
    end in
  let text :=
    match comment with
    | Val c => text +:+ alter_kwarg "comment" (Py.repr_opt c)
    | IsFalse => text
    end in
  let text :=
    match existing_comment op with
    | Some c => text +:+ alter_kwarg "existing_comment" (Py.repr_str c)
    | None => text
    end in
  let text :=
    match nullable, existing_nullable op with
    | None, Some b => text +:+ alter_kwarg "existing_nullable" (Py.repr_bool b)
    | _, _ => text
    end in
  let text :=
    match autoincrement with
    | Py.VNone => text
    | a => text +:+ alter_kwarg "autoincrement" (Py.repr a)
    end in
  let* text :=
    match server_default, existing_server_default op with
    | IsFalse, Val d =>
        if or_false_truthy (Val d) then
          let* rendered := _render_server_default d true in
          ret (text +:+ alter_kwarg "existing_server_default" (Py.str rendered))
        else ret text
    | _, _ => ret text
    end in
  let* has_batch := gets _has_batch in
  let text :=
    if Py.truthy_opt schema && negb has_batch
    then text +:+ alter_kwarg "schema" (Py.repr_opt schema)
    else text in
  ret (text +:+ ")").

Definition _execute_sql (op : ExecuteSQLOp) : M string :=
  match sqltext op with
  | SqlStr s => ret ("op.execute(" +:+ Py.repr_str s +:+ ")")
  | SqlClause _ =>
      raise (NotImplementedError
               ("Autogenerate rendering of SQL Expression language constructs "
                +:+ "not supported here; please use a plain SQL string"))
  end.

(** *** Dispatch over operations *)

Inductive OpKind :=
| K_ModifyTableOps
| K_CreateTableCommentOp
| K_DropTableCommentOp
| K_CreateTableOp
| K_DropTableOp
| K_CreateIndexOp
| K_DropIndexOp
| K_CreateUniqueConstraintOp
| K_CreateForeignKeyOp
| K_CreatePrimaryKeyOp
| K_CreateCheckConstraintOp
| K_DropConstraintOp
| K_AddColumnOp
| K_DropColumnOp
| K_AlterColumnOp
| K_ExecuteSQLOp
| K_Other (cls : string).

#[global] Instance OpKind_eq_dec : EqDecision OpKind.
Proof. solve_decision. Defined.

(** The runtime kind of an operation. *)
Definition op_kind (op : MigrateOperation) : OpKind :=
  match op with
  | ModifyTableOps _ _ _ => K_ModifyTableOps
  | Op_CreateTableComment _ => K_CreateTableCommentOp
  | Op_DropTableComment _ => K_DropTableCommentOp
  | Op_CreateTable _ => K_CreateTableOp
  | Op_DropTable _ => K_DropTableOp
  | Op_CreateIndex _ => K_CreateIndexOp
  | Op_DropIndex _ => K_DropIndexOp
  | Op_CreateUniqueConstraint _ => K_CreateUniqueConstraintOp
  | Op_CreateForeignKey _ => K_CreateForeignKeyOp
  | Op_CreatePrimaryKey _ => K_CreatePrimaryKeyOp
  | Op_CreateCheckConstraint _ => K_CreateCheckConstraintOp
  | Op_DropConstraint _ => K_DropConstraintOp
  | Op_AddColumn _ => K_AddColumnOp
  | Op_DropColumn _ => K_DropColumnOp
  | Op_AlterColumn _ => K_AlterColumnOp
  | Op_ExecuteSQL _ => K_ExecuteSQLOp
  | OtherOp cls _ => K_Other cls
  end.

Definition kind_name (k : OpKind) : string :=
  match k with
  | K_ModifyTableOps => "ModifyTableOps"
  | K_CreateTableCommentOp => "CreateTableCommentOp"
  | K_DropTableCommentOp => "DropTableCommentOp"
  | K_CreateTableOp => "CreateTableOp"
  | K_DropTableOp => "DropTableOp"
  | K_CreateIndexOp => "CreateIndexOp"
  | K_DropIndexOp => "DropIndexOp"
  | K_CreateUniqueConstraintOp => "CreateUniqueConstraintOp"
  | K_CreateForeignKeyOp => "CreateForeignKeyOp"
  | K_CreatePrimaryKeyOp => "CreatePrimaryKeyOp"
  | K_CreateCheckConstraintOp => "CreateCheckConstraintOp"
  | K_DropConstraintOp => "DropConstraintOp"
  | K_AddColumnOp => "AddColumnOp"
  | K_DropColumnOp => "DropColumnOp"
  | K_AlterColumnOp => "AlterColumnOp"
  | K_ExecuteSQLOp => "ExecuteSQLOp"
  | K_Other cls => cls
  end.

(** A registered renderer is called with the context and the operation.
    The second argument holds, for a container, the calls
    [render_op(autogen_context, t_op)] for [t_op] in [op.ops], in order
    and not yet run: the container's renderer runs them where the source
    calls [render_op]. *)
Definition Renderer : Type :=
  MigrateOperation -> list (M (list string)) -> M Rendered.

Definition _render_modify_table (table_name : string) (schema : option string)
    (ops : list MigrateOperation) (render_ops : list (M (list string)))
  : M (list string) :=
  let* render_as_batch := gets (fun ctx => render_as_batch (opts ctx)) in
  match ops with
  | _ :: _ =>
      if render_as_batch then
        _within_batch
          (let lines :=
             ["with op.batch_alter_table(" +:+ Py.repr_str table_name
              +:+ ", schema=" +:+ Py.repr_opt schema +:+ ") as batch_op:"] in
           let* t_lines := sequence render_ops in
           ret (lines ++ concat t_lines ++ [""]))
      else
        let* t_lines := sequence render_ops in
        ret (concat t_lines)
  | [] => ret []
  end.

Definition text (m : M string) : M Rendered := let* s := m in ret (Text s).
Definition lines (m : M (list string)) : M Rendered := let* l := m in ret (Lines l).

(** A renderer handed an operation of another class fails on the first
    attribute it misses. *)
Definition wrong_kind : M Rendered := raise (AttributeError "").

(** [default_renderers], as the [dispatch_for] decorators fill it, in
    the order of the source. *)
Definition default_renderers : Dispatcher OpKind Renderer :=
  foldl (fun d kf => dispatch_for (fst kf) (snd kf) d) []
    [ (K_ModifyTableOps,
       fun op calls => match op with
                       | ModifyTableOps t s ops => lines (_render_modify_table t s ops calls)
                       | _ => wrong_kind end);
      (K_CreateTableCommentOp,
       fun op _ => match op with
                   | Op_CreateTableComment o => text (_render_create_table_comment o)
                   | _ => wrong_kind end);
      (K_DropTableCommentOp,
       fun op _ => match op with
                   | Op_DropTableComment o => text (_render_drop_table_comment o)
                   | _ => wrong_kind end);
      (K_CreateTableOp,
       fun op _ => match op with
                   | Op_CreateTable o => text (_add_table o)
                   | _ => wrong_kind end);
      (K_DropTableOp,
       fun op _ => match op with
                   | Op_DropTable o => text (_drop_table o)
                   | _ => wrong_kind end);
      (K_CreateIndexOp,
       fun op _ => match op with
                   | Op_CreateIndex o => text (_add_index o)
                   | _ => wrong_kind end);
      (K_DropIndexOp,
       fun op _ => match op with
                   | Op_DropIndex o => text (_drop_index o)
                   | _ => wrong_kind end);
      (K_CreateUniqueConstraintOp,
       fun op _ => match op with
                   | Op_CreateUniqueConstraint o => lines (_add_unique_constraint o)
                   | _ => wrong_kind end);
      (K_CreateForeignKeyOp,
       fun op _ => match op with
                   | Op_CreateForeignKey o => text (_add_fk_constraint o)
                   | _ => wrong_kind end);
      (K_CreatePrimaryKeyOp,
       fun op _ => match op with
                   | Op_CreatePrimaryKey o => text (_add_pk_constraint o)
                   | _ => wrong_kind end);
      (K_CreateCheckConstraintOp,
       fun op _ => match op with
                   | Op_CreateCheckConstraint o => text (_add_check_constraint o)
                   | _ => wrong_kind end);
      (K_DropConstraintOp,
       fun op _ => match op with
                   | Op_DropConstraint o => text (_drop_constraint o)
                   | _ => wrong_kind end);
      (K_AddColumnOp,
       fun op _ => match op with
                   | Op_AddColumn o => text (_add_column o)
                   | _ => wrong_kind end);
      (K_DropColumnOp,
       fun op _ => match op with
                   | Op_DropColumn o => text (_drop_column o)
                   | _ => wrong_kind end);
      (K_AlterColumnOp,
       fun op _ => match op with
                   | Op_AlterColumn o => text (_alter_column o)
                   | _ => wrong_kind end);
      (K_ExecuteSQLOp,
       fun op _ => match op with
                   | Op_ExecuteSQL o => text (_execute_sql o)
                   | _ => wrong_kind end) ].

Section Script.

(** [renderers]: the branch of [default_renderers] that [render_op]
  consults, with whatever was registered on it since. *)
Variable renderers : Dispatcher OpKind Renderer.

Fixpoint render_op (op : MigrateOperation) : M (list string) :=
let calls :=
  match op with
  | ModifyTableOps _ _ ops => map render_op ops
  | _ => []
  end in
let* renderer := lift (dispatch renderers (op_kind op) (kind_name (op_kind op))) in
let* rendered := renderer op calls in
ret (to_list rendered).

Definition render_op_text (op : MigrateOperation) : M string :=
let* l := render_op op in ret (Py.join Py.nl l).

(** *** The body of one script direction *)

(** [mako.pygen.PythonPrinter] over a [StringIO]: the lines handed to
  [writeline] so far. *)
Record PythonPrinter := mkPrinter { written : list string }.

Definition writeline (printer : PythonPrinter) (line : string) : PythonPrinter :=
mkPrinter (written printer ++ [line]).

(** [buf.getvalue()]: the text mako lays out for the lines written. *)
Variable getvalue : PythonPrinter -> string.

(** An [ops.OpContainer]: [UpgradeOps] or [DowngradeOps]. *)
Record OpContainer := mkOpContainer { container_ops : list MigrateOperation }.

Definition header : string :=
"# ### commands auto generated by Alembic - please adjust! ###".
Definition footer : string := "# ### end Alembic commands ###".

Fixpoint cmd_body_loop (ops : list MigrateOperation) (has_lines : bool)
  (printer : PythonPrinter) : M (bool * PythonPrinter) :=
match ops with
| [] => ret (has_lines, printer)
| op :: ops' =>
    let* lines := render_op op in
    let has_lines := has_lines || match lines with [] => false | _ => true end in
    let printer := foldl writeline printer lines in
    cmd_body_loop ops' has_lines printer
end.

(** The printer after the writes of [_render_cmd_body]. *)
Definition _render_cmd_body_printer (op_container : OpContainer)
: M PythonPrinter :=
let printer := mkPrinter [] in
let printer := writeline printer header in
let* st : bool * PythonPrinter :=
  cmd_body_loop (container_ops op_container) false printer in
let printer := snd st in
let printer := if negb (fst st) then writeline printer "pass" else printer in
let printer := writeline printer footer in
ret printer.

Definition _render_cmd_body (op_container : OpContainer) : M string :=
let* printer := _render_cmd_body_printer op_container in
ret (getvalue printer).

End Script.

(** A registry that still holds every renderer of [default_renderers]:
    [renderers] is its branch, and a target is registered once. *)
Definition extends_default (renderers : Dispatcher OpKind Renderer) : Prop :=
  forall k r, registered k default_renderers = Some r ->
              registered k renderers = Some r.

(** ** Text *)

Lemma append_assoc (a b c : string) : (a +:+ b) +:+ c = a +:+ (b +:+ c).
Proof using Type.
  clear. unfold String.app. induction a as [|x a IH]; simpl; congruence.
Qed.

Lemma append_nil_r (a : string) : a +:+ "" = a.
Proof using Type.
  clear. unfold String.app. induction a as [|x a IH]; simpl; congruence.
Qed.

(** ** Reasoning about the monad *)

Lemma bind_run {A B} (m : M A) (k : A -> M B) ctx a ctx1 :
  m ctx = (Ok a, ctx1) -> bind m k ctx = k a ctx1.
Proof. unfold bind. intros ->. reflexivity. Qed.

Lemma bind_raise {A B} (m : M A) (k : A -> M B) ctx e ctx1 :
  m ctx = (Raise e, ctx1) -> bind m k ctx = (Raise e, ctx1).
Proof. unfold bind. intros ->. reflexivity. Qed.

Lemma bind_inv {A B} (m : M A) (k : A -> M B) ctx r ctx' :
  bind m k ctx = (r, ctx') ->
  (exists a ctx1, m ctx = (Ok a, ctx1) /\ k a ctx1 = (r, ctx'))
  \/ (exists e, m ctx = (Raise e, ctx') /\ r = Raise e).
Proof.
  unfold bind. destruct (m ctx) as [[a|e] ctx1]; intros H.
  - left. eauto.
  - right. inversion H; subst. eauto.
Qed.

Lemma bind_ok_inv {A B} (m : M A) (k : A -> M B) ctx b ctx' :
  bind m k ctx = (Ok b, ctx') ->
  exists a ctx1, m ctx = (Ok a, ctx1) /\ k a ctx1 = (Ok b, ctx').
Proof.
  intros H. apply bind_inv in H as [H | (e & _ & H)]; [exact H | discriminate].
Qed.

Lemma gets_run {A} (f : AutogenContext -> A) ctx : gets f ctx = (Ok (f ctx), ctx).
Proof. reflexivity. Qed.

(** [mapM] either runs every call or stops at the first that raises. *)
Lemma mapM_ok_inv {A B} (f : A -> M B) l ctx ys ctx' :
  mapM f l ctx = (Ok ys, ctx') -> length ys = length l.
Proof.
  revert ctx ys. induction l as [|x l IH]; intros ctx ys H; simpl in H.
  - inversion H. reflexivity.
  - apply bind_ok_inv in H as (y & c1 & _ & H).
    apply bind_ok_inv in H as (ys' & c2 & H & H').
    inversion H'; subst. simpl. f_equal. eauto.
Qed.

Lemma render_op_unfold renderers op :
  render_op renderers op =
  bind (lift (dispatch renderers (op_kind op) (kind_name (op_kind op))))
       (fun renderer =>
          bind (renderer op match op with
                            | ModifyTableOps _ _ ops => map (render_op renderers) ops
                            | _ => []
                            end)
               (fun rendered => ret (to_list rendered))).
Proof. destruct op; reflexivity. Qed.

Lemma dispatch_registered {K R} `{EqDecision K} (d : Dispatcher K R) k name fn :
  registered k d = Some fn -> dispatch d k name = Ok fn.
Proof. unfold dispatch. intros ->. reflexivity. Qed.

(** Running a registered renderer through [render_op]. *)
Lemma render_op_registered renderers op fn ctx :
  registered (op_kind op) renderers = Some fn ->
  render_op renderers op ctx =
  bind (fn op match op with
              | ModifyTableOps _ _ ops => map (render_op renderers) ops
              | _ => []
              end)
       (fun rendered => ret (to_list rendered)) ctx.
Proof.
  intros H. rewrite render_op_unfold.
  unfold bind at 1, lift. rewrite (dispatch_registered _ _ _ _ H). reflexivity.
Qed.

(** A computation that only moves the context along a preorder: with
    equality, one that leaves the context as it was; with inclusion of the
    import sets, one that keeps every import entry. *)
Section Preserves.
Variable R : relation AutogenContext.
Context `{!PreOrder R}.

Definition Preserves {A} (m : M A) : Prop :=
  forall ctx r ctx', m ctx = (r, ctx') -> R ctx ctx'.

Lemma preserves_ret {A} (a : A) : Preserves (ret a).
Proof. intros ctx r ctx' H. inversion H. reflexivity. Qed.

Lemma preserves_raise {A} e : Preserves (@raise A e).
Proof. intros ctx r ctx' H. inversion H. reflexivity. Qed.

Lemma preserves_gets {A} (f : AutogenContext -> A) : Preserves (gets f).
Proof. intros ctx r ctx' H. inversion H. reflexivity. Qed.

Lemma preserves_lift {A} (x : Res A) : Preserves (lift x).
Proof. intros ctx r ctx' H. inversion H. reflexivity. Qed.

Lemma preserves_bind {A B} (m : M A) (k : A -> M B) :
  Preserves m -> (forall a, Preserves (k a)) -> Preserves (bind m k).
Proof.
  intros Hm Hk ctx r ctx' H.
  apply bind_inv in H as [(a & c1 & H1 & H2) | (e & H1 & _)].
  - etransitivity; [eapply Hm | eapply Hk]; eassumption.
  - eapply Hm; eassumption.
Qed.

Lemma preserves_mapM {A B} (f : A -> M B) l :
  Forall (fun x => Preserves (f x)) l -> Preserves (mapM f l).
Proof.
  induction 1 as [|x l Hx Hl IH]; simpl.
  - apply preserves_ret.
  - apply preserves_bind; [exact Hx|]. intros y.
    apply preserves_bind; [exact IH|]. intros ys. apply preserves_ret.
Qed.

Lemma preserves_mapM_all {A B} (f : A -> M B) l :
  (forall x, Preserves (f x)) -> Preserves (mapM f l).
Proof. intros H. apply preserves_mapM, Forall_forall. intros; apply H. Qed.

Lemma preserves_sequence {A} (l : list (M A)) :
  Forall Preserves l -> Preserves (sequence l).
Proof. intros H. apply preserves_mapM. exact H. Qed.
End Preserves.

(** The context is left as it was. *)
Abbreviation ReadOnly := (Preserves eq).

Create HintDb preserves.
Hint Extern 1 (PreOrder _) => typeclasses eauto : preserves.

Ltac preorder := first [assumption | typeclasses eauto].

Ltac preserves_step :=
  lazymatch goal with
  | |- Preserves _ (bind _ _) => apply preserves_bind; [preorder | | intros ?]
  | |- Preserves _ (ret _) => apply preserves_ret; preorder
  | |- Preserves _ (raise _) => apply preserves_raise; preorder
  | |- Preserves _ (gets _) => apply preserves_gets; preorder
  | |- Preserves _ (lift _) => apply preserves_lift; preorder
  | |- Preserves _ (mapM _ _) => apply preserves_mapM_all; [preorder | intros ?]
  | |- Preserves _ (match ?x with _ => _ end) => destruct x
  | |- Preserves _ (let _ := _ in _) => cbv zeta
  | |- Preserves _ _ => first [assumption | solve [auto 2 with preserves]]
  end.

Ltac preserves := repeat preserves_step.

Ltac run_registered Hext :=
  erewrite render_op_registered by (apply Hext; reflexivity).

(** ** ExecuteSQL *)

Definition is_literal_text (t : SqlText) : bool :=
  match t with SqlStr _ => true | SqlClause _ => false end.

Definition raises_NotImplementedError {A} (r : Res A) : Prop :=
  exists msg, r = Raise (NotImplementedError msg).

(** C5: rendering an ExecuteSQL operation raises the not-supported
    error ([NotImplementedError]) exactly when its payload is not a plain
    string; a string payload always renders, to the [execute] call on the
    [repr] of that string, and the context is left as it was.  The same
    holds through [render_op] for every registry that keeps the default
    renderers. *)
Theorem C5_execute_sql_requires_literal_text :
  (forall (op : ExecuteSQLOp) ctx,
      raises_NotImplementedError (fst (_execute_sql op ctx))
      <-> is_literal_text (sqltext op) = false)
  /\ (forall s ctx,
         _execute_sql (mkExecuteSQL (SqlStr s)) ctx
         = (Ok ("op.execute(" +:+ Py.repr_str s +:+ ")"), ctx))
  /\ (forall renderers s ctx,
         extends_default renderers ->
         render_op renderers (Op_ExecuteSQL (mkExecuteSQL (SqlStr s))) ctx
         = (Ok ["op.execute(" +:+ Py.repr_str s +:+ ")"], ctx))
  /\ (forall renderers e ctx,
         extends_default renderers ->
         raises_NotImplementedError
           (fst (render_op renderers (Op_ExecuteSQL (mkExecuteSQL (SqlClause e))) ctx))).
Proof.
  repeat split.
  - destruct op as [[s|e]]; simpl; [intros [msg H]; discriminate | reflexivity].
  - destruct op as [[s|e]]; simpl; [discriminate | intros _; eexists; reflexivity].
  - intros renderers s ctx Hext. run_registered Hext. reflexivity.
  - intros renderers e ctx Hext. run_registered Hext. eexists; reflexivity.
Qed.

(** ** Unimplemented direct operations *)

(** C6: the renderers of the direct CreatePrimaryKey and
    CreateCheckConstraint operations raise [NotImplementedError] on every
    operation and in every context, and so does [render_op] on such an
    operation for every registry that keeps the default renderers. *)
Theorem C6_direct_primary_key_and_check_unimplemented :
  (forall op ctx, _add_pk_constraint op ctx = (Raise (NotImplementedError ""), ctx))
  /\ (forall op ctx, _add_check_constraint op ctx = (Raise (NotImplementedError ""), ctx))
  /\ (forall renderers, extends_default renderers ->
        (forall op ctx,
            render_op renderers (Op_CreatePrimaryKey op) ctx
            = (Raise (NotImplementedError ""), ctx))
        /\ (forall op ctx,
               render_op renderers (Op_CreateCheckConstraint op) ctx
               = (Raise (NotImplementedError ""), ctx))).
Proof.
  repeat split; intros; try reflexivity; run_registered H; reflexivity.
Qed.

(** ** The container *)

(** C8: a ModifyTableOps with no children renders to the empty list of
    lines, whatever the context (so with [render_as_batch] on or off), and
    leaves the context as it was; no batch header is emitted. *)
Theorem C8_empty_modify_table_renders_nothing :
  (forall table_name schema calls ctx,
      _render_modify_table table_name schema [] calls ctx = (Ok [], ctx))
  /\ (forall renderers table_name schema ctx,
         extends_default renderers ->
         render_op renderers (ModifyTableOps table_name schema []) ctx = (Ok [], ctx)).
Proof.
  split.
  - reflexivity.
  - intros renderers t s ctx Hext. run_registered Hext. reflexivity.
Qed.

(** ** The body of a script direction *)

Definition nonempty {A} (l : list A) : bool :=
  match l with [] => false | _ => true end.

Lemma nonempty_app {A} (l1 l2 : list A) :
  nonempty (l1 ++ l2) = nonempty l1 || nonempty l2.
Proof. destruct l1, l2; reflexivity. Qed.

Lemma foldl_writeline printer lines :
  foldl writeline printer lines = mkPrinter (written printer ++ lines).
Proof.
  revert printer. induction lines as [|l lines IH]; intros [w]; simpl.
  - rewrite app_nil_r. reflexivity.
  - rewrite IH. simpl. rewrite <- app_assoc. reflexivity.
Qed.

(** The loop of [_render_cmd_body] writes the lines of every operation in
    order and records whether there was any. *)
Lemma cmd_body_loop_spec renderers ops :
  forall has_lines printer ctx liness ctx',
    mapM (render_op renderers) ops ctx = (Ok liness, ctx') ->
    cmd_body_loop renderers ops has_lines printer ctx
    = (Ok (has_lines || nonempty (concat liness),
           mkPrinter (written printer ++ concat liness)), ctx').
Proof.
  induction ops as [|op ops IH]; intros has printer ctx liness ctx' H; simpl in H.
  - inversion H; subst. simpl. rewrite orb_false_r, app_nil_r.
    destruct printer; reflexivity.
  - apply bind_ok_inv in H as (lines & c1 & Hop & H).
    apply bind_ok_inv in H as (rest & c2 & Hrest & H).
    inversion H; subst. simpl.
    rewrite (bind_run _ _ _ _ _ Hop).
    rewrite (IH _ _ _ _ _ Hrest).
    rewrite foldl_writeline. simpl.
    rewrite nonempty_app, orb_assoc, app_assoc. reflexivity.
Qed.

(** C7: when the operations of a container render to the line lists
    [liness], the printer is handed the leading marker, then either the
    single line [pass] (no operation produced a line) or all the lines
    produced and no [pass] (some operation produced one), then the
    trailing marker; [_render_cmd_body] returns the text of exactly these
    lines. *)
Theorem C7_pass_iff_no_rendered_line renderers getvalue c ctx liness ctx' :
  mapM (render_op renderers) (container_ops c) ctx = (Ok liness, ctx') ->
  let body := if nonempty (concat liness) then concat liness else ["pass"] in
  _render_cmd_body_printer renderers c ctx
  = (Ok (mkPrinter (header :: body ++ [footer])), ctx')
  /\ _render_cmd_body renderers getvalue c ctx
     = (Ok (getvalue (mkPrinter (header :: body ++ [footer]))), ctx')
  /\ (concat liness = [] -> body = ["pass"])
  /\ (concat liness <> [] -> body = concat liness).
Proof.
  intros H body.
  assert (Hp : _render_cmd_body_printer renderers c ctx
               = (Ok (mkPrinter (header :: body ++ [footer])), ctx')).
  { unfold _render_cmd_body_printer.
    erewrite bind_run by (apply cmd_body_loop_spec; exact H).
    subst body. simpl. destruct (concat liness) as [|l ls]; reflexivity. }
  split; [exact Hp|]. split.
  - unfold _render_cmd_body. rewrite (bind_run _ _ _ _ _ Hp). reflexivity.
  - subst body. split; intros Hc.
    + rewrite Hc. reflexivity.
    + destruct (concat liness); [congruence | reflexivity].
Qed.

(** ** Dispatch failures *)

Lemma cmd_body_loop_aborts renderers op ops :
  In op ops ->
  (forall ctx, exists e, render_op renderers op ctx = (Raise e, ctx)) ->
  forall has_lines printer ctx,
  exists e ctx', cmd_body_loop renderers ops has_lines printer ctx = (Raise e, ctx').
Proof.
  intros Hin Hop. induction ops as [|o ops IH]; [destruct Hin|].
  intros has printer ctx. simpl.
  destruct (render_op renderers o ctx) as [[ls|e] c1] eqn:Ho.
  - rewrite (bind_run _ _ _ _ _ Ho).
    destruct Hin as [-> | Hin].
    + destruct (Hop ctx) as [e He]. congruence.
    + apply IH, Hin.
  - rewrite (bind_raise _ _ _ _ _ Ho). eauto.
Qed.

Definition dispatch_error (op : MigrateOperation) : PyError :=
  ValueError ("no dispatch function for object: " +:+ kind_name (op_kind op)).

(** C1 (as amended): an operation whose kind has no registered renderer
    makes [render_op] raise the dispatch error naming that kind; no line
    is produced, no warning is issued and the context is left as it was,
    and the body of a script direction holding such an operation is not
    rendered at all.  The placeholder with a warning is what the
    constraint-level dispatch does: a constraint of a class without a
    renderer renders to the [Unknown Python object] text, and the warning
    is recorded. *)
Theorem C1_unregistered_operation_raises_dispatch_error renderers op :
  registered (op_kind op) renderers = None ->
  (forall ctx, render_op renderers op ctx = (Raise (dispatch_error op), ctx))
  /\ (forall getvalue c ctx,
         In op (container_ops c) ->
         exists e ctx', _render_cmd_body renderers getvalue c ctx = (Raise e, ctx'))
  /\ (forall cls repr_ md ctx,
         _render_constraint (COther cls repr_) md ctx
         = (Ok (Some ("[Unknown Python object " +:+ repr_ +:+ "]")),
            mkContext (imports ctx) (opts ctx) (_has_batch ctx)
                      (warnings ctx ++ ["No renderer is established for object "
                                        +:+ repr_]))).
Proof.
  intros Hreg.
  assert (Hop : forall ctx, render_op renderers op ctx = (Raise (dispatch_error op), ctx)).
  { intros ctx. rewrite render_op_unfold. unfold bind at 1, lift, dispatch.
    rewrite Hreg. reflexivity. }
  split; [exact Hop|]. split.
  - intros getvalue c ctx Hin.
    destruct (cmd_body_loop_aborts renderers op _ Hin
                (fun ctx => ex_intro _ _ (Hop ctx)) false
                (writeline (mkPrinter []) header) ctx) as (e & ctx' & He).
    exists e, ctx'. unfold _render_cmd_body, _render_cmd_body_printer.
    erewrite bind_raise; [reflexivity|].
    erewrite bind_raise; [reflexivity|]. exact He.
  - reflexivity.
Qed.

(** ** CreateTable: the argument ceiling *)

Lemma args_str_unpacked args :
  256 <= length args ->
  args_str args = "*[" +:+ Py.join ("," +:+ Py.nl) args +:+ "]".
Proof.
  intros H. unfold args_str, MAX_PYTHON_ARGS.
  destruct (Nat.ltb_spec 255 (length args)); [reflexivity | lia].
Qed.

Lemma args_str_flat args :
  length args <= 255 ->
  args_str args = Py.join ("," +:+ Py.nl) args.
Proof.
  intros H. unfold args_str, MAX_PYTHON_ARGS.
  destruct (Nat.ltb_spec 255 (length args)); [lia | reflexivity].
Qed.

(** C4: when the columns and constraints of a CreateTable render to the
    argument list [args], the call is [create_table(<name>,] followed by
    the arguments and the keyword tail; the arguments are the single
    unpacked list [*[...]] when there are 256 or more of them, and the
    flat comma-joined list when there are 255 or fewer. *)
Theorem C4_create_table_argument_ceiling op ctx args ctx1 :
  _add_table_args op ctx = (Ok args, ctx1) ->
  exists head tail,
    head = _alembic_autogenerate_prefix_of ctx1 +:+ "create_table("
           +:+ Py.repr_opt (_ident (Some (ct_table_name op))) +:+ "," +:+ Py.nl
    /\ tail = _add_table_tail op
    /\ (256 <= length args ->
        _add_table op ctx
        = (Ok (head +:+ "*[" +:+ Py.join ("," +:+ Py.nl) args +:+ "]" +:+ tail), ctx1))
    /\ (length args <= 255 ->
        _add_table op ctx
        = (Ok (head +:+ Py.join ("," +:+ Py.nl) args +:+ tail), ctx1)).
Proof.
  intros H. eexists _, _. split; [reflexivity|]. split; [reflexivity|].
  split; intros Hlen; unfold _add_table; rewrite (bind_run _ _ _ _ _ H);
    [rewrite (args_str_unpacked _ Hlen) | rewrite (args_str_flat _ Hlen)];
    unfold bind, _alembic_autogenerate_prefix, gets, ret; simpl;
    rewrite ?append_assoc; reflexivity.
Qed.

(** ** Renderers that leave the context as it was *)

Lemma _sqlalchemy_autogenerate_prefix_read_only R `{!PreOrder R} :
  Preserves R _sqlalchemy_autogenerate_prefix.
Proof. apply preserves_gets; preorder. Qed.

Lemma _alembic_autogenerate_prefix_read_only R `{!PreOrder R} :
  Preserves R _alembic_autogenerate_prefix.
Proof. apply preserves_gets; preorder. Qed.

Lemma _user_autogenerate_prefix_read_only R `{!PreOrder R} t :
  Preserves R (_user_autogenerate_prefix t).
Proof. apply preserves_gets; preorder. Qed.

Hint Resolve _sqlalchemy_autogenerate_prefix_read_only
     _alembic_autogenerate_prefix_read_only
     _user_autogenerate_prefix_read_only : preserves.

Lemma _render_gen_name_read_only R `{!PreOrder R} name :
  Preserves R (_render_gen_name name).
Proof. unfold _render_gen_name. preserves. Qed.
Hint Resolve _render_gen_name_read_only : preserves.

Lemma name_opts_preserves R `{!PreOrder R} name : Preserves R (name_opts name).
Proof. unfold name_opts. preserves. Qed.
Hint Resolve name_opts_preserves : preserves.

Lemma name_opts_read_only name : ReadOnly (name_opts name).
Proof. apply name_opts_preserves; preorder. Qed.

Lemma _render_potential_expr_read_only R `{!PreOrder R} value w d :
  Preserves R (_render_potential_expr value w d).
Proof. unfold _render_potential_expr. preserves. Qed.
Hint Resolve _render_potential_expr_read_only : preserves.

Lemma _get_index_rendered_expressions_read_only R `{!PreOrder R} idx :
  Preserves R (_get_index_rendered_expressions idx).
Proof. unfold _get_index_rendered_expressions. preserves. Qed.
Hint Resolve _get_index_rendered_expressions_read_only : preserves.

Lemma render_kwargs_read_only R `{!PreOrder R} kwargs :
  Preserves R (render_kwargs kwargs).
Proof. unfold render_kwargs. preserves. Qed.
Hint Resolve render_kwargs_read_only : preserves.

Lemma _uq_constraint_read_only R `{!PreOrder R} constraint alter :
  Preserves R (_uq_constraint constraint alter).
Proof. unfold _uq_constraint. preserves. Qed.
Hint Resolve _uq_constraint_read_only : preserves.

Lemma _render_computed_read_only R `{!PreOrder R} sqltext persisted :
  Preserves R (_render_computed sqltext persisted).
Proof. unfold _render_computed. preserves. Qed.

Lemma _render_identity_read_only R `{!PreOrder R} always on_null options :
  Preserves R (_render_identity always on_null options).
Proof. unfold _render_identity. preserves. Qed.
Hint Resolve _render_computed_read_only _render_identity_read_only : preserves.

(** ** AlterColumn: which keyword arguments are appended *)

(** A keyword argument that is appended when it has a value. *)
Definition opt_kwarg (kv : string * option string) : string :=
  match snd kv with
  | Some v => alter_kwarg (fst kv) v
  | None => ""
  end.

Fixpoint kwargs_text (l : list (string * option string)) : string :=
  match l with
  | [] => ""
  | kv :: l' => opt_kwarg kv +:+ kwargs_text l'
  end.

(** The opening of the call, up to the column name. *)
Definition alter_head (ctx : AutogenContext) (op : AlterColumnOp) : string :=
  if _has_batch ctx
  then _alembic_autogenerate_prefix_of ctx +:+ "alter_column("
       +:+ Py.repr_str (al_column_name op)
  else _alembic_autogenerate_prefix_of ctx +:+ "alter_column("
       +:+ Py.repr_str (al_table_name op) +:+ ", " +:+ Py.repr_str (al_column_name op).

Lemma step_option {A} (o : option A) (f : A -> M Py.Val) key text ctx t' ctx' :
  match o with
  | Some t => let* r := f t in ret (text +:+ alter_kwarg key (Py.str r))
  | None => ret text
  end ctx = (Ok t', ctx') ->
  exists v, t' = text +:+ opt_kwarg (key, v) /\ (is_Some v <-> is_Some o).
Proof.
  destruct o as [t|]; intros H.
  - apply bind_ok_inv in H as (r & c1 & _ & H). inversion H; subst.
    exists (Some (Py.str r)). split; [reflexivity|]. split; eauto.
  - inversion H; subst. exists None. unfold opt_kwarg; simpl.
    rewrite append_nil_r. split; [reflexivity|]. split; intros [? ?]; discriminate.
Qed.

Lemma step_or_false {A} (o : OrFalse A) (f : A -> M Py.Val) key text ctx t' ctx' :
  match o with
  | Val d => let* r := f d in ret (text +:+ alter_kwarg key (Py.str r))
  | IsFalse => ret text
  end ctx = (Ok t', ctx') ->
  exists v, t' = text +:+ opt_kwarg (key, v) /\ (is_Some v <-> o <> IsFalse).
Proof.
  destruct o as [|d]; intros H.
  - inversion H; subst. exists None. unfold opt_kwarg; simpl.
    rewrite append_nil_r. split; [reflexivity|].
    split; [intros [? ?]; discriminate | congruence].
  - apply bind_ok_inv in H as (r & c1 & _ & H). inversion H; subst.
    exists (Some (Py.str r)). split; [reflexivity|]. split; [discriminate | eauto].
Qed.

Lemma step_existing_default (sd esd : OrFalse (option ServerDefault))
    (f : option ServerDefault -> M Py.Val) key text ctx t' ctx' :
  match sd, esd with
  | IsFalse, Val d =>
      if or_false_truthy (Val d) then
        let* r := f d in ret (text +:+ alter_kwarg key (Py.str r))
      else ret text
  | _, _ => ret text
  end ctx = (Ok t', ctx') ->
  exists v, t' = text +:+ opt_kwarg (key, v)
            /\ (is_Some v <-> sd = IsFalse /\ or_false_truthy esd = true)
            /\ (or_false_truthy esd = false -> ctx' = ctx).
Proof.
  intros H.
  assert (Hnone : forall c, ret text c = (Ok t', ctx') ->
            (~ (sd = IsFalse /\ or_false_truthy esd = true)) ->
            exists v, t' = text +:+ opt_kwarg (key, v)
                      /\ (is_Some v <-> sd = IsFalse /\ or_false_truthy esd = true)
                      /\ (or_false_truthy esd = false -> ctx' = c)).
  { intros c Hr Hn. inversion Hr; subst. exists None. unfold opt_kwarg; simpl.
    rewrite append_nil_r. split; [reflexivity|]. split; [|reflexivity].
    split; [intros [? ?]; discriminate | intros; tauto]. }
  destruct sd as [|d0]; [destruct esd as [|d]|].
  - apply (Hnone _ H). intros [_ ?]; discriminate.
  - destruct (or_false_truthy (Val d)) eqn:Ht.
    + apply bind_ok_inv in H as (r & c1 & _ & H). inversion H; subst.
      exists (Some (Py.str r)). split; [reflexivity|].
      split; [split; eauto | discriminate].
    + apply (Hnone _ H). intros [_ ?]; congruence.
  - assert (H' : ret text ctx = (Ok t', ctx')) by (destruct esd; exact H).
    apply (Hnone _ H'). intros [? _]; discriminate.
Qed.

(** The keyword arguments [_alter_column] appends, in order; those whose
    value is [None] are not appended. *)
Definition alter_kwargs (op : AlterColumnOp) (ctx' : AutogenContext)
    (et sd ty esd : option string) : list (string * option string) :=
  [ ("existing_type", et);
    ("server_default", sd);
    ("type_", ty);
    ("nullable", Py.repr_bool <$> modify_nullable op);
    ("comment", match modify_comment op with
                | Val c => Some (Py.repr_opt c)
                | IsFalse => None
                end);
    ("existing_comment", Py.repr_str <$> existing_comment op);
    ("existing_nullable", match modify_nullable op with
                          | None => Py.repr_bool <$> existing_nullable op
                          | Some _ => None
                          end);
    ("autoincrement", match kw_autoincrement op with
                      | Py.VNone => None
                      | a => Some (Py.repr a)
                      end);
    ("existing_server_default", esd);
    ("schema", if Py.truthy_opt (al_schema op) && negb (_has_batch ctx')
               then Some (Py.repr_opt (al_schema op)) else None) ].

(** The text [_alter_column] returns: the opening of the call, the
    keyword arguments that have a value, the closing parenthesis. *)
Lemma _alter_column_text op ctx text ctx' :
  _alter_column op ctx = (Ok text, ctx') ->
  exists et sd ty esd,
    text = alter_head ctx op +:+ kwargs_text (alter_kwargs op ctx' et sd ty esd) +:+ ")"
    /\ (is_Some et <-> is_Some (existing_type op))
    /\ (is_Some sd <-> modify_server_default op <> IsFalse)
    /\ (is_Some ty <-> is_Some (modify_type op))
    /\ (is_Some esd <-> modify_server_default op = IsFalse
                        /\ or_false_truthy (existing_server_default op) = true).
Proof.
  intros H. unfold _alter_column in H.
  apply bind_ok_inv in H as (hb & c0 & Hhb & H). inversion Hhb; subst; clear Hhb.
  apply bind_ok_inv in H as (prefix & c00 & Hp & H). inversion Hp; subst; clear Hp.
  apply bind_ok_inv in H as (t1 & c1 & H1 & H).
  apply step_option in H1 as (et & -> & Het).
  apply bind_ok_inv in H as (t2 & c2 & H2 & H).
  apply step_or_false in H2 as (sd & -> & Hsd).
  apply bind_ok_inv in H as (t3 & c3 & H3 & H).
  apply step_option in H3 as (ty & -> & Hty).
  apply bind_ok_inv in H as (t4 & c4 & H4 & H).
  apply step_existing_default in H4 as (esd & -> & Hesd & _).
  apply bind_ok_inv in H as (hb' & c5 & Hhb & H). inversion Hhb; subst; clear Hhb.
  inversion H; subst; clear H.
  exists et, sd, ty, esd. split; [|tauto].
  unfold alter_head, alter_kwargs.
  cbn [kwargs_text].
  generalize (opt_kwarg ("existing_type", et)) (opt_kwarg ("server_default", sd))
             (opt_kwarg ("type_", ty)) (opt_kwarg ("existing_server_default", esd)).
  intros k1 k2 k3 k4.
  assert (Enil : forall a, "" +:+ a = a) by reflexivity.
  destruct (kw_autoincrement op), (modify_nullable op), (existing_comment op),
    (modify_comment op), (existing_nullable op),
    (Py.truthy_opt (al_schema op) && negb (_has_batch ctx')), (_has_batch c00);
    cbn [opt_kwarg fst snd fmap option_fmap option_map];
    rewrite ?append_assoc, ?Enil; reflexivity.
Qed.

(** C2 (as amended): the text [_alter_column] returns is the opening of
    the call, the keyword arguments of [alter_kwargs] that have a value,
    and the closing parenthesis.  [existing_nullable] is appended exactly
    when [modify_nullable] is [None] and [existing_nullable] is not;
    [existing_server_default] exactly when [modify_server_default] is the
    sentinel [False] and the existing default is true; [existing_comment]
    whenever [existing_comment] is not [None], whether or not
    [modify_comment] was supplied. *)
Theorem C2_alter_column_existing_kwargs op ctx text ctx' :
  _alter_column op ctx = (Ok text, ctx') ->
  exists et sd ty esd,
    text = alter_head ctx op +:+ kwargs_text (alter_kwargs op ctx' et sd ty esd) +:+ ")"
    /\ (is_Some et <-> is_Some (existing_type op))
    /\ (is_Some sd <-> modify_server_default op <> IsFalse)
    /\ (is_Some ty <-> is_Some (modify_type op))
    /\ (is_Some esd <-> modify_server_default op = IsFalse
                        /\ or_false_truthy (existing_server_default op) = true)
    /\ (modify_nullable op = None -> existing_nullable op = Some true ->
        exists before after,
          text = before +:+ alter_kwarg "existing_nullable" "True" +:+ after)
    /\ (forall b, modify_nullable op = Some b ->
                  alter_kwargs op ctx' et sd ty esd !! 6 = Some ("existing_nullable", None)).
Proof.
  intros H. apply _alter_column_text in H as (et & sd & ty & esd & Htext & H).
  exists et, sd, ty, esd. split; [exact Htext|].
  repeat (split; [tauto|]). split.
  - intros Hn He. rewrite Htext. unfold alter_kwargs. rewrite Hn, He.
    cbn [kwargs_text].
    exists (alter_head ctx op
            +:+ opt_kwarg ("existing_type", et) +:+ opt_kwarg ("server_default", sd)
            +:+ opt_kwarg ("type_", ty) +:+ opt_kwarg ("nullable", Py.repr_bool <$> None)
            +:+ opt_kwarg ("comment", match modify_comment op with
                                      | Val c => Some (Py.repr_opt c)
                                      | IsFalse => None
                                      end)
            +:+ opt_kwarg ("existing_comment", Py.repr_str <$> existing_comment op)).
    eexists. rewrite !append_assoc. reflexivity.
  - intros b Hb. unfold alter_kwargs. rewrite Hb. reflexivity.
Qed.

(** ** Foreign key references *)

Lemma split_nonempty sep s : Py.split sep s <> [].
Proof.
  destruct s as [|c s]; simpl; [discriminate|].
  destruct (Ascii.eqb c sep); [discriminate|].
  destruct (Py.split sep s); discriminate.
Qed.

Lemma join_cons_char sep c tok toks :
  Py.join sep (String c tok :: toks) = String c (Py.join sep (tok :: toks)).
Proof. destruct toks; reflexivity. Qed.

(** Joining what [split] cut gives the text back. *)
Lemma join_split c s : Py.join (String c "") (Py.split c s) = s.
Proof.
  induction s as [|a s IH]; [reflexivity|].
  simpl. destruct (Ascii.eqb_spec a c) as [->|Hne].
  - pose proof (split_nonempty c s) as Hs.
    destruct (Py.split c s) as [|t ts] eqn:E; [congruence|].
    change (Py.join (String c "") ("" :: t :: ts))
      with (String c (Py.join (String c "") (t :: ts))).
    rewrite IH. reflexivity.
  - pose proof (split_nonempty c s) as Hs.
    destruct (Py.split c s) as [|t ts] eqn:E; [congruence|].
    rewrite join_cons_char, IH. reflexivity.
Qed.

Lemma join_snoc sep (init : list string) (x : string) :
  init <> [] -> Py.join sep (init ++ [x]) = Py.join sep init +:+ sep +:+ x.
Proof.
  induction init as [|a init IH]; [congruence|]. intros _.
  destruct init as [|b init].
  - reflexivity.
  - change (Py.join sep ((a :: b :: init) ++ [x]))
      with (a +:+ sep +:+ Py.join sep ((b :: init) ++ [x])).
    rewrite IH by discriminate.
    change (Py.join sep (a :: b :: init)) with (a +:+ sep +:+ Py.join sep (b :: init)).
    rewrite !append_assoc. reflexivity.
Qed.

Lemma last_two_inv tokens tname colname :
  last_two tokens = Ok (tname, colname) ->
  exists init, tokens = init ++ [tname; colname].
Proof.
  unfold last_two. intros H.
  destruct (reverse tokens) as [|c [|t r]] eqn:E; try discriminate.
  inversion H; subst. exists (reverse r).
  rewrite <- (reverse_involutive tokens), E.
  rewrite !reverse_cons, <- app_assoc. reflexivity.
Qed.

Lemma removelast_snoc2 {A} (init : list A) a b :
  removelast (init ++ [a; b]) = init ++ [a].
Proof.
  change (init ++ [a; b]) with (init ++ [a] ++ [b]).
  rewrite app_assoc, removelast_last. reflexivity.
Qed.

Lemma last_two_snoc2 init tname colname :
  last_two (init ++ [tname; colname]) = Ok (tname, colname).
Proof.
  unfold last_two. rewrite reverse_app. reflexivity.
Qed.

(** The table full name [_fk_colspec] looks up: the metadata's default
    schema is put before a reference of exactly two tokens. *)
Definition fk_table_fullname (metadata_schema : option string)
    (init : list string) (tname : string) : string :=
  match metadata_schema, init with
  | Some s, [] => s +:+ "." +:+ tname
  | _, _ => Py.join "." (init ++ [tname])
  end.

(** Whether [_fk_colspec] tries to resolve the remote column. *)
Definition fk_resolves (fk : ForeignKey) : bool :=
  negb (link_to_name fk)
  && match parent fk with Some p => parent_has_table p | None => false end.

Lemma mapM_lift_inv {A B C} (g : A -> Res B) (h : B -> C) l ctx ys ctx' :
  mapM (fun f => let* spec := lift (g f) in ret (h spec)) l ctx = (Ok ys, ctx') ->
  ctx' = ctx /\ exists specs, Forall2 (fun f spec => g f = Ok spec) l specs
                              /\ ys = map h specs.
Proof.
  revert ctx ys. induction l as [|x l IH]; intros ctx ys H; simpl in H.
  - inversion H; subst. split; [reflexivity|]. exists []. split; constructor.
  - apply bind_ok_inv in H as (y & c1 & Hx & H).
    apply bind_ok_inv in Hx as (spec & c0 & Hg & Hx).
    unfold lift in Hg. inversion Hg; subst. inversion Hx; subst.
    apply bind_ok_inv in H as (ys' & c2 & Hl & H). inversion H; subst.
    apply IH in Hl as (-> & specs & HF & ->).
    split; [reflexivity|]. exists (spec :: specs). split; [|reflexivity].
    constructor; assumption.
Qed.

Lemma name_opts_total name ctx : exists o, name_opts name ctx = (Ok o, ctx).
Proof.
  unfold name_opts. destruct (name_truthy name); [|eexists; reflexivity].
  destruct name as [[s|s|s]|]; eexists; reflexivity.
Qed.

Lemma mapM_pure {A B} (f : A -> M B) l ctx ys :
  Forall2 (fun x y => f x ctx = (Ok y, ctx)) l ys ->
  mapM f l ctx = (Ok ys, ctx).
Proof.
  induction 1 as [|x y l ys Hx Hl IH]; [reflexivity|].
  cbn [mapM]. rewrite (bind_run _ _ _ _ _ Hx), (bind_run _ _ _ _ _ IH).
  reflexivity.
Qed.

(** A reference text of at least two dot-separated tokens. *)
Definition two_tokens (fk : ForeignKey) : Prop :=
  exists init tname colname,
    Py.split "." (fk_colspec fk) = init ++ [tname; colname].

Lemma _fk_colspec_two_tokens fk metadata_schema md :
  two_tokens fk -> exists ref, _fk_colspec fk metadata_schema md = Ok ref.
Proof.
  intros (init & tname & colname & Hsplit). unfold _fk_colspec.
  rewrite Hsplit, last_two_snoc2. eexists. reflexivity.
Qed.

Lemma fk_cols_total (l : list ForeignKey) ctx :
  Forall (fun fk => parent fk <> None) l ->
  exists cols,
    Forall2 (fun f col =>
               match parent f with
               | Some p => ret (Py.repr_opt (_ident (parent_name p)))
               | None => raise (AttributeError "name")
               end ctx = (Ok col, ctx)) l cols.
Proof.
  induction 1 as [|f l Hf Hl [cols IH]]; [exists []; constructor|].
  destruct (parent f) as [p|] eqn:Ep; [|congruence].
  exists (Py.repr_opt (_ident (parent_name p)) :: cols).
  constructor; [rewrite Ep; reflexivity | exact IH].
Qed.

Lemma fk_refs_total (l : list ForeignKey) metadata_schema md :
  Forall two_tokens l ->
  exists refs,
    Forall2 (fun fk ref => _fk_colspec fk metadata_schema md = Ok ref) l refs.
Proof.
  induction 1 as [|f l Hf Hl [refs IH]]; [exists []; constructor|].
  destruct (_fk_colspec_two_tokens f metadata_schema md Hf) as [ref Href].
  exists (ref :: refs). constructor; assumption.
Qed.

Lemma fk_refs_rendered (l : list ForeignKey) metadata_schema md refs ctx :
  Forall2 (fun fk ref => _fk_colspec fk metadata_schema md = Ok ref) l refs ->
  Forall2 (fun f y =>
             (let* spec := lift (_fk_colspec f metadata_schema md) in
              ret (Py.repr_str spec)) ctx = (Ok y, ctx))
          l (map Py.repr_str refs).
Proof.
  induction 1 as [|f ref l refs Hf Hl IH]; constructor; [|exact IH].
  unfold bind, lift. rewrite Hf. reflexivity.
Qed.

(** C3 (as amended): for a reference of at least two dot-separated
    tokens, [_fk_colspec] does not fail, whatever the foreign key and the
    metadata are.  When the foreign key is resolved (it is not
    [link_to_name] and its parent column has a table), the remote table is
    in the namespace metadata under the full name looked up and holds the
    referenced column, the reference is that full name and the column's
    name.  In every other case (the key is not resolved, the remote table
    is not in the metadata, or it is there without the referenced column)
    the reference is the full name and the column token as given: that is
    the original text unmodified, except that the metadata's default
    schema is put before a reference of exactly two tokens.  Inline in a
    CreateTable, a foreign key constraint the hook declines, whose
    elements have a parent column and such a reference, renders without
    failing when the operation has namespace metadata, with these
    references, one per element; when the operation has no namespace
    metadata it fails with AttributeError. *)
Theorem C3_foreign_key_reference :
  (forall fk metadata_schema md init tname colname,
      Py.split "." (fk_colspec fk) = init ++ [tname; colname] ->
      let table_fullname := fk_table_fullname metadata_schema init tname in
      (exists col,
          _fk_colspec fk metadata_schema md = Ok (table_fullname +:+ "." +:+ col))
      /\ (forall cols n,
          fk_resolves fk = true ->
          md_tables md !! table_fullname = Some cols ->
          cols !! colname = Some n ->
          _fk_colspec fk metadata_schema md
          = Ok (table_fullname +:+ "." +:+ name_text n))
      /\ (fk_resolves fk = false
          \/ md_tables md !! table_fullname = None
          \/ (exists cols, md_tables md !! table_fullname = Some cols
                           /\ cols !! colname = None) ->
          _fk_colspec fk metadata_schema md = Ok (table_fullname +:+ "." +:+ colname)
          /\ (metadata_schema = None \/ init <> [] ->
              _fk_colspec fk metadata_schema md = Ok (fk_colspec fk))
          /\ (forall s, metadata_schema = Some s -> init = [] ->
              _fk_colspec fk metadata_schema md = Ok (s +:+ "." +:+ fk_colspec fk))))
  /\ (forall constraint md ctx,
         _user_defined_render "foreign_key" (ItemForeignKey constraint) ctx
         = (Ok None, ctx) ->
         Forall (fun fk => parent fk <> None /\ two_tokens fk) (elements constraint) ->
         exists cols refs args,
           Forall2 (fun fk ref => _fk_colspec fk (md_schema md) md = Ok ref)
                   (elements constraint) refs
           /\ _render_constraint (CForeignKey constraint) (Some md) ctx
              = (Ok (Some (default "" (sqlalchemy_module_prefix (opts ctx))
                           +:+ "ForeignKeyConstraint([" +:+ cols +:+ "], ["
                           +:+ Py.join ", " (map Py.repr_str refs) +:+ "], "
                           +:+ args +:+ ")")), ctx))
  /\ (forall constraint ctx,
         _user_defined_render "foreign_key" (ItemForeignKey constraint) ctx
         = (Ok None, ctx) ->
         _render_constraint (CForeignKey constraint) None ctx
         = (Raise (AttributeError "schema"), ctx))
  /\ (forall constraint md ctx r ctx',
         _user_defined_render "foreign_key" (ItemForeignKey constraint) ctx
         = (Ok None, ctx) ->
         _render_foreign_key constraint (Some md) ctx = (Ok r, ctx') ->
         exists cols refs args,
           Forall2 (fun fk ref => _fk_colspec fk (md_schema md) md = Ok ref)
                   (elements constraint) refs
           /\ r = Some (default "" (sqlalchemy_module_prefix (opts ctx))
                        +:+ "ForeignKeyConstraint([" +:+ cols +:+ "], ["
                        +:+ Py.join ", " (map Py.repr_str refs) +:+ "], " +:+ args +:+ ")")).
Proof.
  split; [|split; [|split]].
  - intros fk schema md init tname colname Hsplit table_fullname.
    assert (Hfull : (match schema with
                     | Some s => if decide (length (init ++ [tname; colname]) = 2)
                                 then s +:+ "." +:+ tname
                                 else Py.join "." (removelast (init ++ [tname; colname]))
                     | None => Py.join "." (removelast (init ++ [tname; colname]))
                     end) = table_fullname).
    { subst table_fullname. unfold fk_table_fullname.
      rewrite removelast_snoc2.
      destruct schema as [s|]; [|destruct init; reflexivity].
      destruct init as [|i init]; [reflexivity|].
      destruct (decide _) as [Hl|_]; [|reflexivity].
      rewrite length_app in Hl. simpl in Hl. lia. }
    assert (Horig : Py.join "." (init ++ [tname]) +:+ "." +:+ colname = fk_colspec fk).
    { rewrite <- join_snoc by (destruct init; discriminate).
      rewrite <- app_assoc. simpl. rewrite <- Hsplit. apply (join_split "."). }
    assert (Hgiven : fk_resolves fk = false
                     \/ md_tables md !! table_fullname = None
                     \/ (exists cols, md_tables md !! table_fullname = Some cols
                                      /\ cols !! colname = None) ->
                     _fk_colspec fk schema md
                     = Ok (table_fullname +:+ "." +:+ colname)).
    { intros Hcase. unfold _fk_colspec.
      rewrite Hsplit, last_two_snoc2, Hfull. fold (fk_resolves fk).
      destruct Hcase as [Hres | [Hnone | (cols & Htab & Hcol)]].
      - rewrite Hres. reflexivity.
      - rewrite Hnone. destruct (fk_resolves fk); reflexivity.
      - rewrite Htab, Hcol. destruct (fk_resolves fk); reflexivity. }
    split; [|split].
    + unfold _fk_colspec. rewrite Hsplit, last_two_snoc2, Hfull.
      eexists. reflexivity.
    + intros cols n Hres Htab Hcol. unfold _fk_colspec.
      rewrite Hsplit, last_two_snoc2, Hfull.
      unfold fk_resolves in Hres. rewrite Hres, Htab, Hcol.
      destruct n; reflexivity.
    + intros Hcase. pose proof (Hgiven Hcase) as Hg.
      split; [exact Hg|]. split.
      * intros Hschema. rewrite Hg. f_equal. rewrite <- Horig.
        subst table_fullname. unfold fk_table_fullname.
        destruct schema as [s|]; [|destruct init; reflexivity].
        destruct init; [|reflexivity]. destruct Hschema; congruence.
      * intros s -> ->. rewrite Hg. f_equal.
        subst table_fullname. unfold fk_table_fullname.
        change (Py.join "." ([] ++ [tname])) with tname in Horig. rewrite <- Horig.
        rewrite ?append_assoc. reflexivity.
  - intros c md ctx Hhook Hel.
    change (_render_constraint (CForeignKey c) (Some md))
      with (_render_foreign_key c (Some md)).
    unfold _render_foreign_key. rewrite (bind_run _ _ _ _ _ Hhook).
    destruct (name_opts_total (fkc_name c) ctx) as [o Ho].
    rewrite (bind_run _ _ _ _ _ Ho).
    destruct (fk_cols_total (elements c) ctx) as [cols Hcols].
    { eapply Forall_impl; [exact Hel|]. intros f [Hf _]. exact Hf. }
    destruct (fk_refs_total (elements c) (md_schema md) md) as [refs Hrefs].
    { eapply Forall_impl; [exact Hel|]. intros f [_ Hf]. exact Hf. }
    exists (Py.join ", " cols), refs,
           (Py.join ", " (map kwarg_s (_populate_render_fk_opts c o))).
    split; [exact Hrefs|].
    unfold _sqlalchemy_autogenerate_prefix. erewrite bind_run by apply gets_run.
    rewrite (bind_run _ _ _ _ _ (mapM_pure _ _ _ _ Hcols)).
    rewrite (bind_run _ _ _ _ _ (mapM_pure _ _ _ _ (fk_refs_rendered _ _ _ _ ctx Hrefs))).
    reflexivity.
  - intros c ctx Hhook.
    change (_render_constraint (CForeignKey c) None)
      with (_render_foreign_key c None).
    unfold _render_foreign_key. rewrite (bind_run _ _ _ _ _ Hhook).
    destruct (name_opts_total (fkc_name c) ctx) as [o Ho].
    rewrite (bind_run _ _ _ _ _ Ho). reflexivity.
  - intros c md ctx r ctx' Hhook H. unfold _render_foreign_key in H.
    rewrite (bind_run _ _ _ _ _ Hhook) in H.
    apply bind_ok_inv in H as (o & c1 & Ho & H).
    assert (c1 = ctx) as -> by (symmetry; eapply name_opts_read_only, Ho).
    apply bind_ok_inv in H as (prefix & c2 & Hp & H). inversion Hp; subst; clear Hp.
    apply bind_ok_inv in H as (cols & c3 & Hcols & H).
    assert (c2 = c3) as <-.
    { revert Hcols. apply preserves_mapM_all; [preorder|]. intros f. preserves. }
    apply bind_ok_inv in H as (refcols & c4 & Href & H).
    apply mapM_lift_inv in Href as (-> & refs & HF & ->).
    inversion H; subst.
    exists (Py.join ", " cols), refs,
           (Py.join ", " (map kwarg_s (_populate_render_fk_opts c o))).
    split; [exact HF | reflexivity].
Qed.

(** What the constraint dispatch comes to, kind by kind. *)
Lemma _render_constraint_eq c md :
  _render_constraint c md =
  match c with
  | CPrimaryKey c => _render_primary_key c md
  | CForeignKey c => _render_foreign_key c md
  | CUnique c => _render_unique_constraint c md
  | CCheck c => _render_check_constraint c md
  | COther cls repr_ =>
      let* _ := warn ("No renderer is established for object " +:+ repr_) in
      ret (Some ("[Unknown Python object " +:+ repr_ +:+ "]"))
  end.
Proof. destruct c; reflexivity. Qed.

(** A property of every registration holds of the one dispatch finds. *)
Lemma registered_Forall {K R} `{EqDecision K} (P : K * R -> Prop)
    (d : Dispatcher K R) k r :
  registered k d = Some r -> Forall P d -> P (k, r).
Proof.
  intros H HF. induction HF as [|[k' fn] d Hfn Hd IH]; simpl in H; [discriminate|].
  destruct (decide (k' = k)) as [->|]; [inversion H; subst; exact Hfn | apply IH, H].
Qed.

Lemma dispatch_for_Forall {K R} `{EqDecision K} (P : K * R -> Prop)
    (d : Dispatcher K R) k fn :
  P (k, fn) -> Forall P d -> Forall P (dispatch_for k fn d).
Proof.
  intros Hfn Hd. unfold dispatch_for. destruct (registered k d); [exact Hd|].
  apply Forall_app. split; [exact Hd | repeat constructor; exact Hfn].
Qed.

Lemma foldl_dispatch_for_Forall {K R} `{EqDecision K} (P : K * R -> Prop)
    (entries : list (K * R)) :
  forall d : Dispatcher K R,
    Forall P d -> Forall P entries ->
    Forall P (foldl (fun d kf => dispatch_for (fst kf) (snd kf) d) d entries).
Proof.
  induction entries as [|[k fn] entries IH]; intros d Hd He; simpl; [exact Hd|].
  apply Forall_cons in He as [Hfn He].
  apply IH; [apply dispatch_for_Forall; assumption | exact He].
Qed.

(** ** The import set only grows *)

(** Every import entry of [c] is still in [c']. *)
Definition imports_le (c c' : AutogenContext) : Prop :=
  match imports c with
  | Some s => exists s', imports c' = Some s' /\ s ⊆ s'
  | None => True
  end.

#[local] Instance imports_le_preorder : PreOrder imports_le.
Proof using Type.
  clear. split.
  - intros c. unfold imports_le. destruct (imports c) as [s|]; [|exact I].
    exists s. split; [reflexivity | set_solver].
  - intros a b c Hab Hbc. unfold imports_le in *.
    destruct (imports a) as [s|]; [|exact I].
    destruct Hab as (s' & Hb & Hs). rewrite Hb in Hbc.
    destruct Hbc as (s'' & Hc & Hs'). exists s''. split; [exact Hc | set_solver].
Qed.

Abbreviation Monotone := (Preserves imports_le).

Lemma add_import_monotone entry : Monotone (add_import entry).
Proof.
  intros ctx r ctx' H. unfold add_import in H. inversion H; subst; clear H.
  unfold imports_le. destruct (imports ctx) as [s|] eqn:E; [|exact I].
  simpl. exists ({[entry]} ∪ s). split; [reflexivity | set_solver].
Qed.

Lemma warn_monotone msg : Monotone (warn msg).
Proof.
  intros ctx r ctx' H. unfold warn in H. inversion H; subst; clear H.
  unfold imports_le; simpl. destruct (imports ctx) as [s|]; [|exact I].
  exists s. split; [reflexivity | set_solver].
Qed.

Lemma _within_batch_monotone {A} (body : M A) :
  Monotone body -> Monotone (_within_batch body).
Proof.
  intros Hb ctx r ctx' H. unfold _within_batch in H.
  destruct (body (set_has_batch true ctx)) as [r1 c1] eqn:E.
  inversion H; subst; clear H.
  apply Hb in E. unfold imports_le in *. simpl in *. exact E.
Qed.

Hint Resolve add_import_monotone warn_monotone : preserves.

(** Induction over a type and the types it holds. *)
Lemma TypeEngine_nested_ind (P : TypeEngine -> Prop) :
  (forall v m vn r it im mp,
      (forall t, it = Some t -> P t) ->
      (forall t, im = Some t -> P t) ->
      Forall (fun dt => P (snd dt)) mp ->
      P (mkTypeEngine v m vn r it im mp)) ->
  forall t, P t.
Proof.
  intros Hstep.
  fix IH 1. intros [v m vn r it im mp]. apply Hstep.
  - destruct it as [x|]; intros t e; [|discriminate].
    injection e as <-. apply IH.
  - destruct im as [x|]; intros t e; [|discriminate].
    injection e as <-. apply IH.
  - induction mp as [|[d t] mp IHmp]; constructor; [apply IH | exact IHmp].
Qed.

Lemma Forall_insert_by {A} (P : A -> Prop) key x (l : list A) :
  P x -> Forall P l -> Forall P (Py.insert_by key x l).
Proof.
  intros Hx. induction 1 as [|y l Hy Hl IH]; simpl.
  - constructor; [exact Hx | constructor].
  - destruct (String.leb _ _); repeat constructor; assumption.
Qed.

Lemma Forall_sorted_by {A} (P : A -> Prop) key (l : list A) :
  Forall P l -> Forall P (Py.sorted_by key l).
Proof.
  unfold Py.sorted_by. induction 1; simpl; [constructor|].
  apply Forall_insert_by; assumption.
Qed.

Section Monotone.
(** The collaborators keep the import entries they find. *)
Hypothesis render_item_monotone :
  forall render, render_item = Some render ->
                 forall type_ object_, Monotone (render type_ object_).
Hypothesis render_type_monotone :
  forall i, impl = Some i -> forall type_, Monotone (render_type i type_).

Lemma _user_defined_render_monotone type_ object_ :
  Monotone (_user_defined_render type_ object_).
Proof.
  unfold _user_defined_render. destruct render_item as [render|] eqn:E.
  - apply (render_item_monotone render). reflexivity.
  - apply preserves_ret; preorder.
Qed.
Hint Resolve _user_defined_render_monotone : preserves.

Lemma _render_server_default_monotone d repr_ :
  Monotone (_render_server_default d repr_).
Proof. unfold _render_server_default. preserves. Qed.
Hint Resolve _render_server_default_monotone : preserves.

Lemma _render_type_w_subtype_monotone self type_ attrname regexp prefix :
  (forall t, getattr_type type_ attrname = Some t -> Monotone (self t)) ->
  Monotone (_render_type_w_subtype self type_ attrname regexp prefix).
Proof.
  intros Hself. unfold _render_type_w_subtype.
  destruct (getattr_type type_ attrname) as [inner|]; [|preserves].
  specialize (Hself inner eq_refl). preserves.
Qed.

Lemma foldl_variants_monotone (variants : list (string * M Py.Val)) :
  Forall (fun dv => Monotone (snd dv)) variants ->
  forall acc : M string,
    Monotone acc ->
    Monotone
      (foldl (fun acc dv =>
                let* base := acc in
                let* typ := snd dv in
                ret (base +:+ ".with_variant(" +:+ Py.str typ +:+ ", "
                     +:+ Py.repr_str (fst dv) +:+ ")")) acc variants).
Proof.
  induction 1 as [|dv l Hdv Hl IH]; intros acc Hacc; simpl; [exact Hacc|].
  apply IH. preserves.
Qed.

Lemma _render_Variant_type_monotone self type_ :
  (forall t, type_impl type_ = Some t -> Monotone (self t)) ->
  Forall (fun dt => Monotone (self (snd dt))) (type_mapping type_) ->
  Monotone (_render_Variant_type self type_).
Proof.
  intros Himpl Hmap. unfold _render_Variant_type.
  destruct (type_impl type_) as [impl_|]; [|preserves].
  specialize (Himpl impl_ eq_refl).
  assert (Hfold : forall base : string,
             Monotone
               (foldl (fun acc dv =>
                         let* base := acc in
                         let* typ := snd dv in
                         ret (base +:+ ".with_variant(" +:+ Py.str typ +:+ ", "
                              +:+ Py.repr_str (fst dv) +:+ ")"))
                      (ret base)
                      (Py.sorted_by fst
                         (map (fun dt => (fst dt, self (snd dt)))
                              (type_mapping type_))))).
  { intros base. apply foldl_variants_monotone; [|preserves].
    apply Forall_sorted_by. apply Forall_map. exact Hmap. }
  apply preserves_bind; [preorder | exact Himpl |]. intros base.
  destruct base as [| [|] | | | |]; preserves.
Qed.

Lemma _repr_type_monotone type_ : Monotone (_repr_type type_).
Proof.
  induction type_ as [v m vn r it im mp Hit Him Hmp] using TypeEngine_nested_ind.
  assert (Harr : Monotone (_render_ARRAY_type _repr_type
                             (mkTypeEngine v m vn r it im mp))).
  { apply _render_type_w_subtype_monotone. intros t Ht. apply Hit. exact Ht. }
  assert (Hvar : Monotone (_render_Variant_type _repr_type
                             (mkTypeEngine v m vn r it im mp))).
  { apply _render_Variant_type_monotone; [intros t Ht; apply Him; exact Ht | exact Hmp]. }
  cbn [_repr_type].
  apply preserves_bind; [preorder | auto with preserves |]. intros rendered.
  destruct rendered as [s|]; [preserves|].
  apply preserves_bind; [preorder | |].
  { destruct impl as [i|]; [apply (render_type_monotone i); reflexivity | preserves]. }
  intros impl_rt. cbn [type_module type_is_Variant type_visit_name type_repr].
  preserves.
Qed.
Hint Resolve _repr_type_monotone : preserves.

Lemma _render_column_monotone column : Monotone (_render_column column).
Proof. unfold _render_column. preserves. Qed.
Hint Resolve _render_column_monotone : preserves.

Lemma _render_primary_key_monotone c md : Monotone (_render_primary_key c md).
Proof. unfold _render_primary_key. preserves. Qed.

Lemma _render_foreign_key_monotone c md : Monotone (_render_foreign_key c md).
Proof. unfold _render_foreign_key. preserves. Qed.

Lemma _render_unique_constraint_monotone c md :
  Monotone (_render_unique_constraint c md).
Proof. unfold _render_unique_constraint. preserves. Qed.

Lemma _render_check_constraint_monotone c md :
  Monotone (_render_check_constraint c md).
Proof. unfold _render_check_constraint. preserves. Qed.

Hint Resolve _render_primary_key_monotone _render_foreign_key_monotone
     _render_unique_constraint_monotone _render_check_constraint_monotone
  : preserves.

Lemma _render_constraint_monotone c md : Monotone (_render_constraint c md).
Proof. rewrite _render_constraint_eq. preserves. Qed.
Hint Resolve _render_constraint_monotone : preserves.

Lemma _add_table_monotone op : Monotone (_add_table op).
Proof. unfold _add_table, _add_table_args. preserves. Qed.

Lemma _add_column_monotone op : Monotone (_add_column op).
Proof. unfold _add_column. preserves. Qed.

Lemma _alter_column_monotone op : Monotone (_alter_column op).
Proof. unfold _alter_column. preserves. Qed.

Lemma _render_modify_table_monotone table_name schema ops calls :
  Forall Monotone calls ->
  Monotone (_render_modify_table table_name schema ops calls).
Proof.
  intros Hcalls. unfold _render_modify_table.
  apply preserves_bind; [preorder | preserves |]. intros b.
  destruct ops; [preserves|]. destruct b.
  - apply _within_batch_monotone.
    apply preserves_bind; [preorder | apply preserves_sequence; [preorder | exact Hcalls] |].
    intros ?. preserves.
  - apply preserves_bind; [preorder | apply preserves_sequence; [preorder | exact Hcalls] |].
    intros ?. preserves.
Qed.

(** A renderer that keeps the import entries when the deferred calls
    it is handed do. *)
Definition renderer_monotone (r : Renderer) : Prop :=
  forall op calls, Forall Monotone calls -> Monotone (r op calls).

Lemma default_renderers_monotone k r :
  registered k default_renderers = Some r -> renderer_monotone r.
Proof.
  intros H.
  apply (registered_Forall (fun kf => renderer_monotone (snd kf)) _ _ _ H).
  unfold default_renderers. apply foldl_dispatch_for_Forall; [constructor|].
  repeat (apply Forall_cons; split); try solve [constructor];
    unfold renderer_monotone; cbn [snd]; intros op calls Hcalls;
    (destruct op; unfold text, lines, wrong_kind;
     [> try (apply preserves_raise; preorder) ..]);
    (apply preserves_bind; [preorder | | intros ?; apply preserves_ret; preorder]).
  - apply _render_modify_table_monotone; assumption.
  - unfold _render_create_table_comment. preserves.
  - unfold _render_drop_table_comment. preserves.
  - apply _add_table_monotone.
  - unfold _drop_table. preserves.
  - unfold _add_index. preserves.
  - unfold _drop_index. preserves.
  - unfold _add_unique_constraint. preserves.
  - unfold _add_fk_constraint. preserves.
  - unfold _drop_constraint. preserves.
  - apply _add_column_monotone.
  - unfold _drop_column. preserves.
  - apply _alter_column_monotone.
  - unfold _execute_sql. preserves.
Qed.

(** Induction over an operation and the children of a container. *)
Lemma MigrateOperation_nested_ind (P : MigrateOperation -> Prop) :
  (forall t s ops, Forall P ops -> P (ModifyTableOps t s ops)) ->
  (forall op, (forall t s ops, op <> ModifyTableOps t s ops) -> P op) ->
  forall op, P op.
Proof.
  intros Hc Ha. fix IH 1. intros op.
  destruct op as [t s ops| | | | | | | | | | | | | | | |];
    try (apply Ha; intros; discriminate).
  apply Hc. induction ops as [|o ops IHops]; constructor; [apply IH | exact IHops].
Qed.

Lemma render_op_monotone renderers :
  (forall k r, registered k renderers = Some r -> renderer_monotone r) ->
  forall op, Monotone (render_op renderers op).
Proof.
  intros Hreg.
  assert (Hstep : forall op calls,
             Forall Monotone calls ->
             Monotone
               (bind (lift (dispatch renderers (op_kind op) (kind_name (op_kind op))))
                     (fun renderer =>
                        bind (renderer op calls)
                             (fun rendered => ret (to_list rendered))))).
  { intros op calls Hcalls ctx r ctx' H.
    unfold bind at 1, lift, dispatch in H.
    destruct (registered (op_kind op) renderers) as [fn|] eqn:E.
    - revert H. apply preserves_bind; [preorder | | intros ?; apply preserves_ret; preorder].
      apply (Hreg _ _ E). exact Hcalls.
    - inversion H. reflexivity. }
  induction op as [t s ops IH | op Hop] using MigrateOperation_nested_ind;
    rewrite render_op_unfold.
  - apply Hstep. apply Forall_map. exact IH.
  - destruct op; try (apply Hstep; constructor).
    exfalso. eapply Hop. reflexivity.
Qed.

Lemma _render_cmd_body_monotone renderers getvalue c :
  (forall k r, registered k renderers = Some r -> renderer_monotone r) ->
  Monotone (_render_cmd_body renderers getvalue c).
Proof.
  intros Hreg. unfold _render_cmd_body, _render_cmd_body_printer.
  assert (Hloop : forall ops has printer,
             Monotone (cmd_body_loop renderers ops has printer)).
  { induction ops as [|op ops IH]; intros has printer; simpl; [preserves|].
    apply preserves_bind; [preorder | apply render_op_monotone; exact Hreg |].
    intros ?. apply IH. }
  preserves.
Qed.

(** A registry made of the default renderers and of renderers that
    keep the import entries. *)
Definition registry_monotone (renderers : Dispatcher OpKind Renderer) : Prop :=
  forall k r, registered k renderers = Some r ->
              registered k default_renderers = Some r \/ renderer_monotone r.

Lemma registry_monotone_all renderers :
  registry_monotone renderers ->
  forall k r, registered k renderers = Some r -> renderer_monotone r.
Proof.
  intros H k r Hr. destruct (H k r Hr) as [Hd | Hm]; [|exact Hm].
  eapply default_renderers_monotone, Hd.
Qed.

Lemma drop_prefix_app p s rest : drop_prefix p s = Some rest -> s = p +:+ rest.
Proof.
  revert s. induction p as [|a p IH]; intros s H; simpl in H.
  - inversion H. reflexivity.
  - destruct s as [|b s]; [discriminate|].
    destruct (Ascii.eqb_spec a b) as [->|]; [|discriminate].
    change (String b s = String b (p +:+ rest)). f_equal. apply IH, H.
Qed.

Lemma match_dialect_startswith mod_ dname :
  match_dialect mod_ = Some dname ->
  Py.startswith mod_ "sqlalchemy.dialects" = true.
Proof.
  unfold match_dialect. destruct (drop_prefix _ mod_) as [rest|] eqn:E; [|discriminate].
  intros _. apply drop_prefix_app in E. subst mod_. reflexivity.
Qed.

(** The user's hook declines a type, and the dialect renders it,
    without touching the import set. *)
Definition hook_declines (t : TypeEngine) : Prop :=
  match render_item with
  | None => True
  | Some render =>
      forall ctx, exists ctx',
        render "type" (ItemType t) ctx = (Ok None, ctx')
        /\ imports ctx' = imports ctx
  end.

Definition impl_neutral (t : TypeEngine) : Prop :=
  match impl with
  | None => True
  | Some i =>
      forall ctx, exists rt ctx',
        render_type i t ctx = (Ok rt, ctx') /\ imports ctx' = imports ctx
  end.

Definition dialect_import (dname : string) : string :=
  "from sqlalchemy.dialects import " +:+ dname.

Lemma _repr_type_dialect t dname entries ctx :
  match_dialect (type_module t) = Some dname ->
  hook_declines t -> impl_neutral t ->
  imports ctx = Some entries ->
  exists v ctx',
    _repr_type t ctx = (Ok v, ctx')
    /\ imports ctx' = Some ({[dialect_import dname]} ∪ entries).
Proof.
  intros Hd Hhook Himpl Hctx.
  pose proof (match_dialect_startswith _ _ Hd) as Hs.
  destruct t as [v m vn r it im mp]. cbn [type_module] in *.
  cbn [_repr_type]. cbn [type_module type_repr].
  assert (H1 : exists c1, _user_defined_render "type"
                            (ItemType (mkTypeEngine v m vn r it im mp)) ctx
                          = (Ok None, c1) /\ imports c1 = Some entries).
  { unfold _user_defined_render, hook_declines in *.
    destruct render_item as [render|].
    - destruct (Hhook ctx) as (c1 & Hr & Hi). exists c1. split; congruence.
    - exists ctx. split; [reflexivity | exact Hctx]. }
  destruct H1 as (c1 & Hr1 & Hi1). rewrite (bind_run _ _ _ _ _ Hr1).
  assert (H2 : exists rt c2,
             match impl with
             | Some i => render_type i (mkTypeEngine v m vn r it im mp)
             | None => ret None
             end c1 = (Ok rt, c2) /\ imports c2 = Some entries).
  { unfold impl_neutral in Himpl. destruct impl as [i|].
    - destruct (Himpl c1) as (rt & c2 & Hr & Hi). exists rt, c2. split; congruence.
    - exists None, c1. split; [reflexivity | exact Hi1]. }
  destruct H2 as (rt & c2 & Hr2 & Hi2). rewrite (bind_run _ _ _ _ _ Hr2).
  rewrite Hs, Hd.
  unfold bind, add_import. rewrite Hi2.
  destruct (Py.truthy_opt rt); eexists _, _; (split; [reflexivity|]); reflexivity.
Qed.

(** C9 (as amended): while the collaborators handed the context (the
    [render_item] hook, the dialect's [render_type], and the renderers
    registered beside the default ones) keep the import entries they
    find, every renderer call does: [render_op] on any operation,
    [_render_cmd_body] on any container and [_repr_type] on any type
    leave every prior import entry in place.  When the context has an
    import set, the hook declines the type and the dialect renders it
    without touching the imports, rendering a type of the namespace
    [sqlalchemy.dialects.<name>] leaves the import set with exactly one
    entry more at most, the import of that dialect, and rendering the
    type again leaves the import set unchanged. *)
Theorem C9_imports_grow_one_entry_per_dialect :
  (forall renderers,
      registry_monotone renderers ->
      (forall op, Monotone (render_op renderers op))
      /\ (forall getvalue c, Monotone (_render_cmd_body renderers getvalue c)))
  /\ (forall t, Monotone (_repr_type t))
  /\ (forall t dname entries ctx,
         match_dialect (type_module t) = Some dname ->
         hook_declines t -> impl_neutral t ->
         imports ctx = Some entries ->
         exists v ctx',
           _repr_type t ctx = (Ok v, ctx')
           /\ imports ctx' = Some ({[dialect_import dname]} ∪ entries)
           /\ exists v' ctx'',
               _repr_type t ctx' = (Ok v', ctx'')
               /\ imports ctx'' = imports ctx').
Proof.
  split; [|split].
  - intros renderers Hreg. split.
    + apply render_op_monotone, registry_monotone_all, Hreg.
    + intros getvalue c. apply _render_cmd_body_monotone, registry_monotone_all, Hreg.
  - apply _repr_type_monotone.
  - intros t dname entries ctx Hd Hhook Himpl Hctx.
    destruct (_repr_type_dialect t dname entries ctx Hd Hhook Himpl Hctx)
      as (v & ctx' & Hr & Hi).
    exists v, ctx'. split; [exact Hr|]. split; [exact Hi|].
    destruct (_repr_type_dialect t dname _ ctx' Hd Hhook Himpl Hi)
      as (v' & ctx'' & Hr' & Hi').
    exists v', ctx''. split; [exact Hr'|].
    rewrite Hi', Hi. f_equal. set_solver.
Qed.

End Monotone.

(** ** The prefix of the rendered call *)

(** The line opens with the prefix the context gives, read when the
    renderer is entered or when it returns. *)
Definition call_with_prefix (ctx ctx' : AutogenContext) (line : string) : Prop :=
  (exists rest, line = _alembic_autogenerate_prefix_of ctx +:+ rest)
  \/ (exists rest, line = _alembic_autogenerate_prefix_of ctx' +:+ rest).

Definition routes_prefix {A} (f : A -> M string) : Prop :=
  forall o ctx txt ctx', f o ctx = (Ok txt, ctx') -> call_with_prefix ctx ctx' txt.

Ltac inv_leaf H :=
  lazymatch type of H with
  | gets _ _ = _ => inversion H; subst; clear H
  | _alembic_autogenerate_prefix _ = _ =>
      unfold _alembic_autogenerate_prefix, gets in H; inversion H; subst; clear H
  | _ => idtac
  end.

Ltac inv_step H :=
  lazymatch type of H with
  | bind _ _ _ = (Ok _, _) =>
      let a := fresh "a" in
      let c := fresh "c" in
      let H1 := fresh "H" in
      apply bind_ok_inv in H as (a & c & H1 & H); inv_leaf H1; cbv beta in H
  | ret _ _ = _ => inversion H; subst; clear H
  | raise _ _ = (Ok _, _) => discriminate H
  | (match ?x with _ => _ end) _ = _ => destruct x
  | (let _ := _ in _) _ = _ => cbv zeta in H
  end.

Ltac prefix_now :=
  first [ left; eexists; rewrite ?append_assoc; reflexivity
        | right; eexists; rewrite ?append_assoc; reflexivity ].

Ltac prefix_here :=
  first [ prefix_now
        | unfold call_with_prefix;
          repeat match goal with
                 | |- context [if ?b then _ else _] => destruct b
                 end;
          prefix_now ].

Ltac routes f :=
  intros o ctx txt ctx' H; unfold f in H; repeat inv_step H; prefix_here.

Lemma _render_create_table_comment_routes : routes_prefix _render_create_table_comment.
Proof. routes _render_create_table_comment. Qed.

Lemma _render_drop_table_comment_routes : routes_prefix _render_drop_table_comment.
Proof. routes _render_drop_table_comment. Qed.

Lemma _add_table_routes : routes_prefix _add_table.
Proof. routes _add_table. Qed.

Lemma _drop_table_routes : routes_prefix _drop_table.
Proof. routes _drop_table. Qed.

Lemma _add_index_routes : routes_prefix _add_index.
Proof. routes _add_index. Qed.

Lemma _drop_index_routes : routes_prefix _drop_index.
Proof. routes _drop_index. Qed.

Lemma _drop_constraint_routes : routes_prefix _drop_constraint.
Proof. routes _drop_constraint. Qed.

Lemma _add_column_routes : routes_prefix _add_column.
Proof. routes _add_column. Qed.

Lemma _drop_column_routes : routes_prefix _drop_column.
Proof. routes _drop_column. Qed.

Lemma _add_fk_constraint_routes : routes_prefix _add_fk_constraint.
Proof. routes _add_fk_constraint. Qed.

Lemma _uq_constraint_alter_routes :
  routes_prefix (fun constraint => _uq_constraint constraint true).
Proof.
  intros o ctx txt ctx' H. unfold _uq_constraint in H.
  repeat inv_step H; prefix_here.
Qed.

Lemma _alter_column_routes : routes_prefix _alter_column.
Proof.
  intros o ctx txt ctx' H.
  apply _alter_column_text in H as (et & sd & ty & esd & -> & _).
  unfold alter_head. left. destruct (_has_batch ctx); eexists;
    rewrite ?append_assoc; reflexivity.
Qed.

(** A registered renderer whose first rendered line opens with the
    prefix the context gives. *)
Definition renderer_routes_prefix (r : Renderer) : Prop :=
  forall op calls ctx rendered ctx',
    r op calls ctx = (Ok rendered, ctx') ->
    exists line rest,
      to_list rendered = line :: rest /\ call_with_prefix ctx ctx' line.

Lemma text_routes {A} (f : A -> M string) o ctx rendered ctx' :
  routes_prefix f ->
  text (f o) ctx = (Ok rendered, ctx') ->
  exists line rest, to_list rendered = line :: rest /\ call_with_prefix ctx ctx' line.
Proof.
  intros Hf H. unfold text in H.
  apply bind_ok_inv in H as (s & c & Hs & H). inversion H; subst.
  exists s, []. split; [reflexivity | eapply Hf, Hs].
Qed.

Lemma default_renderers_route k r :
  registered k default_renderers = Some r ->
  k <> K_ExecuteSQLOp -> k <> K_ModifyTableOps ->
  renderer_routes_prefix r.
Proof.
  intros H.
  apply (registered_Forall
           (fun kf => fst kf <> K_ExecuteSQLOp -> fst kf <> K_ModifyTableOps ->
                      renderer_routes_prefix (snd kf)) _ _ _ H).
  unfold default_renderers. apply foldl_dispatch_for_Forall; [constructor|].
  repeat (apply Forall_cons; split); try solve [constructor];
    cbn [fst snd]; intros Hk1 Hk2; try congruence;
    intros op calls ctx rendered ctx' Hr;
    (destruct op; try discriminate Hr).
  - eapply text_routes, Hr. apply _render_create_table_comment_routes.
  - eapply text_routes, Hr. apply _render_drop_table_comment_routes.
  - eapply text_routes, Hr. apply _add_table_routes.
  - eapply text_routes, Hr. apply _drop_table_routes.
  - eapply text_routes, Hr. apply _add_index_routes.
  - eapply text_routes, Hr. apply _drop_index_routes.
  - unfold lines, _add_unique_constraint in Hr.
    apply bind_ok_inv in Hr as (l & c & Hl & Hr). inversion Hr; subst.
    apply bind_ok_inv in Hl as (s & c' & Hs & Hl). inversion Hl; subst.
    exists s, []. split; [reflexivity|].
    apply (_uq_constraint_alter_routes _ _ _ _ Hs).
  - eapply text_routes, Hr. apply _add_fk_constraint_routes.
  - eapply text_routes, Hr. apply _drop_constraint_routes.
  - eapply text_routes, Hr. apply _add_column_routes.
  - eapply text_routes, Hr. apply _drop_column_routes.
  - eapply text_routes, Hr. apply _alter_column_routes.
Qed.

Definition batch_header (table_name : string) (schema : option string) : string :=
  "with op.batch_alter_table(" +:+ Py.repr_str table_name
  +:+ ", schema=" +:+ Py.repr_opt schema +:+ ") as batch_op:".

Lemma _render_modify_table_header table_name schema op ops calls ctx ls ctx' :
  render_as_batch (opts ctx) = true ->
  _render_modify_table table_name schema (op :: ops) calls ctx = (Ok ls, ctx') ->
  exists rest, ls = batch_header table_name schema :: rest.
Proof.
  intros Hb H. unfold _render_modify_table in H.
  apply bind_ok_inv in H as (b & c & Hg & H). inversion Hg; subst; clear Hg.
  rewrite Hb in H. unfold _within_batch in H.
  destruct (bind _ _ (set_has_batch true c)) as [[l|e] c1] eqn:E;
    inversion H; subst; clear H.
  apply bind_ok_inv in E as (t_lines & c2 & _ & E). inversion E; subst.
  eexists. reflexivity.
Qed.

(** C10 (as amended): an ExecuteSQL operation with a string payload
    renders to [op.execute(<repr of the string>)] in every context, so
    whatever [alembic_module_prefix] and the batch flag are.  Every other
    default renderer that returns a call, except the one of the
    ModifyTableOps container, opens its first line with the prefix read off
    the context ([batch_op.] inside a batch block, the configured prefix
    otherwise).  The batch header line of a ModifyTableOps is
    [with op.batch_alter_table(...)], with the fixed [op.] as well. *)
Theorem C10_execute_sql_fixed_prefix :
  (forall s ctx,
      _execute_sql (mkExecuteSQL (SqlStr s)) ctx
      = (Ok ("op." +:+ "execute(" +:+ Py.repr_str s +:+ ")"), ctx))
  /\ (forall k r,
         registered k default_renderers = Some r ->
         k <> K_ExecuteSQLOp -> k <> K_ModifyTableOps ->
         renderer_routes_prefix r)
  /\ (forall table_name schema op ops calls ctx ls ctx',
         render_as_batch (opts ctx) = true ->
         _render_modify_table table_name schema (op :: ops) calls ctx = (Ok ls, ctx') ->
         exists rest, ls = batch_header table_name schema :: rest).
Proof.
  split; [reflexivity|]. split.
  - apply default_renderers_route.
  - apply _render_modify_table_header.
Qed.

(** * Further properties of the renderers *)

(** ** [sorted] *)

(** Order by the text a key gives. *)
Definition key_le {A} (key : A -> string) : relation A :=
  fun a b => String.le (key a) (key b).

#[local] Instance key_le_transitive {A} (key : A -> string) : Transitive (key_le key).
Proof using Type. clear. intros a b c. unfold key_le. apply transitivity. Qed.

Lemma leb_true_le a b : String.leb a b = true -> String.le a b.
Proof using Type. clear. unfold String.le. intros ->. exact I. Qed.

Lemma leb_false_le a b : String.leb a b = false -> String.le b a.
Proof using Type.
  clear. intros H. destruct (String.leb_total a b) as [H'|H']; [congruence|].
  apply leb_true_le, H'.
Qed.

Lemma insert_by_Permutation {A} (key : A -> string) x l :
  Py.insert_by key x l ≡ₚ x :: l.
Proof using Type.
  clear. induction l as [|y l IH]; simpl; [reflexivity|].
  destruct (String.leb _ _); [reflexivity|].
  rewrite IH. apply Permutation_swap.
Qed.

Lemma sorted_by_Permutation {A} (key : A -> string) l : Py.sorted_by key l ≡ₚ l.
Proof using Type.
  clear. unfold Py.sorted_by. induction l as [|x l IH]; simpl; [reflexivity|].
  rewrite insert_by_Permutation, IH. reflexivity.
Qed.

Lemma insert_by_Sorted {A} (key : A -> string) x l :
  Sorted (key_le key) l -> Sorted (key_le key) (Py.insert_by key x l).
Proof using Type.
  clear. induction 1 as [|y l Hl IH Hy]; simpl.
  - repeat constructor.
  - destruct (String.leb (key x) (key y)) eqn:E.
    + constructor; [constructor; assumption|].
      constructor. apply leb_true_le, E.
    + constructor; [exact IH|].
      apply leb_false_le in E.
      destruct l as [|z l]; simpl.
      * constructor. exact E.
      * destruct (String.leb (key x) (key z)); constructor;
          [exact E | inversion Hy; assumption].
Qed.

Lemma sorted_by_Sorted {A} (key : A -> string) l :
  Sorted (key_le key) (Py.sorted_by key l).
Proof using Type.
  clear. unfold Py.sorted_by. induction l as [|x l IH]; simpl; [constructor|].
  apply insert_by_Sorted, IH.
Qed.

Lemma NoDup_key_inj {A} (key : A -> string) l x y :
  NoDup (map key l) -> x ∈ l -> y ∈ l -> key x = key y -> x = y.
Proof using Type.
  clear. induction l as [|a l IH]; simpl; intros Hnd Hx Hy Hk.
  - inversion Hx.
  - apply NoDup_cons in Hnd as [Ha Hnd].
    apply elem_of_cons in Hx as [->|Hx]; apply elem_of_cons in Hy as [->|Hy].
    + reflexivity.
    + exfalso. apply Ha. rewrite Hk. apply list_elem_of_In, in_map, list_elem_of_In, Hy.
    + exfalso. apply Ha. rewrite <- Hk. apply list_elem_of_In, in_map, list_elem_of_In, Hx.
    + apply IH; assumption.
Qed.

(** Sorting by distinct keys forgets the order the items came in. *)
Lemma sorted_by_Permutation_eq {A} (key : A -> string) l1 l2 :
  l1 ≡ₚ l2 -> NoDup (map key l1) ->
  Py.sorted_by key l1 = Py.sorted_by key l2.
Proof using Type.
  clear. intros Hp Hnd.
  apply (Sorted_unique_strong (key_le key)).
  - intros x1 x2 H1 H2 H12 H21.
    rewrite sorted_by_Permutation in H1. rewrite sorted_by_Permutation, <- Hp in H2.
    apply (NoDup_key_inj key l1); try assumption.
    apply (anti_symm String.le); assumption.
  - apply sorted_by_Sorted.
  - apply sorted_by_Sorted.
  - rewrite !sorted_by_Permutation. exact Hp.
Qed.

Lemma sorted_Permutation_eq l1 l2 : l1 ≡ₚ l2 -> Py.sorted l1 = Py.sorted l2.
Proof using Type.
  clear. intros Hp. unfold Py.sorted.
  apply (Sorted_unique String.le).
  - apply (sorted_by_Sorted id).
  - apply (sorted_by_Sorted id).
  - rewrite !sorted_by_Permutation. exact Hp.
Qed.

(** ** CreateTable: the arguments *)

Lemma length_omap_le {A B} (f : A -> option B) l : length (omap f l) <= length l.
Proof using Type.
  clear. induction l as [|x l IH]; simpl; [lia|].
  unfold omap in IH. destruct (f x); simpl; lia.
Qed.

(** The argument list of a CreateTable, read off the renderings of its
    columns and of its constraints. *)
Lemma _add_table_args_inv op ctx args ctx' :
  _add_table_args op ctx = (Ok args, ctx') ->
  exists rcols c1 rcons,
    mapM _render_column (t_columns (ct_to_table op)) ctx = (Ok rcols, c1)
    /\ mapM (fun cons => _render_constraint cons (_namespace_metadata op))
            (t_constraints (ct_to_table op)) c1 = (Ok rcons, ctx')
    /\ args = filter (fun col => Py.truthy col = true) rcols
              ++ Py.sorted (omap id rcons)
    /\ length args <= length (t_columns (ct_to_table op))
                      + length (t_constraints (ct_to_table op)).
Proof.
  intros H. unfold _add_table_args in H.
  apply bind_ok_inv in H as (rcols & c1 & Hcols & H).
  apply bind_ok_inv in H as (rcons & c2 & Hcons & H).
  inversion H; subst; clear H.
  exists rcols, c1, rcons. repeat split; try assumption.
  rewrite length_app.
  pose proof (length_filter (fun col => Py.truthy col = true) rcols) as Hf.
  pose proof (sorted_by_Permutation id (omap id rcons)) as Hs.
  apply Permutation_length in Hs. unfold Py.sorted. rewrite Hs.
  pose proof (length_omap_le id rcons) as Ho.
  apply mapM_ok_inv in Hcols. apply mapM_ok_inv in Hcons. lia.
Qed.

(** The value of a call that succeeds. *)
Definition ok_value {A} (r : Res A * AutogenContext) : option A :=
  match fst r with
  | Ok y => Some y
  | Raise _ => None
  end.

Lemma mapM_at_fixed_context {A B} (f : A -> M B) l ctx :
  Forall (fun x => exists y, f x ctx = (Ok y, ctx)) l ->
  mapM f l ctx = (Ok (omap (fun x => ok_value (f x ctx)) l), ctx).
Proof using Type.
  clear. induction 1 as [|x l [y Hx] Hl IH]; [reflexivity|].
  cbn [mapM]. rewrite (bind_run _ _ _ _ _ Hx), (bind_run _ _ _ _ _ IH).
  cbn [omap list_omap]. unfold ok_value at 1. rewrite Hx. reflexivity.
Qed.

Lemma mapM_ok_fixed_context {A B} (f : A -> M B) l ctx ys ctx' :
  Forall (fun x => snd (f x ctx) = ctx) l ->
  mapM f l ctx = (Ok ys, ctx') ->
  Forall (fun x => exists y, f x ctx = (Ok y, ctx)) l.
Proof using Type.
  clear. intros HF. revert ys ctx'.
  induction HF as [|x l Hx Hl IH]; intros ys ctx' H; constructor.
  - cbn [mapM] in H. apply bind_ok_inv in H as (y & c & Hy & _).
    rewrite Hy in Hx. cbn [snd] in Hx. subst c. exists y. exact Hy.
  - cbn [mapM] in H. apply bind_ok_inv in H as (y & c & Hy & H).
    rewrite Hy in Hx. cbn [snd] in Hx. subst c.
    apply bind_ok_inv in H as (ys' & c & H & _). eapply IH, H.
Qed.

(** X1: the arguments of a CreateTable are the column renderings that are
    not empty, in the order of the columns, followed by the constraint
    renderings that are not [None], in lexical order.  When no constraint
    of the table changes the context as it is rendered, a table that lists
    the same constraints in another order gets the same arguments. *)
Theorem create_table_args_columns_then_sorted_constraints op ctx args ctx' :
  _add_table_args op ctx = (Ok args, ctx') ->
  exists rcols c1 rcons cons,
    mapM _render_column (t_columns (ct_to_table op)) ctx = (Ok rcols, c1)
    /\ mapM (fun cons => _render_constraint cons (_namespace_metadata op))
            (t_constraints (ct_to_table op)) c1 = (Ok rcons, ctx')
    /\ args = filter (fun col => Py.truthy col = true) rcols ++ cons
    /\ Sorted String.le cons
    /\ cons ≡ₚ omap id rcons
    /\ (forall op',
           t_columns (ct_to_table op') = t_columns (ct_to_table op) ->
           _namespace_metadata op' = _namespace_metadata op ->
           t_constraints (ct_to_table op') ≡ₚ t_constraints (ct_to_table op) ->
           Forall (fun c => snd (_render_constraint c (_namespace_metadata op) c1) = c1)
                  (t_constraints (ct_to_table op)) ->
           _add_table_args op' ctx = (Ok args, ctx')).
Proof.
  intros H. apply _add_table_args_inv in H as (rcols & c1 & rcons & Hc & Hk & -> & _).
  exists rcols, c1, rcons, (Py.sorted (omap id rcons)).
  repeat split; try assumption.
  - apply (sorted_by_Sorted id).
  - apply sorted_by_Permutation.
  - intros op' Hcols Hmd Hperm Hfix.
    pose proof (mapM_ok_fixed_context _ _ _ _ _ Hfix Hk) as Hok.
    pose proof Hok as Hok'. rewrite <- Hperm in Hok'.
    rewrite (mapM_at_fixed_context _ _ _ Hok) in Hk. inversion Hk; subst; clear Hk.
    unfold _add_table_args. rewrite Hcols, Hmd.
    rewrite (bind_run _ _ _ _ _ Hc).
    rewrite (bind_run _ _ _ _ _ (mapM_at_fixed_context _ _ _ Hok')).
    unfold ret. do 3 f_equal.
    apply sorted_Permutation_eq. rewrite Hperm. reflexivity.
Qed.

(** X2: a CreateTable whose table has at most 255 columns and
    constraints together is rendered with the flat argument list, never
    with the unpacked one. *)
Theorem create_table_flat_below_ceiling op ctx txt ctx' :
  length (t_columns (ct_to_table op)) + length (t_constraints (ct_to_table op))
    <= MAX_PYTHON_ARGS ->
  _add_table op ctx = (Ok txt, ctx') ->
  exists args,
    _add_table_args op ctx = (Ok args, ctx')
    /\ txt = _alembic_autogenerate_prefix_of ctx' +:+ "create_table("
             +:+ Py.repr_opt (_ident (Some (ct_table_name op))) +:+ "," +:+ Py.nl
             +:+ Py.join ("," +:+ Py.nl) args +:+ _add_table_tail op.
Proof.
  intros Hlen H. unfold _add_table in H.
  apply bind_ok_inv in H as (args & c1 & Hargs & H).
  apply bind_ok_inv in H as (prefix & c2 & Hp & H).
  unfold _alembic_autogenerate_prefix, gets in Hp. inversion Hp; subst; clear Hp.
  inversion H; subst; clear H.
  exists args. split; [exact Hargs|].
  apply _add_table_args_inv in Hargs as (_ & _ & _ & _ & _ & _ & Hb).
  rewrite args_str_flat by (unfold MAX_PYTHON_ARGS in Hlen; lia).
  rewrite !append_assoc. reflexivity.
Qed.

(** ** Variant types *)

(** The [with_variant] calls appended to the text of the base type, for
    the dialects in the order given. *)
Definition with_variant_calls (self : TypeEngine -> M Py.Val) (base : string)
    (variants : list (string * TypeEngine)) : M string :=
  foldl (fun acc dt =>
           let* base := acc in
           let* typ := self (snd dt) in
           ret (base +:+ ".with_variant(" +:+ Py.str typ +:+ ", "
                +:+ Py.repr_str (fst dt) +:+ ")"))
        (ret base) variants.

Lemma insert_by_map {A B} (key : A -> string) (key' : B -> string) (g : A -> B) x l :
  (forall a, key' (g a) = key a) ->
  Py.insert_by key' (g x) (map g l) = map g (Py.insert_by key x l).
Proof using Type.
  clear. intros Hk. induction l as [|y l IH]; [reflexivity|].
  cbn [map Py.insert_by]. rewrite !Hk.
  destruct (String.leb (key x) (key y)); [reflexivity|].
  rewrite IH. reflexivity.
Qed.

Lemma sorted_by_map {A B} (key : A -> string) (key' : B -> string) (g : A -> B) l :
  (forall a, key' (g a) = key a) ->
  Py.sorted_by key' (map g l) = map g (Py.sorted_by key l).
Proof using Type.
  clear. intros Hk. unfold Py.sorted_by. induction l as [|x l IH]; [reflexivity|].
  cbn [map foldr]. rewrite IH. apply insert_by_map, Hk.
Qed.

Lemma foldl_with_variant_map (self : TypeEngine -> M Py.Val) variants :
  forall acc : M string,
    foldl (fun acc dv =>
             let* base := acc in
             let* typ := snd dv in
             ret (base +:+ ".with_variant(" +:+ Py.str typ +:+ ", "
                  +:+ Py.repr_str (fst dv) +:+ ")"))
          acc (map (fun dt : string * TypeEngine => (fst dt, self (snd dt))) variants)
    = foldl (fun acc dt =>
               let* base := acc in
               let* typ := self (snd dt) in
               ret (base +:+ ".with_variant(" +:+ Py.str typ +:+ ", "
                    +:+ Py.repr_str (fst dt) +:+ ")"))
            acc variants.
Proof using Type.
  clear. induction variants as [|dt variants IH]; intros acc; [reflexivity|].
  cbn [map foldl fst snd]. apply IH.
Qed.

(** X3: the [with_variant] calls of a Variant type come in the lexical
    order of the dialect names.  Once the base type has rendered, the
    result is the text of the base followed by one call for each dialect of
    the mapping, the dialects taken in ascending order of their names; so
    two types that differ only in the order in which their mapping lists
    the (distinct) dialects render alike. *)
Theorem variant_rendering_in_dialect_order
    (self : TypeEngine -> M Py.Val) (t : TypeEngine) impl_ ctx base c1 :
  type_impl t = Some impl_ ->
  self impl_ ctx = (Ok base, c1) ->
  base <> Py.VNone -> base <> Py.VBool false ->
  exists ordered,
    ordered ≡ₚ type_mapping t
    /\ Sorted String.le (map fst ordered)
    /\ _render_Variant_type self t ctx
       = (let* s := with_variant_calls self (Py.str base) ordered in
          ret (Py.VStr s)) c1
    /\ (forall t2,
           type_impl t2 = type_impl t ->
           type_mapping t2 ≡ₚ type_mapping t ->
           NoDup (map fst (type_mapping t)) ->
           _render_Variant_type self t2 = _render_Variant_type self t).
Proof using Type.
  clear. intros Hi Hb Hn Hf.
  exists (Py.sorted_by fst (type_mapping t)).
  split; [apply sorted_by_Permutation|]. split; [|split].
  - pose proof (sorted_by_Sorted fst (type_mapping t)) as Hs.
    induction Hs as [|x l Hl IH Hx]; [constructor|].
    cbn [map]. constructor; [exact IH|].
    destruct Hx as [|y l Hxy]; constructor. exact Hxy.
  - unfold _render_Variant_type. rewrite Hi.
    rewrite (bind_run _ _ _ _ _ Hb).
    rewrite (sorted_by_map fst fst) by reflexivity.
    rewrite foldl_with_variant_map.
    destruct base as [|[|]| | | |]; try reflexivity; congruence.
  - intros t2 Hi2 Hp Hnd. unfold _render_Variant_type. rewrite Hi2.
    rewrite (sorted_by_Permutation_eq fst
               (map (fun dt => (fst dt, self (snd dt))) (type_mapping t2))
               (map (fun dt => (fst dt, self (snd dt))) (type_mapping t))).
    + reflexivity.
    + apply fmap_Permutation, Hp.
    + rewrite map_map. cbn [fst]. rewrite Hp. exact Hnd.
Qed.

(** ** How operations compose *)

Lemma sequence_map {A B} (f : A -> M B) l : sequence (map f l) = mapM f l.
Proof using Type.
  clear. unfold sequence. induction l as [|x l IH]; [reflexivity|].
  cbn [map mapM]. rewrite IH. reflexivity.
Qed.

(** What [render_op] comes to on a container. *)
Lemma render_op_ModifyTableOps renderers table_name schema ops ctx :
  extends_default renderers ->
  render_op renderers (ModifyTableOps table_name schema ops) ctx
  = _render_modify_table table_name schema ops (map (render_op renderers) ops) ctx.
Proof.
  intros Hext. run_registered Hext. cbn [snd]. unfold lines, bind.
  destruct (_render_modify_table _ _ _ _ ctx) as [[l|e] c]; reflexivity.
Qed.

(** X4: without [render_as_batch], a ModifyTableOps renders to the lines
    of its children, in order and with nothing around them; it raises what
    the first failing child raises. *)
Theorem modify_table_without_batch_concatenates renderers table_name schema ops ctx :
  extends_default renderers ->
  render_as_batch (opts ctx) = false ->
  render_op renderers (ModifyTableOps table_name schema ops) ctx
  = (let* liness := mapM (render_op renderers) ops in ret (concat liness)) ctx.
Proof.
  intros Hext Hb. rewrite render_op_ModifyTableOps by exact Hext.
  unfold _render_modify_table.
  erewrite bind_run by apply gets_run. rewrite Hb.
  destruct ops as [|op ops]; [reflexivity|].
  rewrite sequence_map. reflexivity.
Qed.

(** X5: with [render_as_batch], a ModifyTableOps with children sets the
    batch flag and renders the children in order from there; the result is
    the [batch_alter_table] header, the lines of the children and an empty
    line.  The imports, the options and the warnings of the context are
    afterwards as the children left them; what becomes of the batch flag
    when the block is left is not part of the statement. *)
Theorem modify_table_batch_block renderers table_name schema op ops ctx liness ctx' :
  extends_default renderers ->
  render_as_batch (opts ctx) = true ->
  mapM (render_op renderers) (op :: ops) (set_has_batch true ctx) = (Ok liness, ctx') ->
  exists ctx'',
    render_op renderers (ModifyTableOps table_name schema (op :: ops)) ctx
    = (Ok (batch_header table_name schema :: concat liness ++ [""]), ctx'')
    /\ imports ctx'' = imports ctx'
    /\ opts ctx'' = opts ctx'
    /\ warnings ctx'' = warnings ctx'.
Proof.
  intros Hext Hb H. rewrite render_op_ModifyTableOps by exact Hext.
  unfold _render_modify_table.
  erewrite bind_run by apply gets_run. rewrite Hb.
  unfold _within_batch. rewrite sequence_map.
  rewrite (bind_run _ _ _ _ _ H).
  eexists. split; [reflexivity|]. repeat split.
Qed.

Lemma cmd_body_loop_raise renderers pre op post :
  forall has_lines printer ctx liness c1 e c2,
    mapM (render_op renderers) pre ctx = (Ok liness, c1) ->
    render_op renderers op c1 = (Raise e, c2) ->
    cmd_body_loop renderers (pre ++ op :: post) has_lines printer ctx = (Raise e, c2).
Proof.
  induction pre as [|o pre IH]; intros has printer ctx liness c1 e c2 Hpre Hop;
    simpl in Hpre.
  - inversion Hpre; subst. simpl. rewrite (bind_raise _ _ _ _ _ Hop). reflexivity.
  - apply bind_ok_inv in Hpre as (ls & c0 & Ho & Hpre).
    apply bind_ok_inv in Hpre as (rest & c0' & Hpre & Hr). inversion Hr; subst.
    simpl. rewrite (bind_run _ _ _ _ _ Ho). eapply IH; eassumption.
Qed.

Lemma mapM_raise {A B} (f : A -> M B) pre x post :
  forall ctx ys c1 e c2,
    mapM f pre ctx = (Ok ys, c1) ->
    f x c1 = (Raise e, c2) ->
    mapM f (pre ++ x :: post) ctx = (Raise e, c2).
Proof.
  induction pre as [|a pre IH]; intros ctx ys c1 e c2 Hpre Hx; simpl in Hpre.
  - inversion Hpre; subst. simpl. rewrite (bind_raise _ _ _ _ _ Hx). reflexivity.
  - apply bind_ok_inv in Hpre as (y & c0 & Ha & Hpre).
    apply bind_ok_inv in Hpre as (rest & c0' & Hpre & Hr). inversion Hr; subst.
    simpl. rewrite (bind_run _ _ _ _ _ Ha).
    erewrite bind_raise; [reflexivity|]. eapply IH; eassumption.
Qed.

(** X6: the first operation of a script direction that raises ends the
    rendering of the body: the error is handed on as it is, with the
    context as that operation left it, and no later operation is rendered. *)
Theorem cmd_body_raises_first_error renderers getvalue pre op post
    ctx liness c1 e c2 :
  mapM (render_op renderers) pre ctx = (Ok liness, c1) ->
  render_op renderers op c1 = (Raise e, c2) ->
  _render_cmd_body renderers getvalue (mkOpContainer (pre ++ op :: post)) ctx
  = (Raise e, c2)
  /\ forall post',
      _render_cmd_body renderers getvalue (mkOpContainer (pre ++ op :: post')) ctx
      = (Raise e, c2).
Proof.
  intros Hpre Hop.
  assert (H : forall post0,
             _render_cmd_body renderers getvalue
               (mkOpContainer (pre ++ op :: post0)) ctx = (Raise e, c2)).
  { intros post0. unfold _render_cmd_body, _render_cmd_body_printer.
    erewrite bind_raise; [reflexivity|].
    erewrite bind_raise; [reflexivity|].
    eapply cmd_body_loop_raise; eassumption. }
  split; [apply H | exact H].
Qed.

Definition is_empty_container (op : MigrateOperation) : bool :=
  match op with
  | ModifyTableOps _ _ [] => true
  | _ => false
  end.

Lemma mapM_empty_containers renderers ops ctx :
  extends_default renderers ->
  forallb is_empty_container ops = true ->
  mapM (render_op renderers) ops ctx = (Ok (map (fun _ => []) ops), ctx).
Proof.
  intros Hext. induction ops as [|op ops IH]; intros H; [reflexivity|].
  simpl in H. apply andb_true_iff in H as [Hop H].
  destruct op as [t s [|o os]| | | | | | | | | | | | | | | |]; try discriminate Hop.
  cbn [mapM map].
  erewrite bind_run; [|run_registered Hext; reflexivity].
  erewrite bind_run; [|apply IH, H]. reflexivity.
Qed.

Lemma concat_map_nil {A B} (l : list A) : concat (map (fun _ => @nil B) l) = [].
Proof using Type. clear. induction l; simpl; assumption || reflexivity. Qed.

(** X7: a script direction that holds nothing but ModifyTableOps
    containers without children has the body [pass], in batch mode or not,
    and the context is left as it was. *)
Theorem cmd_body_of_empty_containers_is_pass renderers getvalue c ctx :
  extends_default renderers ->
  forallb is_empty_container (container_ops c) = true ->
  _render_cmd_body renderers getvalue c ctx
  = (Ok (getvalue (mkPrinter [header; "pass"; footer])), ctx).
Proof.
  intros Hext H. unfold _render_cmd_body, _render_cmd_body_printer.
  erewrite bind_run; [reflexivity|].
  erewrite bind_run;
    [|apply cmd_body_loop_spec, mapM_empty_containers; assumption].
  rewrite concat_map_nil. reflexivity.
Qed.

(** ** Renderers that never touch the context *)

(** The operation kinds whose renderer calls neither the [render_item]
    hook nor the dialect's type renderer. *)
Definition context_free_kind (k : OpKind) : bool :=
  match k with
  | K_CreateTableCommentOp | K_DropTableCommentOp | K_DropTableOp
  | K_CreateIndexOp | K_DropIndexOp | K_CreateUniqueConstraintOp
  | K_CreateForeignKeyOp | K_CreatePrimaryKeyOp | K_CreateCheckConstraintOp
  | K_DropConstraintOp | K_DropColumnOp | K_ExecuteSQLOp => true
  | _ => false
  end.

Lemma text_read_only {A} (m : M A) (f : A -> Rendered) :
  ReadOnly m -> ReadOnly (let* s := m in ret (f s)).
Proof. intros H. preserves. Qed.

Lemma _add_fk_constraint_read_only op : ReadOnly (_add_fk_constraint op).
Proof. unfold _add_fk_constraint. preserves. Qed.

Lemma _add_index_read_only op : ReadOnly (_add_index op).
Proof. unfold _add_index. preserves. Qed.

Lemma _drop_index_read_only op : ReadOnly (_drop_index op).
Proof. unfold _drop_index. preserves. Qed.

Lemma _drop_constraint_read_only op : ReadOnly (_drop_constraint op).
Proof. unfold _drop_constraint. preserves. Qed.

Lemma _drop_column_read_only op : ReadOnly (_drop_column op).
Proof. unfold _drop_column. preserves. Qed.

Lemma _drop_table_read_only op : ReadOnly (_drop_table op).
Proof. unfold _drop_table. preserves. Qed.

Lemma _render_create_table_comment_read_only op :
  ReadOnly (_render_create_table_comment op).
Proof. unfold _render_create_table_comment. preserves. Qed.

Lemma _render_drop_table_comment_read_only op :
  ReadOnly (_render_drop_table_comment op).
Proof. unfold _render_drop_table_comment. preserves. Qed.

Lemma _execute_sql_read_only op : ReadOnly (_execute_sql op).
Proof. unfold _execute_sql. preserves. Qed.

Lemma context_free_renderers k r :
  registered k default_renderers = Some r ->
  context_free_kind k = true ->
  forall op calls, ReadOnly (r op calls).
Proof.
  intros H.
  apply (registered_Forall
           (fun kf => context_free_kind (fst kf) = true ->
                      forall op calls, ReadOnly (snd kf op calls)) _ _ _ H).
  unfold default_renderers. apply foldl_dispatch_for_Forall; [constructor|].
  repeat (apply Forall_cons; split); try solve [constructor];
    cbn [fst snd]; intros Hk; try discriminate Hk;
    intros op calls; unfold wrong_kind, text, lines;
    (destruct op; try (apply preserves_raise; preorder));
    apply text_read_only.
  - apply _render_create_table_comment_read_only.
  - apply _render_drop_table_comment_read_only.
  - apply _drop_table_read_only.
  - apply _add_index_read_only.
  - apply _drop_index_read_only.
  - unfold _add_unique_constraint. preserves.
  - apply _add_fk_constraint_read_only.
  - apply _drop_constraint_read_only.
  - apply _drop_column_read_only.
  - apply _execute_sql_read_only.
Qed.

(** X8: rendering a table comment, a DropTable, an index, a unique or
    foreign key constraint, a DropConstraint, a DropColumn or an ExecuteSQL
    operation never changes the context, whether it returns or raises:
    no import is recorded, no warning issued, and the batch flag and the
    options stay as they were, whatever the [render_item] hook and the
    dialect are. *)
Theorem context_free_operations_leave_context renderers op ctx r ctx' :
  extends_default renderers ->
  context_free_kind (op_kind op) = true ->
  render_op renderers op ctx = (r, ctx') ->
  ctx' = ctx.
Proof.
  intros Hext Hk H.
  assert (Hreg : exists fn, registered (op_kind op) default_renderers = Some fn).
  { destruct op; try discriminate Hk; eexists; reflexivity. }
  destruct Hreg as [fn Hreg].
  rewrite (render_op_registered _ _ _ _ (Hext _ _ Hreg)) in H.
  symmetry. revert H. apply preserves_bind; [preorder | | intros a; preserves].
  apply (context_free_renderers _ _ Hreg Hk).
Qed.

(** ** Foreign key references: the tokens *)

Lemma split_no_sep c s : Py.contains c s = false -> Py.split c s = [s].
Proof using Type.
  clear. induction s as [|a s IH]; [reflexivity|].
  simpl. intros H. apply orb_false_iff in H as [Ha Hs].
  rewrite Ascii.eqb_sym, Ha, (IH Hs). reflexivity.
Qed.

Lemma split_sep_length c s : Py.contains c s = true -> 2 <= length (Py.split c s).
Proof using Type.
  clear. induction s as [|a s IH]; [discriminate|].
  simpl. rewrite (Ascii.eqb_sym c a).
  pose proof (split_nonempty c s) as Hne.
  destruct (Ascii.eqb a c); simpl.
  - intros _. destruct (Py.split c s); [congruence | simpl; lia].
  - intros H. specialize (IH H). destruct (Py.split c s); simpl in *; lia.
Qed.

Lemma last_two_long tokens :
  2 <= length tokens -> exists tname colname, last_two tokens = Ok (tname, colname).
Proof using Type.
  clear. intros H. unfold last_two. rewrite <- length_reverse in H.
  destruct (reverse tokens) as [|c [|t r]]; simpl in H; try lia.
  eexists _, _. reflexivity.
Qed.

Definition unpack_error : PyError :=
  ValueError "not enough values to unpack (expected 2, got 1)".

(** X9: [_fk_colspec] fails exactly on a reference without a dot, with
    the [ValueError] of unpacking one token into a table and a column
    name.  A foreign key that is [link_to_name], or whose parent column has
    no table, is rendered without looking at the tables of the metadata. *)
Theorem fk_colspec_fails_iff_no_dot fk metadata_schema md :
  ((exists e, _fk_colspec fk metadata_schema md = Raise e)
   <-> Py.contains "." (fk_colspec fk) = false)
  /\ (Py.contains "." (fk_colspec fk) = false ->
      _fk_colspec fk metadata_schema md = Raise unpack_error)
  /\ (fk_resolves fk = false ->
      forall tables,
        _fk_colspec fk metadata_schema md
        = _fk_colspec fk metadata_schema (mkMetaData (md_schema md) tables)).
Proof using Type.
  clear.
  assert (Hno : Py.contains "." (fk_colspec fk) = false ->
                _fk_colspec fk metadata_schema md = Raise unpack_error).
  { intros H. unfold _fk_colspec. rewrite (split_no_sep _ _ H). reflexivity. }
  split; [split|split].
  - intros [e He]. destruct (Py.contains "." (fk_colspec fk)) eqn:E; [|reflexivity].
    apply split_sep_length, last_two_long in E as (t & c & E).
    unfold _fk_colspec in He. rewrite E in He. discriminate He.
  - intros H. eexists. apply Hno, H.
  - exact Hno.
  - intros Hres tables. unfold _fk_colspec. unfold fk_resolves in Hres.
    destruct (last_two _) as [[t c]|e]; [|reflexivity].
    rewrite Hres. reflexivity.
Qed.

(** ** Server defaults: the outer quotes *)

Lemma snoc_quote_not_end x :
  String.eqb (x +:+ "'") "" || String.eqb (x +:+ "'") Py.nl = false.
Proof using Type.
  clear. apply orb_false_iff. split; apply String.eqb_neq.
  - destruct x; discriminate.
  - destruct x as [|b [|c x]]; [discriminate| |]; intros H; inversion H.
Qed.

Lemma drop_final_quote_snoc x : drop_final_quote (x +:+ "'") = x.
Proof using Type.
  clear. induction x as [|a x IH]; [reflexivity|].
  change (String a x +:+ "'") with (String a (x +:+ "'")).
  cbn [drop_final_quote]. rewrite snoc_quote_not_end, andb_false_r, IH.
  reflexivity.
Qed.

(** A text in single quotes loses exactly these two quotes. *)
Lemma sub_outer_quotes_quoted x : sub_outer_quotes ("'" +:+ x +:+ "'") = x.
Proof using Type.
  clear. change ("'" +:+ x +:+ "'") with (String "'" (x +:+ "'")).
  cbn [sub_outer_quotes]. change (Ascii.eqb "'" Py.squote) with true.
  cbn iota. apply drop_final_quote_snoc.
Qed.

Lemma drop_final_quote_none s :
  Py.contains Py.squote s = false -> drop_final_quote s = s.
Proof using Type.
  clear. induction s as [|a s IH]; [reflexivity|].
  cbn [Py.contains drop_final_quote]. intros H.
  apply orb_false_iff in H as [Ha Hs].
  rewrite Ascii.eqb_sym, Ha, (IH Hs). reflexivity.
Qed.

Lemma sub_outer_quotes_none s :
  Py.contains Py.squote s = false -> sub_outer_quotes s = s.
Proof using Type.
  clear. intros H. pose proof (drop_final_quote_none s H) as Hd.
  destruct s as [|a s]; [reflexivity|].
  cbn [Py.contains] in H. apply orb_false_iff in H as [Ha Hs].
  cbn [sub_outer_quotes]. rewrite Ascii.eqb_sym, Ha. exact Hd.
Qed.

(** The server defaults that are plain text. *)
Definition server_default_text (d : ServerDefault) : option string :=
  match d with
  | DefaultStr s => Some s
  | DefaultClause (Plain (Py.VStr s)) => Some s
  | _ => None
  end.

(** X10: a server default given as text is rendered, when the hook
    declines it, as the [repr] of that text without its outer single
    quotes: a text in single quotes gives the [repr] of what stands between
    them, whatever that is, and a text without single quote gives its own
    [repr]. *)
Theorem server_default_text_loses_outer_quotes d ctx ctx1 :
  _user_defined_render "server_default" (ItemServerDefault (Some d)) ctx
  = (Ok None, ctx1) ->
  (forall x,
      server_default_text d = Some ("'" +:+ x +:+ "'") ->
      _render_server_default (Some d) true ctx = (Ok (Py.VStr (Py.repr_str x)), ctx1))
  /\ (forall s,
         server_default_text d = Some s ->
         Py.contains Py.squote s = false ->
         _render_server_default (Some d) true ctx = (Ok (Py.VStr (Py.repr_str s)), ctx1)).
Proof.
  intros Hhook.
  assert (H : forall s, server_default_text d = Some s ->
                        _render_server_default (Some d) true ctx
                        = (Ok (Py.VStr (Py.repr_str (sub_outer_quotes s))), ctx1)).
  { intros s Hs. unfold _render_server_default.
    rewrite (bind_run _ _ _ _ _ Hhook).
    destruct d as [| |[e|[| | |s'| |]]|s'|]; try discriminate Hs;
      inversion Hs; subst; reflexivity. }
  split.
  - intros x Hx. rewrite (H _ Hx), sub_outer_quotes_quoted. reflexivity.
  - intros s Hs Hq. rewrite (H _ Hs), sub_outer_quotes_none by exact Hq. reflexivity.
Qed.

(** ** The dialect name of a type's module *)

Fixpoint all_word (s : string) : bool :=
  match s with
  | EmptyString => true
  | String c s' => is_word c && all_word s'
  end.

(** No word character stands at the head of [rest]. *)
Definition word_ends (rest : string) : bool :=
  match rest with
  | String c _ => negb (is_word c)
  | EmptyString => true
  end.

Lemma take_word_app w rest :
  all_word w = true -> word_ends rest = true -> take_word (w +:+ rest) = w.
Proof using Type.
  clear. induction w as [|c w IH]; intros Hw Hr.
  - change ("" +:+ rest) with rest. destruct rest as [|c r]; [reflexivity|].
    cbn [word_ends] in Hr. cbn [take_word].
    destruct (is_word c); [discriminate Hr | reflexivity].
  - cbn [all_word] in Hw. apply andb_true_iff in Hw as [Hc Hw].
    change (String c w +:+ rest) with (String c (w +:+ rest)).
    cbn [take_word]. rewrite Hc, IH by assumption. reflexivity.
Qed.

Lemma take_word_split s :
  exists rest, s = take_word s +:+ rest
               /\ all_word (take_word s) = true /\ word_ends rest = true.
Proof using Type.
  clear. induction s as [|c s (rest & Hs & Hw & Hr)].
  - exists "". repeat split.
  - cbn [take_word]. destruct (is_word c) eqn:Hc.
    + exists rest. split; [|split].
      * change (String c (take_word s) +:+ rest)
          with (String c (take_word s +:+ rest)).
        rewrite <- Hs. reflexivity.
      * cbn [all_word]. rewrite Hc, Hw. reflexivity.
      * exact Hr.
    + exists (String c s). split; [reflexivity|]. split; [reflexivity|].
      cbn [word_ends]. rewrite Hc. reflexivity.
Qed.

Lemma drop_prefix_here p rest : drop_prefix p (p +:+ rest) = Some rest.
Proof using Type.
  clear. induction p as [|a p IH]; [destruct rest; reflexivity|].
  change (String a p +:+ rest) with (String a (p +:+ rest)).
  cbn [drop_prefix]. rewrite Ascii.eqb_refl. exact IH.
Qed.

(** X11: [match_dialect], which stands for
    [re.match(r"sqlalchemy\.dialects\.(\w+)", mod)], finds a name exactly
    when the module is [sqlalchemy.dialects.] followed by that name, the
    name is a non-empty run of word characters, and no word character
    follows it: the name is the longest such run.  The module is ASCII
    text, where the word characters are the letters, the digits and the
    underscore. *)
Theorem match_dialect_longest_word mod_ dname :
  match_dialect mod_ = Some dname
  <-> dname <> ""
      /\ all_word dname = true
      /\ exists rest, mod_ = "sqlalchemy.dialects." +:+ dname +:+ rest
                      /\ word_ends rest = true.
Proof using Type.
  clear. unfold match_dialect. split.
  - destruct (drop_prefix _ mod_) as [r|] eqn:E; [|discriminate].
    apply drop_prefix_app in E.
    destruct (take_word_split r) as (rest & Hr & Hw & He).
    destruct (take_word r) as [|c w] eqn:Ew; [discriminate|].
    cbn [Py.truthy]. intros H. inversion H; subst dname; clear H.
    split; [discriminate|]. split; [exact Hw|].
    exists rest. split; [|exact He]. rewrite <- Hr. exact E.
  - intros (Hne & Hw & rest & -> & He).
    rewrite drop_prefix_here, take_word_app by assumption.
    destruct dname; [congruence | reflexivity].
Qed.

(** The call of the dialect's type renderer in [_repr_type]. *)
Definition impl_render_type (t : TypeEngine) : M (option string) :=
  match impl with
  | Some i => render_type i t
  | None => ret None
  end.

Lemma _repr_type_unfold t :
  _repr_type t =
  let* rendered := _user_defined_render "type" (ItemType t) in
  match rendered with
  | Some r => ret (Py.VStr r)
  | None =>
      let* impl_rt := impl_render_type t in
      let mod_ := type_module t in
      if Py.startswith mod_ "sqlalchemy.dialects" then
        match match_dialect mod_ with
        | None => raise AssertionError
        | Some dname =>
            let* _ := add_import ("from sqlalchemy.dialects import " +:+ dname) in
            if Py.truthy_opt impl_rt then ret (Py.of_opt impl_rt)
            else ret (Py.VStr (dname +:+ "." +:+ type_repr t))
        end
      else if Py.truthy_opt impl_rt then ret (Py.of_opt impl_rt)
      else if Py.startswith mod_ "sqlalchemy." then
        if type_is_Variant t then _render_Variant_type _repr_type t
        else if String.eqb (type_visit_name t) "ARRAY"
        then _render_ARRAY_type _repr_type t
        else if String.eqb (type_visit_name t) "Variant"
        then _render_Variant_type _repr_type t
        else
          let* prefix := _sqlalchemy_autogenerate_prefix in
          ret (Py.VStr (prefix +:+ type_repr t))
      else
        let* prefix := _user_autogenerate_prefix t in
        ret (Py.VStr (prefix +:+ type_repr t))
  end.
Proof. destruct t; reflexivity. Qed.

(** X12: a type whose module is in [sqlalchemy.dialects] without a
    dialect name after it (the module [sqlalchemy.dialects] itself, say)
    fails the assertion of [_repr_type], after the hook and the dialect
    have been asked. *)
Theorem dialect_namespace_without_name_fails t ctx c1 rt c2 :
  Py.startswith (type_module t) "sqlalchemy.dialects" = true ->
  match_dialect (type_module t) = None ->
  _user_defined_render "type" (ItemType t) ctx = (Ok None, c1) ->
  impl_render_type t c1 = (Ok rt, c2) ->
  _repr_type t ctx = (Raise AssertionError, c2).
Proof.
  intros Hs Hm Hhook Himpl. rewrite _repr_type_unfold.
  rewrite (bind_run _ _ _ _ _ Hhook). rewrite (bind_run _ _ _ _ _ Himpl).
  cbv zeta. rewrite Hs, Hm. reflexivity.
Qed.

(** X13: the order in which [_repr_type] resolves a type.  The text of
    the [render_item] hook wins, and nothing else is asked.  Otherwise the
    text of the dialect's type renderer wins, and for a type of a dialect
    namespace the import of the dialect is recorded all the same.  A type
    outside the [sqlalchemy] namespace that neither renders is its [repr]
    after the user module prefix, and no import is recorded for it. *)
Theorem type_rendering_resolution_order t ctx :
  (forall r c1,
      _user_defined_render "type" (ItemType t) ctx = (Ok (Some r), c1) ->
      _repr_type t ctx = (Ok (Py.VStr r), c1))
  /\ (forall c1 rt c2,
         _user_defined_render "type" (ItemType t) ctx = (Ok None, c1) ->
         impl_render_type t c1 = (Ok (Some rt), c2) ->
         Py.truthy rt = true ->
         (Py.startswith (type_module t) "sqlalchemy.dialects" = false ->
          _repr_type t ctx = (Ok (Py.VStr rt), c2))
         /\ (forall dname,
                match_dialect (type_module t) = Some dname ->
                _repr_type t ctx
                = (Ok (Py.VStr rt), snd (add_import (dialect_import dname) c2))))
  /\ (forall c1 rt c2,
         _user_defined_render "type" (ItemType t) ctx = (Ok None, c1) ->
         impl_render_type t c1 = (Ok rt, c2) ->
         Py.truthy_opt rt = false ->
         Py.startswith (type_module t) "sqlalchemy.dialects" = false ->
         Py.startswith (type_module t) "sqlalchemy." = false ->
         _repr_type t ctx
         = (Ok (Py.VStr (match user_module_prefix (opts c2) with
                         | None => type_module t +:+ "."
                         | Some prefix => prefix
                         end +:+ type_repr t)), c2)).
Proof.
  split; [|split].
  - intros r c1 Hhook. rewrite _repr_type_unfold.
    rewrite (bind_run _ _ _ _ _ Hhook). reflexivity.
  - intros c1 rt c2 Hhook Himpl Hrt. split.
    + intros Hs. rewrite _repr_type_unfold.
      rewrite (bind_run _ _ _ _ _ Hhook). rewrite (bind_run _ _ _ _ _ Himpl).
      cbv zeta. rewrite Hs. cbn [Py.truthy_opt]. rewrite Hrt. reflexivity.
    + intros dname Hd. pose proof (match_dialect_startswith _ _ Hd) as Hs.
      rewrite _repr_type_unfold.
      rewrite (bind_run _ _ _ _ _ Hhook). rewrite (bind_run _ _ _ _ _ Himpl).
      cbv zeta. rewrite Hs, Hd. cbn [Py.truthy_opt]. rewrite Hrt. reflexivity.
  - intros c1 rt c2 Hhook Himpl Hrt Hs Hs'. rewrite _repr_type_unfold.
    rewrite (bind_run _ _ _ _ _ Hhook). rewrite (bind_run _ _ _ _ _ Himpl).
    cbv zeta. rewrite Hs, Hrt, Hs'. reflexivity.
Qed.

(** ** The [render_item] hook *)

(** X14: whatever the [render_item] hook answers for a column, a server
    default or a constraint is the rendering of that item, as it is: the
    item itself is not looked at, so that a foreign key is rendered even
    without namespace metadata, and a primary key without columns or a
    type-bound check constraint is rendered too. *)
Theorem render_item_hook_overrides r ctx c1 :
  (forall column,
      _user_defined_render "column" (ItemColumn column) ctx = (Ok (Some r), c1) ->
      _render_column column ctx = (Ok r, c1))
  /\ (forall default_ repr_,
         _user_defined_render "server_default" (ItemServerDefault default_) ctx
         = (Ok (Some r), c1) ->
         _render_server_default default_ repr_ ctx = (Ok (Py.VStr r), c1))
  /\ (forall c md,
         _user_defined_render "primary_key" (ItemPrimaryKey c) ctx = (Ok (Some r), c1) ->
         _render_constraint (CPrimaryKey c) md ctx = (Ok (Some r), c1))
  /\ (forall c md,
         _user_defined_render "foreign_key" (ItemForeignKey c) ctx = (Ok (Some r), c1) ->
         _render_constraint (CForeignKey c) md ctx = (Ok (Some r), c1))
  /\ (forall c md,
         _user_defined_render "unique" (ItemUnique c) ctx = (Ok (Some r), c1) ->
         _render_constraint (CUnique c) md ctx = (Ok (Some r), c1))
  /\ (forall c md,
         _user_defined_render "check" (ItemCheck c) ctx = (Ok (Some r), c1) ->
         _render_constraint (CCheck c) md ctx = (Ok (Some r), c1)).
Proof.
  repeat split; intros; rewrite ?_render_constraint_eq;
    unfold _render_column, _render_server_default, _render_primary_key,
      _render_foreign_key, _render_unique_constraint, _render_check_constraint;
    erewrite bind_run by eassumption; reflexivity.
Qed.

(** ** Identity columns *)

Lemma Forall_odict_set (P : string * Py.Val -> Prop) key v d :
  P (key, v) -> Forall P d -> Forall P (odict_set key v d).
Proof using Type.
  clear. intros Hv. induction 1 as [|[k w] d Hk Hd IH]; cbn [odict_set].
  - repeat constructor. exact Hv.
  - destruct (String.eqb_spec k key) as [->|Hne]; constructor; assumption.
Qed.

(** Every option [_get_identity_options] keeps is one of the options
    given, and its value is not [None]. *)
Lemma _get_identity_options_Forall (Q : string * Py.Val -> Prop) options :
  Forall Q options ->
  Forall (fun kv => Q kv /\ snd kv <> Py.VNone) (_get_identity_options options).
Proof using Type.
  clear. unfold _get_identity_options.
  assert (H : forall acc,
             Forall (fun kv => Q kv /\ snd kv <> Py.VNone) acc ->
             Forall Q options ->
             Forall (fun kv => Q kv /\ snd kv <> Py.VNone)
                    (foldl (fun kwargs av =>
                              match snd av with
                              | Py.VNone => kwargs
                              | value => odict_set (fst av) value kwargs
                              end) acc options)).
  { induction options as [|[k v] options IH]; intros acc Hacc Hq; [exact Hacc|].
    apply Forall_cons in Hq as [Hkv Hq]. cbn [foldl fst snd].
    apply IH; [|exact Hq].
    destruct v; try exact Hacc;
      (apply Forall_odict_set; [split; [exact Hkv | discriminate] | exact Hacc]). }
  apply H. constructor.
Qed.

(** Updating a dictionary whose first key is [always] with values that
    are not [None]. *)
Lemma foldl_odict_set_always updates :
  Forall (fun kv => snd kv <> Py.VNone) updates ->
  forall v rest,
    Forall (fun kv => snd kv <> Py.VNone) rest ->
    exists v' rest',
      foldl (fun kw kv => odict_set (fst kv) (snd kv) kw) (("always", v) :: rest) updates
      = ("always", v') :: rest'
      /\ Forall (fun kv => snd kv <> Py.VNone) rest'
      /\ (Forall (fun kv => fst kv <> "always") updates -> v' = v).
Proof using Type.
  clear. induction 1 as [|[k w] updates Hw Hu IH]; intros v rest Hrest.
  - exists v, rest. repeat split; assumption.
  - cbn [foldl fst snd odict_set]. cbn [snd] in Hw.
    destruct (String.eqb_spec "always" k) as [<-|Hne].
    + destruct (IH w rest Hrest) as (v' & rest' & -> & Hr' & _).
      exists v', rest'. split; [reflexivity|]. split; [exact Hr'|].
      intros Hk. apply Forall_cons in Hk as [Hk _]. cbn [fst] in Hk. congruence.
    + destruct (IH v (odict_set k w rest)) as (v' & rest' & -> & Hr' & Hv').
      { apply Forall_odict_set; assumption. }
      exists v', rest'. split; [reflexivity|]. split; [exact Hr'|].
      intros Hk. apply Forall_cons in Hk as [_ Hk]. apply Hv', Hk.
Qed.

Definition identity_kwarg (kv : string * Py.Val) : string :=
  fst kv +:+ "=" +:+ Py.str (snd kv).

(** X15: the rendering of an Identity always succeeds, leaves the
    context as it was, and opens with the keyword [always], written even
    when its value is [None]; no keyword after it has the value [None].
    When no identity option is itself called [always], the value written
    for [always] is the one of the Identity. *)
Theorem identity_renders_always_first always on_null options ctx :
  exists v rest,
    _render_identity always on_null options ctx
    = (Ok (default "" (sqlalchemy_module_prefix (opts ctx)) +:+ "Identity("
           +:+ Py.join ", " (map identity_kwarg (("always", v) :: rest)) +:+ ")"),
       ctx)
    /\ Forall (fun kv => snd kv <> Py.VNone) rest
    /\ (Forall (fun kv => fst kv <> "always") options ->
        v = match always with Some b => Py.VBool b | None => Py.VNone end).
Proof using Type.
  clear.
  pose proof (_get_identity_options_Forall (fun kv => fst kv <> "always") options)
    as Hopt.
  pose proof (_get_identity_options_Forall (fun _ => True) options
                (Forall_true _ _ (fun _ => I))) as Hnn.
  assert (Hnn' : Forall (fun kv => snd kv <> Py.VNone) (_get_identity_options options)).
  { eapply Forall_impl; [exact Hnn|]. intros kv [_ H]. exact H. }
  set (a := match always with Some b => Py.VBool b | None => Py.VNone end).
  assert (Hhead : exists rest0,
             match on_null with
             | Some b => odict_set "on_null" (Py.VBool b) [("always", a)]
             | None => [("always", a)]
             end = ("always", a) :: rest0
             /\ Forall (fun kv => snd kv <> Py.VNone) rest0).
  { destruct on_null as [b|].
    - exists [("on_null", Py.VBool b)]. split; [reflexivity|].
      repeat constructor. discriminate.
    - exists []. split; [reflexivity | constructor]. }
  destruct Hhead as (rest0 & Hhead & Hrest0).
  destruct (foldl_odict_set_always _ Hnn' a rest0 Hrest0) as (v & rest & Hf & Hr & Hv).
  exists v, rest. split; [|split].
  - unfold _render_identity. fold a. rewrite Hhead, Hf. reflexivity.
  - exact Hr.
  - intros Hk. apply Hv. specialize (Hopt Hk).
    eapply Forall_impl; [exact Hopt|]. intros kv [H _]. exact H.
Qed.

(** ** One statement for one operation *)

(** The operations of the classes that have a default renderer, but for
    the container. *)
Definition atomic_builtin (op : MigrateOperation) : bool :=
  match op with
  | ModifyTableOps _ _ _ | OtherOp _ _ => false
  | _ => true
  end.

Lemma text_one_line (m : M string) ctx rendered ctx' :
  text m ctx = (Ok rendered, ctx') -> exists line, to_list rendered = [line].
Proof using Type.
  clear. unfold text. intros H.
  apply bind_ok_inv in H as (s & c & _ & H). inversion H; subst.
  exists s. reflexivity.
Qed.

Lemma default_renderers_one_line k r :
  registered k default_renderers = Some r ->
  k <> K_ModifyTableOps ->
  forall op calls ctx rendered ctx',
    r op calls ctx = (Ok rendered, ctx') -> exists line, to_list rendered = [line].
Proof.
  intros H.
  apply (registered_Forall
           (fun kf => fst kf <> K_ModifyTableOps ->
                      forall op calls ctx rendered ctx',
                        snd kf op calls ctx = (Ok rendered, ctx') ->
                        exists line, to_list rendered = [line]) _ _ _ H).
  unfold default_renderers. apply foldl_dispatch_for_Forall; [constructor|].
  repeat (apply Forall_cons; split); try solve [constructor];
    cbn [fst snd]; intros Hk; try congruence;
    intros op calls ctx rendered ctx' Hr;
    (destruct op; try discriminate Hr);
    try (eapply text_one_line, Hr).
  unfold lines, _add_unique_constraint in Hr.
  apply bind_ok_inv in Hr as (l & c & Hl & Hr). inversion Hr; subst.
  apply bind_ok_inv in Hl as (s & c' & _ & Hl). inversion Hl; subst.
  exists s. reflexivity.
Qed.

(** X16: an operation of a class with a default renderer, other than
    the ModifyTableOps container, renders to exactly one statement when it
    renders at all, and [render_op_text] returns that statement. *)
Theorem atomic_operation_renders_one_statement renderers op ctx ls ctx' :
  extends_default renderers ->
  atomic_builtin op = true ->
  render_op renderers op ctx = (Ok ls, ctx') ->
  exists line, ls = [line] /\ render_op_text renderers op ctx = (Ok line, ctx').
Proof.
  intros Hext Hat H.
  assert (Hone : exists line, ls = [line]).
  { assert (Hreg : exists fn, registered (op_kind op) default_renderers = Some fn).
    { destruct op; try discriminate Hat; eexists; reflexivity. }
    destruct Hreg as [fn Hreg].
    rewrite (render_op_registered _ _ _ _ (Hext _ _ Hreg)) in H.
    apply bind_ok_inv in H as (rendered & c & Hr & H). inversion H; subst.
    eapply default_renderers_one_line; [exact Hreg | | exact Hr].
    destruct op; try discriminate Hat; discriminate. }
  destruct Hone as [line ->]. exists line. split; [reflexivity|].
  unfold render_op_text. rewrite (bind_run _ _ _ _ _ H). reflexivity.
Qed.

(** ** Constraints that render to nothing *)

(** A primary key without columns and a check constraint bound to a
    type. *)
Definition renders_to_None (c : Constraint) : bool :=
  match c with
  | CPrimaryKey pk => match pk_columns pk with [] => true | _ => false end
  | CCheck ck => ck_type_bound ck
  | _ => false
  end.

(** The hook declines every primary key and check constraint and leaves
    the context as it was; this is so when there is no hook. *)
Definition hook_declines_constraints : Prop :=
  forall kind item ctx,
    kind = "primary_key" \/ kind = "check" ->
    _user_defined_render kind item ctx = (Ok None, ctx).

Lemma _render_constraint_None c md ctx :
  hook_declines_constraints ->
  renders_to_None c = true ->
  _render_constraint c md ctx = (Ok None, ctx).
Proof.
  intros Hd Hc. rewrite _render_constraint_eq.
  destruct c as [pk|fk|uq|ck|cls r]; try discriminate Hc; cbn [renders_to_None] in Hc.
  - unfold _render_primary_key.
    rewrite (bind_run _ _ _ _ _ (Hd "primary_key" _ ctx (or_introl eq_refl))).
    destruct (pk_columns pk); [reflexivity | discriminate Hc].
  - unfold _render_check_constraint.
    rewrite (bind_run _ _ _ _ _ (Hd "check" _ ctx (or_intror eq_refl))).
    rewrite Hc. reflexivity.
Qed.

Lemma mapM_render_constraint_None cs md ctx :
  hook_declines_constraints ->
  forallb renders_to_None cs = true ->
  mapM (fun cons => _render_constraint cons md) cs ctx
  = (Ok (map (fun _ => None) cs), ctx).
Proof.
  intros Hd. induction cs as [|c cs IH]; intros H; [reflexivity|].
  cbn [forallb] in H. apply andb_true_iff in H as [Hc H].
  cbn [mapM map].
  rewrite (bind_run _ _ _ _ _ (_render_constraint_None c md ctx Hd Hc)).
  rewrite (bind_run _ _ _ _ _ (IH H)). reflexivity.
Qed.

Lemma omap_map_None {A B} (l : list A) : omap id (map (fun _ => @None B) l) = [].
Proof using Type. clear. induction l; [reflexivity | exact IHl]. Qed.

(** X17: a primary key without columns and a type-bound check constraint
    render to nothing when the hook declines them, and so leave no argument
    in the CreateTable call: a table that has no other constraint is
    created with its columns alone. *)
Theorem absent_constraints_leave_no_argument op ctx :
  hook_declines_constraints ->
  forallb renders_to_None (t_constraints (ct_to_table op)) = true ->
  (forall c, c ∈ t_constraints (ct_to_table op) ->
             _render_constraint c (_namespace_metadata op) ctx = (Ok None, ctx))
  /\ (forall args ctx',
         _add_table_args op ctx = (Ok args, ctx') ->
         exists rcols,
           mapM _render_column (t_columns (ct_to_table op)) ctx = (Ok rcols, ctx')
           /\ args = filter (fun col => Py.truthy col = true) rcols).
Proof.
  intros Hd Hall. split.
  - intros c Hin. apply _render_constraint_None; [exact Hd|].
    rewrite forallb_forall in Hall. apply Hall, list_elem_of_In, Hin.
  - intros args ctx' H.
    apply _add_table_args_inv in H as (rcols & c1 & rcons & Hc & Hk & -> & _).
    rewrite (mapM_render_constraint_None _ _ c1 Hd Hall) in Hk.
    inversion Hk; subst. exists rcols. split; [exact Hc|].
    rewrite omap_map_None. unfold Py.sorted, Py.sorted_by. cbn [foldr].
    rewrite app_nil_r. reflexivity.
Qed.

(** ** Inside a batch block *)

(** A keyword that is not asked for does not show. *)
Lemma foldl_fk_kwargs_insert (kw : gmap string Py.Val) key v ks :
  Forall (fun k => k <> key) ks ->
  forall args,
    foldl (fun args k =>
             match <[key := v]> kw !! k with
             | Some Py.VNone | None => args
             | Some value => args ++ [k +:+ "=" +:+ Py.repr value]
             end) args ks
    = foldl (fun args k =>
               match kw !! k with
               | Some Py.VNone | None => args
               | Some value => args ++ [k +:+ "=" +:+ Py.repr value]
               end) args ks.
Proof using Type.
  clear. induction 1 as [|k ks Hk Hks IH]; intros args; [reflexivity|].
  cbn [foldl]. rewrite IH. f_equal.
  rewrite lookup_insert_ne by congruence. reflexivity.
Qed.

(** X18: inside a batch block the table is the one of the block, and
    the renderers do not look at the table of the operation: with the
    batch flag set, an AddColumn, DropColumn, DropConstraint or DropIndex
    renders alike whatever its table name and schema are, and so does a
    CreateIndex whatever the table of its index, a CreateForeignKey
    whatever its source table and [source_schema], and a
    CreateUniqueConstraint whatever the table of its constraint, which may
    be missing. *)
Theorem batch_rendering_ignores_table ctx :
  _has_batch ctx = true ->
  (forall schema tname schema' tname' column,
      _add_column (mkAddColumn schema tname column) ctx
      = _add_column (mkAddColumn schema' tname' column) ctx)
  /\ (forall schema tname schema' tname' cname,
         _drop_column (mkDropColumn schema tname cname) ctx
         = _drop_column (mkDropColumn schema' tname' cname) ctx)
  /\ (forall name tname schema tname' schema' type_,
         _drop_constraint (mkDropConstraint name tname type_ schema) ctx
         = _drop_constraint (mkDropConstraint name tname' type_ schema') ctx)
  /\ (forall name tname schema tname' schema' kwargs,
         _drop_index (mkDropIndex name tname schema kwargs) ctx
         = _drop_index (mkDropIndex name tname' schema' kwargs) ctx)
  /\ (forall name table table' exprs unique kwargs,
         _add_index (mkCreateIndex (mkIndex name (Some table) exprs unique kwargs)) ctx
         = _add_index (mkCreateIndex (mkIndex name (Some table') exprs unique kwargs)) ctx)
  /\ (forall name source source' referent local remote kw source_schema,
         _add_fk_constraint
           (mkCreateForeignKey name source referent local remote
                               (<["source_schema" := source_schema]> kw)) ctx
         = _add_fk_constraint
             (mkCreateForeignKey name source' referent local remote kw) ctx)
  /\ (forall name deferrable initially table table' columns,
         _add_unique_constraint
           (mkCreateUnique (mkUnique name deferrable initially table columns)) ctx
         = _add_unique_constraint
             (mkCreateUnique (mkUnique name deferrable initially table' columns)) ctx).
Proof.
  intros Hb. destruct ctx as [i o b w]. cbn [_has_batch] in Hb. subst b.
  repeat (split; [intros; reflexivity|]).
  split; [|intros; reflexivity].
  intros name source source' referent local remote kw source_schema.
  unfold _add_fk_constraint.
  cbn [cfk_kw cfk_constraint_name source_table referent_table local_cols remote_cols].
  unfold bind. destruct (_render_gen_name name _) as [[n|e] c] eqn:E; [|reflexivity].
  assert (c = mkContext i o true w) as ->.
  { symmetry. eapply (_render_gen_name_read_only eq), E. }
  rewrite !gets_run. cbn [_has_batch negb].
  rewrite foldl_fk_kwargs_insert by (repeat constructor; discriminate).
  reflexivity.
Qed.

(** ** Renderers registered beside the default ones *)

(** The operations made of the classes that have a default renderer. *)
Fixpoint builtin_only (op : MigrateOperation) : bool :=
  match op with
  | ModifyTableOps _ _ ops => forallb builtin_only ops
  | OtherOp _ _ => false
  | _ => true
  end.

Lemma mapM_ext_in {A B} (f g : A -> M B) l :
  Forall (fun x => forall ctx, f x ctx = g x ctx) l ->
  forall ctx, mapM f l ctx = mapM g l ctx.
Proof using Type.
  clear. induction 1 as [|x l Hx Hl IH]; intros ctx; [reflexivity|].
  cbn [mapM]. unfold bind. rewrite Hx.
  destruct (g x ctx) as [[y|e] c]; [|reflexivity].
  rewrite IH. reflexivity.
Qed.

Lemma _render_modify_table_ext table_name schema ops
    (f g : MigrateOperation -> M (list string)) ctx :
  Forall (fun op => forall ctx, f op ctx = g op ctx) ops ->
  _render_modify_table table_name schema ops (map f ops) ctx
  = _render_modify_table table_name schema ops (map g ops) ctx.
Proof using Type.
  clear. intros H. unfold _render_modify_table.
  erewrite !bind_run by apply gets_run.
  destruct ops as [|op ops]; [reflexivity|].
  rewrite !sequence_map.
  destruct (render_as_batch (opts ctx)).
  - unfold _within_batch, bind. rewrite (mapM_ext_in f g _ H). reflexivity.
  - unfold bind. rewrite (mapM_ext_in f g _ H). reflexivity.
Qed.

Lemma extends_default_refl : extends_default default_renderers.
Proof. intros k r H. exact H. Qed.

Lemma registered_app {K R} `{EqDecision K} (d d' : Dispatcher K R) k r :
  registered k d = Some r -> registered k (d ++ d') = Some r.
Proof using Type.
  clear. induction d as [|[k' fn] d IH]; cbn [registered app]; [discriminate|].
  destruct (decide (k' = k)); [trivial | exact IH].
Qed.

(** A registry keeps the default renderers when one more is registered. *)
Lemma extends_default_dispatch_for renderers k fn :
  extends_default renderers -> extends_default (dispatch_for k fn renderers).
Proof.
  intros Hext. unfold dispatch_for.
  destruct (registered k renderers); [exact Hext|].
  intros k' r H. apply registered_app, Hext, H.
Qed.

(** X19: registering renderers for further operation classes changes
    nothing for the operations of the classes this module renders: every
    registry that keeps the default renderers renders a tree of such
    operations as the default registry does. *)
Theorem further_registrations_keep_builtin_rendering renderers op :
  extends_default renderers ->
  builtin_only op = true ->
  forall ctx, render_op renderers op ctx = render_op default_renderers op ctx.
Proof.
  intros Hext.
  induction op as [t s ops IH | op Hop] using MigrateOperation_nested_ind;
    intros Hb ctx.
  - rewrite !render_op_ModifyTableOps by (exact Hext || exact extends_default_refl).
    apply _render_modify_table_ext.
    cbn [builtin_only] in Hb. rewrite forallb_forall in Hb.
    rewrite Forall_forall in IH. apply Forall_forall. intros o Ho.
    apply IH; [exact Ho|]. apply Hb, list_elem_of_In, Ho.
  - destruct op; try discriminate Hb;
      try (erewrite (render_op_registered renderers) by (apply Hext; reflexivity);
           erewrite (render_op_registered default_renderers) by reflexivity;
           reflexivity).
    exfalso. eapply Hop. reflexivity.
Qed.

(** ** [_indent] *)

(** Texts are held as the bytes of their UTF-8 encoding.

    [re.compile(r"^", re.M).sub("    ", text)]: four spaces are put at the
    start of the text and after every newline. *)
Fixpoint indent_after_newlines (s : string) : string :=
  match s with
  | EmptyString => EmptyString
  | String c s' =>
      if Ascii.eqb c "010" then String c ("    " +:+ indent_after_newlines s')
      else String c (indent_after_newlines s')
  end.

Definition sub_line_starts (text : string) : string :=
  "    " +:+ indent_after_newlines text.

(** [str.isspace] on a character below 128: the characters 9 to 13 and 28
    to 32. *)
Definition is_ascii_space (c : ascii) : bool :=
  let n := N_of_ascii c in
  ((9 <=? n) && (n <=? 13) || (28 <=? n) && (n <=? 32))%N.

(** The number of bytes of the whitespace character at the head of the
    text, 0 when there is none.  Above 127 the whitespace characters are
    U+0085, U+00A0, U+1680, U+2000 to U+200A, U+2028, U+2029, U+202F, U+205F
    and U+3000, here in their UTF-8 encoding. *)
Definition whitespace_length (s : string) : nat :=
  match s with
  | String a s1 =>
      if is_ascii_space a then 1
      else
        match s1 with
        | String b s2 =>
            let x := N_of_ascii a in
            let y := N_of_ascii b in
            if ((x =? 194) && ((y =? 133) || (y =? 160)))%N then 2
            else
              match s2 with
              | String c _ =>
                  let z := N_of_ascii c in
                  if ((x =? 225) && (y =? 154) && (z =? 128)
                      || (x =? 226) && (y =? 128)
                         && ((128 <=? z) && (z <=? 138) || (z =? 168) || (z =? 169)
                             || (z =? 175))
                      || (x =? 226) && (y =? 129) && (z =? 159)
                      || (x =? 227) && (y =? 128) && (z =? 128))%N
                  then 3 else 0
              | EmptyString => 0
              end
        | EmptyString => 0
        end
  | EmptyString => 0
  end.

(** [text.lstrip()] *)
Fixpoint lstrip (s : string) : string :=
  match whitespace_length s, s with
  | 1, String _ s1 => lstrip s1
  | 2, String _ (String _ s2) => lstrip s2
  | 3, String _ (String _ (String _ s3)) => lstrip s3
  | _, _ => s
  end.

(** The text is made of whitespace characters only. *)
Fixpoint all_whitespace (s : string) : bool :=
  match whitespace_length s, s with
  | _, EmptyString => true
  | 1, String _ s1 => all_whitespace s1
  | 2, String _ (String _ s2) => all_whitespace s2
  | 3, String _ (String _ (String _ s3)) => all_whitespace s3
  | _, _ => false
  end.

(** [text.rstrip()]: the text up to its longest end made of whitespace. *)
Fixpoint rstrip (s : string) : string :=
  match s with
  | EmptyString => EmptyString
  | String c s' => if all_whitespace s then EmptyString else String c (rstrip s')
  end.

(** [text.strip()] *)
Definition strip (s : string) : string := rstrip (lstrip s).

(** Only spaces stand between here and the end of the line. *)
Fixpoint spaces_to_line_end (s : string) : bool :=
  match s with
  | EmptyString => true
  | String c s' =>
      if Ascii.eqb c "010" then true
      else if Ascii.eqb c " " then spaces_to_line_end s'
      else false
  end.

(** [re.compile(r" +$", re.M).sub("", text)]: a run of spaces goes when it
    reaches the end of its line. *)
Fixpoint sub_trailing_spaces (s : string) : string :=
  match s with
  | EmptyString => EmptyString
  | String c s' =>
      if Ascii.eqb c " " && spaces_to_line_end s' then sub_trailing_spaces s'
      else String c (sub_trailing_spaces s')
  end.

Definition _indent (text : string) : string :=
  sub_trailing_spaces (strip (sub_line_starts text)).


(** *** No line of the result ends in a space *)

Lemma spaces_to_line_end_sub s :
  spaces_to_line_end (sub_trailing_spaces s) = spaces_to_line_end s.
Proof using Type.
  induction s as [|c s IH]; [reflexivity|].
  cbn [sub_trailing_spaces spaces_to_line_end].
  destruct (Ascii.eqb c "010") eqn:En.
  - apply Ascii.eqb_eq in En. subst c. reflexivity.
  - destruct (Ascii.eqb c " ") eqn:Es; cbn [andb].
    + destruct (spaces_to_line_end s) eqn:E; [exact IH|].
      cbn [spaces_to_line_end]. rewrite En, Es. exact IH.
    + cbn [spaces_to_line_end]. rewrite En, Es. reflexivity.
Qed.

Lemma sub_trailing_spaces_no_trailing s :
  forall a b, sub_trailing_spaces s = a +:+ String " " b ->
              spaces_to_line_end b = false.
Proof using Type.
  induction s as [|c s IH]; intros a b H.
  - destruct a; discriminate H.
  - cbn [sub_trailing_spaces] in H.
    destruct (Ascii.eqb c " " && spaces_to_line_end s) eqn:E.
    + eapply IH, H.
    + destruct a as [|c' a].
      * change ("" +:+ String " " b) with (String " " b) in H.
        inversion H; subst. rewrite Ascii.eqb_refl in E. cbn [andb] in E.
        rewrite spaces_to_line_end_sub. exact E.
      * change (String c' a +:+ String " " b) with (String c' (a +:+ String " " b)) in H.
        inversion H; subst. eapply IH. eassumption.
Qed.

(** X20: no line of an indented text ends in a space: wherever the
    result of [_indent] holds a space, a character that is neither a space
    nor a newline stands after it on the same line. *)
Theorem indent_leaves_no_trailing_space text a b :
  _indent text = a +:+ String " " b -> spaces_to_line_end b = false.
Proof using Type. apply sub_trailing_spaces_no_trailing. Qed.

(** *** The layout of the lines *)

(** The lines after the first of a text, each after its separator. *)
Definition lines_after (sep : string) (f : string -> string) (ls : list string)
  : string :=
  foldr (fun l acc => sep +:+ f l +:+ acc) "" ls.

Lemma join_cons_lines sep x ls :
  Py.join sep (x :: ls) = x +:+ lines_after sep id ls.
Proof using Type.
  revert x. induction ls as [|y ls IH]; intros x.
  - cbn. rewrite append_nil_r. reflexivity.
  - change (Py.join sep (x :: y :: ls)) with (x +:+ sep +:+ Py.join sep (y :: ls)).
    rewrite IH. reflexivity.
Qed.

Lemma lines_after_map sep f ls :
  lines_after sep id (map f ls) = lines_after sep f ls.
Proof using Type.
  unfold lines_after. induction ls as [|l ls IH]; [reflexivity|].
  cbn [map foldr]. rewrite IH. reflexivity.
Qed.

Definition newline_free (l : string) : Prop := Py.contains "010" l = false.

Lemma newline_free_cons c l :
  newline_free (String c l) -> Ascii.eqb c "010" = false /\ newline_free l.
Proof using Type.
  unfold newline_free. cbn [Py.contains]. intros H.
  apply orb_false_iff in H as [H1 H2]. rewrite Ascii.eqb_sym. split; assumption.
Qed.

Lemma indent_after_newlines_app l X :
  newline_free l -> indent_after_newlines (l +:+ X) = l +:+ indent_after_newlines X.
Proof using Type.
  induction l as [|c l IH]; intros H; [reflexivity|].
  apply newline_free_cons in H as [Hc Hl].
  change (String c l +:+ X) with (String c (l +:+ X)).
  cbn [indent_after_newlines]. rewrite Hc, IH by exact Hl. reflexivity.
Qed.

Lemma nl_app X : Py.nl +:+ X = String "010" X.
Proof using Type. reflexivity. Qed.

Lemma lines_after_cons sep f l ls :
  lines_after sep f (l :: ls) = sep +:+ f l +:+ lines_after sep f ls.
Proof using Type. reflexivity. Qed.

Lemma indent_after_newlines_lines rest W :
  Forall newline_free rest ->
  indent_after_newlines (lines_after Py.nl id rest +:+ W)
  = lines_after Py.nl (fun l => "    " +:+ l) rest +:+ indent_after_newlines W.
Proof using Type.
  induction 1 as [|l rest Hl Hrest IH]; [reflexivity|].
  rewrite !lines_after_cons. unfold id at 1. rewrite !append_assoc, !nl_app.
  cbn [indent_after_newlines]. change (Ascii.eqb "010" "010") with true. cbn iota.
  rewrite indent_after_newlines_app by exact Hl. rewrite IH.
  rewrite ?append_assoc. reflexivity.
Qed.

(** A character below 128 that is not whitespace. *)
Definition plain (c : ascii) : bool :=
  (N_of_ascii c <? 128)%N && negb (is_ascii_space c).

Definition starts_plain (s : string) : bool :=
  match s with
  | String a _ => plain a
  | EmptyString => false
  end.

Fixpoint ends_plain (s : string) : bool :=
  match s with
  | EmptyString => false
  | String z EmptyString => plain z
  | String _ s' => ends_plain s'
  end.

Lemma plain_inv c : plain c = true -> (N_of_ascii c < 128)%N /\ is_ascii_space c = false.
Proof using Type.
  unfold plain. intros H. apply andb_true_iff in H as [H1 H2].
  apply N.ltb_lt in H1. apply negb_true_iff in H2. split; assumption.
Qed.

Lemma ends_plain_inv s :
  ends_plain s = true -> exists s0 z, s = s0 +:+ String z "" /\ plain z = true.
Proof using Type.
  induction s as [|c s IH]; [discriminate|].
  destruct s as [|d s].
  - intros H. exists "", c. split; [reflexivity | exact H].
  - intros H. destruct (IH H) as (s0 & z & -> & Hz).
    exists (String c s0), z. split; [reflexivity | exact Hz].
Qed.

Ltac bool_facts H :=
  repeat first
    [ rewrite andb_true_iff in H | rewrite orb_true_iff in H
    | rewrite N.eqb_eq in H | rewrite N.leb_le in H ].

(** A whitespace character of several bytes has no byte below 128. *)
Lemma whitespace_length_cases s :
  match whitespace_length s with
  | 0 => True
  | 1 => exists a s1, s = String a s1 /\ is_ascii_space a = true
  | 2 => exists a b s2, s = String a (String b s2) /\ (128 <= N_of_ascii b)%N
  | 3 => exists a b c s3,
      s = String a (String b (String c s3))
      /\ (128 <= N_of_ascii b)%N /\ (128 <= N_of_ascii c)%N
  | _ => False
  end.
Proof using Type.
  destruct s as [|a s1]; [exact I|]. cbn [whitespace_length].
  destruct (is_ascii_space a) eqn:Ea; [eauto|].
  destruct s1 as [|b s2]; [exact I|]. cbv zeta.
  match goal with |- context [if ?c then 2 else _] => destruct c eqn:E2 end.
  { exists a, b, s2. split; [reflexivity|]. bool_facts E2. lia. }
  destruct s2 as [|c s3]; [exact I|].
  match goal with |- context [if ?c then 3 else _] => destruct c eqn:E3 end;
    [|exact I].
  exists a, b, c, s3. split; [reflexivity|]. bool_facts E3. lia.
Qed.

Lemma whitespace_length_plain a X : plain a = true -> whitespace_length (String a X) = 0.
Proof using Type.
  intros H. apply plain_inv in H as [Hlt Hsp].
  cbn [whitespace_length]. rewrite Hsp.
  destruct X as [|b s2]; [reflexivity|]. cbv zeta.
  rewrite !(proj2 (N.eqb_neq (N_of_ascii a) _)) by lia.
  destruct s2; reflexivity.
Qed.

Lemma lstrip_plain a X : plain a = true -> lstrip (String a X) = String a X.
Proof using Type.
  intros H. pose proof (whitespace_length_plain a X H) as Hw.
  cbn [lstrip]. rewrite Hw. reflexivity.
Qed.

Lemma all_whitespace_eq s :
  all_whitespace s =
  match whitespace_length s, s with
  | _, EmptyString => true
  | 1, String _ s1 => all_whitespace s1
  | 2, String _ (String _ s2) => all_whitespace s2
  | 3, String _ (String _ (String _ s3)) => all_whitespace s3
  | _, _ => false
  end.
Proof using Type. destruct s; reflexivity. Qed.

Lemma all_whitespace_plain z W :
  plain z = true ->
  forall n U, String.length U <= n -> all_whitespace (U +:+ String z W) = false.
Proof using Type.
  intros Hz. pose proof (plain_inv z Hz) as [Hlt _].
  induction n as [|n IH]; intros U Hn.
  - destruct U; [|cbn in Hn; lia].
    change ("" +:+ String z W) with (String z W).
    rewrite all_whitespace_eq, whitespace_length_plain by exact Hz. reflexivity.
  - destruct U as [|a U].
    { change ("" +:+ String z W) with (String z W).
      rewrite all_whitespace_eq, whitespace_length_plain by exact Hz. reflexivity. }
    cbn [String.length] in Hn.
    change (String a U +:+ String z W) with (String a (U +:+ String z W)).
    rewrite all_whitespace_eq.
    pose proof (whitespace_length_cases (String a (U +:+ String z W))) as Hc.
    destruct (whitespace_length (String a (U +:+ String z W))) as [|[|[|[|k]]]];
      try reflexivity.
    + apply IH. lia.
    + destruct Hc as (a' & b & s2 & He & Hb). inversion He; subst a'.
      destruct U as [|b' U].
      * change ("" +:+ String z W) with (String z W) in *. inversion H1; subst. lia.
      * change (String b' U +:+ String z W) with (String b' (U +:+ String z W)).
        apply IH. cbn [String.length] in Hn. lia.
    + destruct Hc as (a' & b & c & s3 & He & Hb & Hc'). inversion He; subst a'.
      destruct U as [|b' U].
      * change ("" +:+ String z W) with (String z W) in *. inversion H1; subst. lia.
      * change (String b' U +:+ String z W) with (String b' (U +:+ String z W)) in *.
        inversion H1; subst b'.
        destruct U as [|c' U].
        -- change ("" +:+ String z W) with (String z W) in *. inversion H2; subst. lia.
        -- change (String c' U +:+ String z W) with (String c' (U +:+ String z W)).
           apply IH. cbn [String.length] in Hn. lia.
Qed.

Lemma rstrip_all_whitespace W : all_whitespace W = true -> rstrip W = "".
Proof using Type. destruct W; [reflexivity|]. intros H. cbn [rstrip]. rewrite H. reflexivity. Qed.

Lemma rstrip_plain_end Y z W :
  plain z = true -> all_whitespace W = true ->
  rstrip (Y +:+ String z W) = Y +:+ String z "".
Proof using Type.
  intros Hz HW. induction Y as [|c Y IH].
  - change ("" +:+ String z W) with (String z W).
    cbn [rstrip].
    rewrite (all_whitespace_plain z W Hz 0 "" (Nat.le_refl 0) : all_whitespace (String z W) = false).
    rewrite rstrip_all_whitespace by exact HW. reflexivity.
  - change (String c Y +:+ String z W) with (String c (Y +:+ String z W)).
    cbn [rstrip].
    rewrite (all_whitespace_plain z W Hz (String.length (String c Y)) (String c Y) (Nat.le_refl _)
             : all_whitespace (String c (Y +:+ String z W)) = false).
    rewrite IH. reflexivity.
Qed.

Lemma spaces_to_line_end_app l X :
  newline_free l ->
  spaces_to_line_end (l +:+ String "010" X) = spaces_to_line_end l.
Proof using Type.
  induction l as [|c l IH]; intros H; [reflexivity|].
  apply newline_free_cons in H as [Hc Hl].
  change (String c l +:+ String "010" X) with (String c (l +:+ String "010" X)).
  cbn [spaces_to_line_end]. rewrite Hc, IH by exact Hl. reflexivity.
Qed.

Lemma sub_trailing_spaces_nl X :
  sub_trailing_spaces (String "010" X) = String "010" (sub_trailing_spaces X).
Proof using Type. reflexivity. Qed.

(** The text is empty or opens with a newline. *)
Definition line_break (acc : string) : Prop :=
  acc = "" \/ exists X, acc = String "010" X.

Lemma sub_trailing_spaces_app l acc :
  newline_free l -> line_break acc ->
  sub_trailing_spaces (l +:+ acc) = sub_trailing_spaces l +:+ sub_trailing_spaces acc.
Proof using Type.
  intros Hl [-> | [X ->]].
  - rewrite !append_nil_r. reflexivity.
  - rewrite sub_trailing_spaces_nl.
    induction l as [|c l IH]; [reflexivity|].
    apply newline_free_cons in Hl as [Hc Hl].
    change (String c l +:+ String "010" X) with (String c (l +:+ String "010" X)).
    cbn [sub_trailing_spaces]. rewrite spaces_to_line_end_app by exact Hl.
    rewrite (IH Hl).
    destruct (Ascii.eqb c " " && spaces_to_line_end l); reflexivity.
Qed.

Lemma lines_after_break f rest : line_break (lines_after Py.nl f rest).
Proof using Type.
  destruct rest as [|l rest]; [left; reflexivity|].
  right. rewrite lines_after_cons, nl_app. eexists. reflexivity.
Qed.

Lemma sub_trailing_spaces_lines f rest :
  Forall (fun l => newline_free (f l)) rest ->
  sub_trailing_spaces (lines_after Py.nl f rest)
  = lines_after Py.nl (fun l => sub_trailing_spaces (f l)) rest.
Proof using Type.
  induction 1 as [|l rest Hl Hrest IH]; [reflexivity|].
  rewrite !lines_after_cons, !nl_app, sub_trailing_spaces_nl.
  rewrite sub_trailing_spaces_app by (exact Hl || apply lines_after_break).
  rewrite IH. reflexivity.
Qed.

Lemma List_last_cons {A} (l : A) r d : List.last (l :: r) d = List.last r l.
Proof using Type.
  revert l d. induction r as [|x r IH]; intros l d; [reflexivity|].
  change (List.last (l :: x :: r) d) with (List.last (x :: r) d).
  rewrite (IH x d), (IH x l). reflexivity.
Qed.

Lemma layout_ends_plain first rest :
  ends_plain (List.last rest first) = true ->
  exists Y z,
    first +:+ lines_after Py.nl (fun l => "    " +:+ l) rest = Y +:+ String z ""
    /\ plain z = true.
Proof using Type.
  revert first. induction rest as [|l rest IH]; intros first H.
  - cbn [List.last] in H. apply ends_plain_inv in H as (Y & z & -> & Hz).
    exists Y, z. split; [|exact Hz]. cbn [lines_after foldr]. apply append_nil_r.
  - rewrite List_last_cons in H. destruct (IH l H) as (Y & z & He & Hz).
    exists (first +:+ Py.nl +:+ "    " +:+ Y), z. split; [|exact Hz].
    rewrite lines_after_cons, !append_assoc. rewrite He. reflexivity.
Qed.

Lemma newline_free_indented l : newline_free l -> newline_free ("    " +:+ l).
Proof using Type. intros H. exact H. Qed.

Definition laid_out (first : string) (rest : list string) : string :=
  Py.join Py.nl
    (sub_trailing_spaces first
     :: map (fun l => sub_trailing_spaces ("    " +:+ l)) rest).

Lemma _indent_layout first rest W :
  Forall newline_free (first :: rest) ->
  starts_plain first = true ->
  ends_plain (List.last rest first) = true ->
  all_whitespace (indent_after_newlines W) = true ->
  _indent (Py.join Py.nl (first :: rest) +:+ W) = laid_out first rest.
Proof using Type.
  intros Hnf Hs He HW. apply Forall_cons in Hnf as [Hf Hr].
  unfold _indent, strip, sub_line_starts.
  rewrite join_cons_lines, append_assoc.
  rewrite indent_after_newlines_app by exact Hf.
  rewrite indent_after_newlines_lines by exact Hr.
  destruct first as [|a f1]; [discriminate Hs|]. cbn [starts_plain] in Hs.
  change (lstrip ("    " +:+ String a f1 +:+ ?X)) with (lstrip (String a (f1 +:+ X))).
  rewrite lstrip_plain by exact Hs.
  change (String a (f1 +:+ ?X)) with (String a f1 +:+ X).
  destruct (layout_ends_plain (String a f1) rest He) as (Y & z & HY & Hz).
  rewrite <- append_assoc, HY, append_assoc.
  change (String z "" +:+ ?X) with (String z X).
  rewrite rstrip_plain_end by assumption.
  rewrite <- HY.
  rewrite sub_trailing_spaces_app by (exact Hf || apply lines_after_break).
  rewrite sub_trailing_spaces_lines
    by (eapply Forall_impl; [exact Hr | intros l Hl; exact Hl]).
  unfold laid_out. rewrite join_cons_lines, lines_after_map. reflexivity.
Qed.

(** X21: the layout [_indent] gives to a block of lines.  For lines
    without a newline, the first of which starts and the last of which ends
    with a character below 128 that is not whitespace, the result is the
    first line as it stands, not indented, then every further line after
    four spaces, each line without the spaces at its end, so that an empty
    line stays empty; a newline that ends the text goes, and the text
    without it gives the same result. *)
Theorem indent_lays_out_lines first rest :
  Forall newline_free (first :: rest) ->
  starts_plain first = true ->
  ends_plain (List.last rest first) = true ->
  _indent (Py.join Py.nl (first :: rest) +:+ Py.nl) = laid_out first rest
  /\ _indent (Py.join Py.nl (first :: rest)) = laid_out first rest.
Proof using Type.
  intros Hnf Hs He. split.
  - apply _indent_layout; try assumption. reflexivity.
  - rewrite <- (append_nil_r (Py.join Py.nl (first :: rest))).
    apply _indent_layout; try assumption. reflexivity.
Qed.

End Render.

(** ** A concrete rendering pass *)

(** No [render_item] hook; a dialect that declines every type and renders
    a SQL expression to its text; the standard prefixes [sa.] and [op.]. *)
Definition no_render_item : option (string -> RenderItem -> M (option string)) := None.

Definition plain_impl : DialectImpl :=
  mkImpl (fun _ => ret None) (fun e _ => Ok (clause_text e)).

Definition re_sub_unavailable : string -> string -> string -> Res string :=
  fun _ _ _ => Raise (OtherError "re.error" "").

Definition plain_renderers : Dispatcher OpKind Renderer :=
  default_renderers no_render_item (Some plain_impl) re_sub_unavailable Py.repr_str "auto".

Definition plain_getvalue (printer : PythonPrinter) : string :=
  Py.join Py.nl (written printer).

Definition plain_opts : Opts := mkOpts false (Some "sa.") (Some "op.") None.

Definition ctx0 : AutogenContext := mkContext (Some ∅) plain_opts false [].

Definition Integer : TypeEngine :=
  mkTypeEngine false "sqlalchemy.sql.sqltypes" "integer" "Integer()" None None [].

Definition UUID : TypeEngine :=
  mkTypeEngine false "sqlalchemy.dialects.postgresql.base" "UUID" "UUID()" None None [].

Definition id_column (name : string) : Column :=
  mkColumn (Some (Str name)) Integer None (Py.VStr "auto") (Some false) false None [].

Lemma extends_default_plain :
  extends_default no_render_item (Some plain_impl) re_sub_unavailable Py.repr_str "auto"
                  plain_renderers.
Proof. intros k r H. exact H. Defined.

(** *** C1 *)

Definition custom_op : MigrateOperation := OtherOp "CustomOp" "<CustomOp object>".

(** C1, at an operation of a class without a renderer: [render_op] raises
    the dispatch error and renders no placeholder line. *)
Lemma C1_counterexample :
  registered (op_kind custom_op) plain_renderers = None
  /\ render_op plain_renderers custom_op ctx0
     = (Raise (ValueError "no dispatch function for object: CustomOp"), ctx0)
  /\ ~ (exists lines ctx', render_op plain_renderers custom_op ctx0 = (Ok lines, ctx')).
Proof.
  split; [reflexivity|].
  assert (H : render_op plain_renderers custom_op ctx0
              = (Raise (ValueError "no dispatch function for object: CustomOp"), ctx0))
    by reflexivity.
  split; [exact H|]. intros (lines & ctx' & H'). rewrite H in H'. discriminate H'.
Qed.

Lemma C1_witness :
  registered (op_kind custom_op) plain_renderers = None
  /\ render_op plain_renderers custom_op ctx0 = (Raise (dispatch_error custom_op), ctx0)
  /\ _render_constraint no_render_item (Some plain_impl) Py.repr_str
       (COther "ExcludeConstraint" "ExcludeConstraint()") None ctx0
     = (Ok (Some "[Unknown Python object ExcludeConstraint()]"),
        mkContext (Some ∅) plain_opts false
                  ["No renderer is established for object ExcludeConstraint()"]).
Proof.
  assert (Hreg : registered (op_kind custom_op) plain_renderers = None) by reflexivity.
  split; [exact Hreg|].
  destruct (C1_unregistered_operation_raises_dispatch_error
              no_render_item (Some plain_impl) Py.repr_str plain_renderers custom_op Hreg)
    as (Hop & _ & Hcons).
  split; [apply Hop | apply Hcons].
Defined.

(** *** C2 *)

Definition alter_comment_op : AlterColumnOp :=
  mkAlterColumn "t" "c" IsFalse None None (Val (Some "new")) Py.VNone
                None None (Some "old") IsFalse None.

Definition alter_nullable_op : AlterColumnOp :=
  mkAlterColumn "t" "c" IsFalse None None IsFalse Py.VNone
                None (Some true) None IsFalse None.

(** C2, at an AlterColumn whose new comment is supplied and whose
    existing comment is known: [existing_comment] is appended all the same. *)
Lemma C2_counterexample :
  modify_comment alter_comment_op = Val (Some "new")
  /\ _alter_column no_render_item (Some plain_impl) re_sub_unavailable
       alter_comment_op ctx0
     = (Ok ("op.alter_column('t', 'c'," +:+ Py.nl
            +:+ "           comment='new'," +:+ Py.nl
            +:+ "           existing_comment='old')"), ctx0).
Proof. split; reflexivity. Qed.

Lemma C2_witness :
  _alter_column no_render_item (Some plain_impl) re_sub_unavailable
    alter_nullable_op ctx0
  = (Ok ("op.alter_column('t', 'c'," +:+ Py.nl
         +:+ "           existing_nullable=True)"), ctx0)
  /\ exists before after,
      "op.alter_column('t', 'c'," +:+ Py.nl +:+ "           existing_nullable=True)"
      = before +:+ alter_kwarg "existing_nullable" "True" +:+ after.
Proof.
  assert (H : _alter_column no_render_item (Some plain_impl) re_sub_unavailable
                alter_nullable_op ctx0
              = (Ok ("op.alter_column('t', 'c'," +:+ Py.nl
                     +:+ "           existing_nullable=True)"), ctx0)) by reflexivity.
  split; [exact H|].
  destruct (C2_alter_column_existing_kwargs _ _ _ Py.repr_str "auto" _ _ _ _ H)
    as (et & sd & ty & esd & _ & _ & _ & _ & _ & Hin & _).
  apply Hin; reflexivity.
Defined.

(** *** C3 *)

Definition fk_parent : FkParent := mkFkParent (Some (Str "remote_id")) true.

Definition fk_remote : ForeignKey := mkForeignKey "remote.key1" false (Some fk_parent).

(** A namespace with the default schema [s] and no table. *)
Definition md_schema_only : MetaData := mkMetaData (Some "s") ∅.

(** A namespace holding [remote], whose column of key [key1] is named
    [name1]. *)
Definition md_remote : MetaData :=
  mkMetaData None {[ "remote" := {[ "key1" := Str "name1" ]} ]}.

(** C3, at a two-token reference whose table is not in a namespace that
    has a default schema: the reference is rendered with the schema put
    before it, not unmodified. *)
Lemma C3_counterexample :
  md_tables md_schema_only !! "s.remote" = None
  /\ md_tables md_schema_only !! "remote" = None
  /\ _fk_colspec fk_remote (md_schema md_schema_only) md_schema_only
     = Ok "s.remote.key1"
  /\ "s.remote.key1" <> fk_colspec fk_remote.
Proof. repeat split; try reflexivity. discriminate. Qed.

Definition fkc_remote : ForeignKeyConstraint :=
  mkForeignKeyConstraint None None None None None false [fk_remote].

Lemma C3_witness :
  Py.split "." (fk_colspec fk_remote) = [] ++ ["remote"; "key1"]
  /\ fk_resolves fk_remote = true
  /\ md_tables md_remote !! "remote" = Some {[ "key1" := Str "name1" ]}
  /\ _fk_colspec fk_remote (md_schema md_remote) md_remote = Ok "remote.name1"
  /\ md_tables (mkMetaData None ∅) !! "remote" = None
  /\ _fk_colspec fk_remote None (mkMetaData None ∅) = Ok (fk_colspec fk_remote)
  /\ (exists cols refs args,
         Forall2 (fun fk ref => _fk_colspec fk (md_schema md_remote) md_remote = Ok ref)
                 (elements fkc_remote) refs
         /\ _render_constraint no_render_item (Some plain_impl) Py.repr_str
              (CForeignKey fkc_remote) (Some md_remote) ctx0
            = (Ok (Some (default "" (sqlalchemy_module_prefix (opts ctx0))
                         +:+ "ForeignKeyConstraint([" +:+ cols +:+ "], ["
                         +:+ Py.join ", " (map Py.repr_str refs) +:+ "], "
                         +:+ args +:+ ")")), ctx0))
  /\ _render_constraint no_render_item (Some plain_impl) Py.repr_str
       (CForeignKey fkc_remote) None ctx0
     = (Raise (AttributeError "schema"), ctx0).
Proof.
  assert (Hs : Py.split "." (fk_colspec fk_remote) = [] ++ ["remote"; "key1"])
    by reflexivity.
  assert (Ht : md_tables md_remote !! "remote" = Some {[ "key1" := Str "name1" ]})
    by reflexivity.
  assert (Hn : md_tables (mkMetaData None ∅) !! "remote" = None) by reflexivity.
  split; [exact Hs|]. split; [reflexivity|]. split; [exact Ht|].
  destruct (C3_foreign_key_reference no_render_item (Some plain_impl) Py.repr_str)
    as (Hspec & Hrender & Hnomd & _).
  split; [|split; [exact Hn|split; [|split]]].
  - destruct (Hspec fk_remote None md_remote [] "remote" "key1" Hs) as (_ & Hres & _).
    apply (Hres {[ "key1" := Str "name1" ]} (Str "name1"));
      [reflexivity | exact Ht | reflexivity].
  - destruct (Hspec fk_remote None (mkMetaData None ∅) [] "remote" "key1" Hs)
      as (_ & _ & Hnone).
    destruct (Hnone (or_intror (or_introl Hn))) as (_ & Hsame & _).
    apply Hsame. left. reflexivity.
  - apply Hrender; [reflexivity|].
    repeat constructor; [discriminate|].
    exists [], "remote", "key1". exact Hs.
  - apply Hnomd. reflexivity.
Defined.

(** *** C4 *)

Definition small_table_op : CreateTableOp :=
  mkCreateTable (Str "t") None ∅
    (mkTable [id_column "a"; id_column "b"]
             [CPrimaryKey (mkPrimaryKey None [Str "a"])] None [])
    None.

Definition wide_table_op : CreateTableOp :=
  mkCreateTable (Str "t") None ∅
    (mkTable (replicate 256 (id_column "a")) [] None [])
    None.

Definition id_column_text : string := "sa.Column('a', sa.Integer(), nullable=False)".

Lemma C4_witness :
  _add_table_args no_render_item (Some plain_impl) re_sub_unavailable Py.repr_str "auto"
    small_table_op ctx0
  = (Ok [id_column_text; "sa.Column('b', sa.Integer(), nullable=False)";
         "sa.PrimaryKeyConstraint('a')"], ctx0)
  /\ _add_table no_render_item (Some plain_impl) re_sub_unavailable Py.repr_str "auto"
       small_table_op ctx0
     = (Ok ("op.create_table('t'," +:+ Py.nl
            +:+ "sa.Column('a', sa.Integer(), nullable=False)," +:+ Py.nl
            +:+ "sa.Column('b', sa.Integer(), nullable=False)," +:+ Py.nl
            +:+ "sa.PrimaryKeyConstraint('a')" +:+ Py.nl +:+ ")"), ctx0)
  /\ _add_table_args no_render_item (Some plain_impl) re_sub_unavailable Py.repr_str "auto"
       wide_table_op ctx0
     = (Ok (replicate 256 id_column_text), ctx0)
  /\ _add_table no_render_item (Some plain_impl) re_sub_unavailable Py.repr_str "auto"
       wide_table_op ctx0
     = (Ok ("op.create_table('t'," +:+ Py.nl
            +:+ "*[" +:+ Py.join ("," +:+ Py.nl) (replicate 256 id_column_text) +:+ "]"
            +:+ Py.nl +:+ ")"), ctx0).
Proof.
  assert (Hsmall : _add_table_args no_render_item (Some plain_impl) re_sub_unavailable
                     Py.repr_str "auto" small_table_op ctx0
                   = (Ok [id_column_text; "sa.Column('b', sa.Integer(), nullable=False)";
                          "sa.PrimaryKeyConstraint('a')"], ctx0)) by reflexivity.
  assert (Hwide : _add_table_args no_render_item (Some plain_impl) re_sub_unavailable
                    Py.repr_str "auto" wide_table_op ctx0
                  = (Ok (replicate 256 id_column_text), ctx0))
    by (vm_compute; reflexivity).
  split; [exact Hsmall|]. split; [|split; [exact Hwide|]].
  - destruct (C4_create_table_argument_ceiling _ _ _ _ _ _ _ _ _ Hsmall)
      as (head & tail & -> & -> & _ & Hflat).
    rewrite Hflat by (simpl; lia). reflexivity.
  - destruct (C4_create_table_argument_ceiling _ _ _ _ _ _ _ _ _ Hwide)
      as (head & tail & -> & -> & Hunpacked & _).
    rewrite Hunpacked by (rewrite length_replicate; lia). reflexivity.
Defined.

(** *** C5, C6, C8 *)

Lemma C5_witness :
  render_op plain_renderers (Op_ExecuteSQL (mkExecuteSQL (SqlStr "SELECT 1"))) ctx0
  = (Ok ["op.execute('SELECT 1')"], ctx0)
  /\ raises_NotImplementedError
       (fst (render_op plain_renderers
               (Op_ExecuteSQL (mkExecuteSQL (SqlClause (mkClause "SELECT 1")))) ctx0)).
Proof.
  destruct (C5_execute_sql_requires_literal_text
              no_render_item (Some plain_impl) re_sub_unavailable Py.repr_str "auto")
    as (_ & _ & Hstr & Hclause).
  split.
  - apply (Hstr plain_renderers "SELECT 1" ctx0 extends_default_plain).
  - apply (Hclause plain_renderers (mkClause "SELECT 1") ctx0 extends_default_plain).
Defined.

Lemma C6_witness :
  render_op plain_renderers
    (Op_CreatePrimaryKey (mkCreatePrimaryKey (Some (Str "pk")) "t" ["a"])) ctx0
  = (Raise (NotImplementedError ""), ctx0)
  /\ render_op plain_renderers
       (Op_CreateCheckConstraint
          (mkCreateCheck (Some (Str "ck")) "t" (Plain (Py.VStr "a > 0")))) ctx0
     = (Raise (NotImplementedError ""), ctx0).
Proof.
  destruct (C6_direct_primary_key_and_check_unimplemented
              no_render_item (Some plain_impl) re_sub_unavailable Py.repr_str "auto")
    as (_ & _ & H).
  destruct (H plain_renderers extends_default_plain) as [Hpk Hck].
  split; [apply Hpk | apply Hck].
Defined.

Definition batch_ctx : AutogenContext :=
  mkContext (Some ∅) (mkOpts true (Some "sa.") (Some "op.") None) false [].

Lemma C8_witness :
  render_op plain_renderers (ModifyTableOps "t" None []) ctx0 = (Ok [], ctx0)
  /\ render_op plain_renderers (ModifyTableOps "t" None []) batch_ctx = (Ok [], batch_ctx).
Proof.
  destruct (C8_empty_modify_table_renders_nothing
              no_render_item (Some plain_impl) re_sub_unavailable Py.repr_str "auto")
    as [_ H].
  split; apply H, extends_default_plain.
Defined.

(** *** C7 *)

Definition drop_t : MigrateOperation := Op_DropTable (mkDropTable (Str "t") None).

Lemma C7_witness :
  mapM (render_op plain_renderers) [ModifyTableOps "t" None []] ctx0 = (Ok [[]], ctx0)
  /\ _render_cmd_body_printer plain_renderers
       (mkOpContainer [ModifyTableOps "t" None []]) ctx0
     = (Ok (mkPrinter [header; "pass"; footer]), ctx0)
  /\ mapM (render_op plain_renderers) [drop_t] ctx0 = (Ok [["op.drop_table('t')"]], ctx0)
  /\ _render_cmd_body_printer plain_renderers (mkOpContainer [drop_t]) ctx0
     = (Ok (mkPrinter [header; "op.drop_table('t')"; footer]), ctx0).
Proof.
  assert (H1 : mapM (render_op plain_renderers) [ModifyTableOps "t" None []] ctx0
               = (Ok [[]], ctx0)) by reflexivity.
  assert (H2 : mapM (render_op plain_renderers) [drop_t] ctx0
               = (Ok [["op.drop_table('t')"]], ctx0)) by reflexivity.
  split; [exact H1|]. split; [|split; [exact H2|]].
  - apply (C7_pass_iff_no_rendered_line plain_renderers plain_getvalue
             (mkOpContainer [ModifyTableOps "t" None []]) ctx0 [[]] ctx0 H1).
  - apply (C7_pass_iff_no_rendered_line plain_renderers plain_getvalue
             (mkOpContainer [drop_t]) ctx0 [["op.drop_table('t')"]] ctx0 H2).
Defined.

(** *** C9 *)

(** A [render_item] hook that renders every type itself. *)
Definition rendering_hook : option (string -> RenderItem -> M (option string)) :=
  Some (fun type_ object_ =>
          match object_ with
          | ItemType _ => ret (Some "mytypes.Special()")
          | _ => ret None
          end).

(** C9, at a type of the postgresql dialect namespace rendered by the
    user's hook: no import entry is added. *)
Lemma C9_counterexample :
  match_dialect (type_module UUID) = Some "postgresql"
  /\ imports ctx0 = Some ∅
  /\ _repr_type rendering_hook (Some plain_impl) re_sub_unavailable UUID ctx0
     = (Ok (Py.VStr "mytypes.Special()"), ctx0)
  /\ ~ (exists ctx' v,
           _repr_type rendering_hook (Some plain_impl) re_sub_unavailable UUID ctx0
           = (Ok v, ctx')
           /\ imports ctx' = Some {[ "from sqlalchemy.dialects import postgresql" ]}).
Proof.
  split; [reflexivity|]. split; [reflexivity|].
  assert (H : _repr_type rendering_hook (Some plain_impl) re_sub_unavailable UUID ctx0
              = (Ok (Py.VStr "mytypes.Special()"), ctx0)) by reflexivity.
  split; [exact H|]. intros (ctx' & v & H' & Hi). rewrite H in H'.
  inversion H'; subst.
  assert (Hin : "from sqlalchemy.dialects import postgresql"
                ∈ ({[ "from sqlalchemy.dialects import postgresql" ]} : gset string))
    by set_solver.
  assert (He : (∅ : gset string) = {[ "from sqlalchemy.dialects import postgresql" ]})
    by (simpl in Hi; congruence).
  rewrite <- He in Hin. set_solver.
Qed.

Lemma C9_witness :
  (forall render, no_render_item = Some render ->
                  forall type_ object_, Preserves imports_le (render type_ object_))
  /\ (forall i, Some plain_impl = Some i ->
                forall type_, Preserves imports_le (render_type i type_))
  /\ match_dialect (type_module UUID) = Some "postgresql"
  /\ exists v ctx',
      _repr_type no_render_item (Some plain_impl) re_sub_unavailable UUID ctx0
      = (Ok v, ctx')
      /\ imports ctx' = Some ({[ "from sqlalchemy.dialects import postgresql" ]} ∪ ∅)
      /\ exists v' ctx'',
          _repr_type no_render_item (Some plain_impl) re_sub_unavailable UUID ctx'
          = (Ok v', ctx'')
          /\ imports ctx'' = imports ctx'.
Proof.
  assert (Hitem : forall render, no_render_item = Some render ->
                    forall type_ object_, Preserves imports_le (render type_ object_))
    by (intros render H; discriminate H).
  assert (Himpl : forall i, Some plain_impl = Some i ->
                    forall type_, Preserves imports_le (render_type i type_)).
  { intros i H type_. injection H as <-. apply preserves_ret. apply imports_le_preorder. }
  split; [exact Hitem|]. split; [exact Himpl|]. split; [reflexivity|].
  destruct (C9_imports_grow_one_entry_per_dialect
              no_render_item (Some plain_impl) re_sub_unavailable Py.repr_str "auto"
              Hitem Himpl) as (_ & _ & H).
  apply (H UUID "postgresql" ∅ ctx0).
  - reflexivity.
  - exact I.
  - intros ctx. exists None, ctx. split; reflexivity.
  - reflexivity.
Defined.

(** *** C10 *)

Definition prefixed_batch_ctx : AutogenContext :=
  mkContext (Some ∅) (mkOpts true (Some "sa.") (Some "migration.") None) false [].

Definition modify_t : MigrateOperation :=
  ModifyTableOps "t" None [Op_DropColumn (mkDropColumn None (Str "t") (Str "c"))].

(** C10, at the container's renderer with batch rendering on and the
    operations prefix configured as [migration.]: its first line opens with
    the fixed [op.], neither with the configured prefix nor with
    [batch_op.]. *)
Lemma C10_counterexample :
  render_op plain_renderers modify_t prefixed_batch_ctx
  = (Ok ["with op.batch_alter_table('t', schema=None) as batch_op:";
         "batch_op.drop_column('c')"; ""], prefixed_batch_ctx)
  /\ _alembic_autogenerate_prefix_of prefixed_batch_ctx = "migration."
  /\ ~ call_with_prefix prefixed_batch_ctx prefixed_batch_ctx
         "with op.batch_alter_table('t', schema=None) as batch_op:"
  /\ ~ (exists rest,
           "with op.batch_alter_table('t', schema=None) as batch_op:"
           = "batch_op." +:+ rest).
Proof.
  split; [reflexivity|]. split; [reflexivity|]. split.
  - intros [[rest H] | [rest H]]; discriminate H.
  - intros [rest H]; discriminate H.
Qed.

Lemma C10_witness :
  _execute_sql (mkExecuteSQL (SqlStr "SELECT 1"))
    (mkContext (Some ∅) (mkOpts true None (Some "migration.") None) true [])
  = (Ok "op.execute('SELECT 1')",
     mkContext (Some ∅) (mkOpts true None (Some "migration.") None) true [])
  /\ (exists r, registered K_DropTableOp plain_renderers = Some r
                /\ renderer_routes_prefix r)
  /\ exists rest,
      fst (render_op plain_renderers modify_t prefixed_batch_ctx)
      = Ok (batch_header "t" None :: rest).
Proof.
  destruct (C10_execute_sql_fixed_prefix
              no_render_item (Some plain_impl) re_sub_unavailable Py.repr_str "auto")
    as (Hexec & Hroute & Hhead).
  split; [apply Hexec|]. split.
  - eexists. split; [reflexivity|].
    apply (Hroute K_DropTableOp); [reflexivity | discriminate | discriminate].
  - destruct (Hhead "t" None (Op_DropColumn (mkDropColumn None (Str "t") (Str "c"))) []
                [render_op plain_renderers
                   (Op_DropColumn (mkDropColumn None (Str "t") (Str "c")))]
                prefixed_batch_ctx
                ["with op.batch_alter_table('t', schema=None) as batch_op:";
                 "batch_op.drop_column('c')"; ""]
                prefixed_batch_ctx eq_refl eq_refl) as [rest Hrest].
    exists ["batch_op.drop_column('c')"; ""]. reflexivity.
Defined.

(** *** Further renderings of the concrete pass *)

Definition render_plain (op : MigrateOperation) (ctx : AutogenContext)
  : Res (list string) :=
  fst (render_op plain_renderers op ctx).

Example render_create_index_with_convention_name :
  render_plain
    (Op_CreateIndex
       (mkCreateIndex
          (mkIndex (Some (conv "ix_t_a")) (Some (mkTableRef (Str "t") None))
                   [IdxColumn (Some (Str "a"))] None [])))
    ctx0
  = Ok ["op.create_index(op.f('ix_t_a'), 't', ['a'], unique=False)"].
Proof. reflexivity. Qed.

Example render_add_column_with_server_default :
  render_plain
    (Op_AddColumn
       (mkAddColumn (Some "s") "t"
          (mkColumn (Some (Str "x")) Integer
                    (Some (DefaultClause (Plain (Py.VStr "'5'"))))
                    (Py.VStr "auto") (Some true) false None [])))
    ctx0
  = Ok ["op.add_column('t', sa.Column('x', sa.Integer(), server_default='5', nullable=True), schema='s')"].
Proof. reflexivity. Qed.

Example render_add_column_in_batch :
  render_plain
    (ModifyTableOps "t" (Some "s")
       [Op_AddColumn (mkAddColumn (Some "s") "t" (id_column "x"))])
    batch_ctx
  = Ok ["with op.batch_alter_table('t', schema='s') as batch_op:";
        "batch_op.add_column(sa.Column('x', sa.Integer(), nullable=False))";
        ""].
Proof. reflexivity. Qed.

Example render_create_foreign_key :
  render_plain
    (Op_CreateForeignKey
       (mkCreateForeignKey (Some (Str "fk_a")) (Str "t") (Str "remote")
                           [Str "a"] [Str "id"]
                           {[ "ondelete" := Py.VStr "CASCADE" ]}))
    ctx0
  = Ok ["op.create_foreign_key('fk_a', 't', 'remote', ['a'], ['id'], ondelete='CASCADE')"].
Proof. reflexivity. Qed.

Example render_inline_foreign_key_uses_column_name :
  _render_constraint no_render_item (Some plain_impl) Py.repr_str
    (CForeignKey (mkForeignKeyConstraint None None None None None false [fk_remote]))
    (Some md_remote) ctx0
  = (Ok (Some "sa.ForeignKeyConstraint(['remote_id'], ['remote.name1'], )"), ctx0).
Proof. reflexivity. Qed.

Example render_dialect_type_records_import :
  _repr_type no_render_item (Some plain_impl) re_sub_unavailable UUID ctx0
  = (Ok (Py.VStr "postgresql.UUID()"),
     mkContext (Some {[ "from sqlalchemy.dialects import postgresql" ]})
               plain_opts false []).
Proof. vm_compute. reflexivity. Qed.

Example render_server_default_strips_outer_quotes :
  sub_outer_quotes "'now'" = "now" /\ sub_outer_quotes "it's" = "it's"
  /\ sub_outer_quotes ("'a'" +:+ Py.nl) = "a" +:+ Py.nl.
Proof. repeat split; reflexivity. Qed.

(** ** The further properties, at concrete inputs *)

(** A table whose unique constraint is listed before its primary key. *)
Definition sorted_table_op : CreateTableOp :=
  mkCreateTable (Str "t") None ∅
    (mkTable [id_column "a"; id_column "b"]
             [CUnique (mkUnique None None None None [Str "b"]);
              CPrimaryKey (mkPrimaryKey None [Str "a"])] None [])
    None.

Definition sorted_table_args : list string :=
  ["sa.Column('a', sa.Integer(), nullable=False)";
   "sa.Column('b', sa.Integer(), nullable=False)";
   "sa.PrimaryKeyConstraint('a')"; "sa.UniqueConstraint('b')"].

(** The same table with its constraints listed the other way round. *)
Definition reordered_table_op : CreateTableOp :=
  mkCreateTable (Str "t") None ∅
    (mkTable [id_column "a"; id_column "b"]
             [CPrimaryKey (mkPrimaryKey None [Str "a"]);
              CUnique (mkUnique None None None None [Str "b"])] None [])
    None.

Lemma create_table_args_witness :
  _add_table_args no_render_item (Some plain_impl) re_sub_unavailable Py.repr_str
    "auto" sorted_table_op ctx0
  = (Ok sorted_table_args, ctx0)
  /\ (exists rcols cons,
         sorted_table_args = filter (fun col => Py.truthy col = true) rcols ++ cons
         /\ Sorted String.le cons)
  /\ _add_table_args no_render_item (Some plain_impl) re_sub_unavailable Py.repr_str
       "auto" reordered_table_op ctx0
     = (Ok sorted_table_args, ctx0).
Proof.
  assert (H : _add_table_args no_render_item (Some plain_impl) re_sub_unavailable
                Py.repr_str "auto" sorted_table_op ctx0
              = (Ok sorted_table_args, ctx0)) by reflexivity.
  split; [exact H|].
  destruct (create_table_args_columns_then_sorted_constraints _ _ _ _ _ _ _ _ _ H)
    as (rcols & c1 & rcons & cons & Hc & _ & Ha & Hs & _ & Hord).
  split; [exists rcols, cons; split; [exact Ha | exact Hs]|].
  assert (Hc1 : snd (mapM (_render_column no_render_item (Some plain_impl)
                             re_sub_unavailable "auto")
                          (t_columns (ct_to_table sorted_table_op)) ctx0) = ctx0)
    by reflexivity.
  rewrite Hc in Hc1. cbn [snd] in Hc1. subst c1.
  apply Hord.
  - reflexivity.
  - reflexivity.
  - apply perm_swap.
  - repeat constructor.
Defined.

Lemma create_table_flat_witness :
  length (t_columns (ct_to_table sorted_table_op))
  + length (t_constraints (ct_to_table sorted_table_op)) <= MAX_PYTHON_ARGS
  /\ exists args,
      _add_table_args no_render_item (Some plain_impl) re_sub_unavailable Py.repr_str
        "auto" sorted_table_op ctx0 = (Ok args, ctx0)
      /\ "op.create_table('t'," +:+ Py.nl
         +:+ Py.join ("," +:+ Py.nl) sorted_table_args +:+ Py.nl +:+ ")"
         = _alembic_autogenerate_prefix_of ctx0 +:+ "create_table("
           +:+ Py.repr_opt (_ident (Some (ct_table_name sorted_table_op)))
           +:+ "," +:+ Py.nl
           +:+ Py.join ("," +:+ Py.nl) args +:+ _add_table_tail sorted_table_op.
Proof.
  assert (Hlen : length (t_columns (ct_to_table sorted_table_op))
                 + length (t_constraints (ct_to_table sorted_table_op))
                 <= MAX_PYTHON_ARGS) by (unfold MAX_PYTHON_ARGS; simpl; lia).
  split; [exact Hlen|].
  apply (create_table_flat_below_ceiling no_render_item (Some plain_impl)
           re_sub_unavailable Py.repr_str "auto" sorted_table_op ctx0 _ ctx0 Hlen).
  reflexivity.
Defined.

(** A Variant type, with its dialects listed in two orders. *)
Definition variant_of (mapping : list (string * TypeEngine)) : TypeEngine :=
  mkTypeEngine true "sqlalchemy.sql.sqltypes" "variant" "Variant()" None
               (Some Integer) mapping.

Lemma variant_order_witness :
  exists ordered,
    ordered ≡ₚ [("postgresql", UUID); ("mysql", Integer)]
    /\ Sorted String.le (map fst ordered)
    /\ _render_Variant_type
         (_repr_type no_render_item (Some plain_impl) re_sub_unavailable)
         (variant_of [("postgresql", UUID); ("mysql", Integer)]) ctx0
       = (let* s :=
            with_variant_calls
              (_repr_type no_render_item (Some plain_impl) re_sub_unavailable)
              "sa.Integer()" ordered in
          ret (Py.VStr s)) ctx0
    /\ _render_Variant_type
         (_repr_type no_render_item (Some plain_impl) re_sub_unavailable)
         (variant_of [("mysql", Integer); ("postgresql", UUID)])
       = _render_Variant_type
           (_repr_type no_render_item (Some plain_impl) re_sub_unavailable)
           (variant_of [("postgresql", UUID); ("mysql", Integer)])
    /\ fst (_render_Variant_type
              (_repr_type no_render_item (Some plain_impl) re_sub_unavailable)
              (variant_of [("postgresql", UUID); ("mysql", Integer)]) ctx0)
       = Ok (Py.VStr ("sa.Integer().with_variant(sa.Integer(), 'mysql')"
                      +:+ ".with_variant(postgresql.UUID(), 'postgresql')")).
Proof.
  destruct (variant_rendering_in_dialect_order
              (_repr_type no_render_item (Some plain_impl) re_sub_unavailable)
              (variant_of [("postgresql", UUID); ("mysql", Integer)])
              Integer ctx0 (Py.VStr "sa.Integer()") ctx0 eq_refl eq_refl)
    as (ordered & Hp & Hs & Hr & Hinv); [discriminate | discriminate |].
  exists ordered. split; [exact Hp|]. split; [exact Hs|]. split; [exact Hr|].
  split; [|reflexivity].
  apply Hinv.
  - reflexivity.
  - apply perm_swap.
  - apply (bool_decide_unpack _). vm_compute. exact I.
Defined.

Lemma modify_table_without_batch_witness :
  render_as_batch (opts ctx0) = false
  /\ render_op plain_renderers
       (ModifyTableOps "t" None [drop_t; ModifyTableOps "u" None [drop_t]]) ctx0
     = (let* liness :=
          mapM (render_op plain_renderers)
               [drop_t; ModifyTableOps "u" None [drop_t]] in
        ret (concat liness)) ctx0.
Proof.
  split; [reflexivity|].
  apply (modify_table_without_batch_concatenates no_render_item (Some plain_impl)
           re_sub_unavailable Py.repr_str "auto" plain_renderers).
  - exact extends_default_plain.
  - reflexivity.
Defined.

Lemma modify_table_batch_witness :
  render_as_batch (opts batch_ctx) = true
  /\ exists ctx'',
      render_op plain_renderers (ModifyTableOps "t" None [drop_t]) batch_ctx
      = (Ok [batch_header "t" None; "batch_op.drop_table('t')"; ""], ctx'')
      /\ imports ctx'' = imports batch_ctx
      /\ opts ctx'' = opts batch_ctx
      /\ warnings ctx'' = warnings batch_ctx.
Proof.
  split; [reflexivity|].
  apply (modify_table_batch_block no_render_item (Some plain_impl)
           re_sub_unavailable Py.repr_str "auto" plain_renderers "t" None drop_t []
           batch_ctx [["batch_op.drop_table('t')"]] (set_has_batch true batch_ctx)).
  - exact extends_default_plain.
  - reflexivity.
  - reflexivity.
Defined.

Lemma cmd_body_first_error_witness :
  _render_cmd_body plain_renderers plain_getvalue
    (mkOpContainer ([drop_t] ++ custom_op :: [drop_t])) ctx0
  = (Raise (ValueError "no dispatch function for object: CustomOp"), ctx0).
Proof.
  apply (cmd_body_raises_first_error plain_renderers plain_getvalue
           [drop_t] custom_op [drop_t] ctx0 [["op.drop_table('t')"]] ctx0).
  - reflexivity.
  - reflexivity.
Defined.

Lemma cmd_body_empty_containers_witness :
  _render_cmd_body plain_renderers plain_getvalue
    (mkOpContainer [ModifyTableOps "t" None []; ModifyTableOps "u" (Some "s") []])
    batch_ctx
  = (Ok (plain_getvalue (mkPrinter [header; "pass"; footer])), batch_ctx).
Proof.
  apply (cmd_body_of_empty_containers_is_pass no_render_item (Some plain_impl)
           re_sub_unavailable Py.repr_str "auto" plain_renderers).
  - exact extends_default_plain.
  - reflexivity.
Defined.

Lemma context_free_witness :
  context_free_kind (op_kind drop_t) = true
  /\ snd (render_op plain_renderers drop_t batch_ctx) = batch_ctx.
Proof.
  split; [reflexivity|].
  apply (context_free_operations_leave_context no_render_item (Some plain_impl)
           re_sub_unavailable Py.repr_str "auto" plain_renderers drop_t batch_ctx
           (fst (render_op plain_renderers drop_t batch_ctx))).
  - exact extends_default_plain.
  - reflexivity.
  - apply surjective_pairing.
Defined.

Definition fk_without_dot : ForeignKey := mkForeignKey "remote_id" true None.

Lemma fk_colspec_no_dot_witness :
  Py.contains "." (fk_colspec fk_without_dot) = false
  /\ _fk_colspec fk_without_dot None md_remote = Raise unpack_error.
Proof.
  split; [reflexivity|].
  destruct (fk_colspec_fails_iff_no_dot fk_without_dot None md_remote) as (_ & H & _).
  apply H. reflexivity.
Defined.

Lemma server_default_quotes_witness :
  _render_server_default no_render_item (Some plain_impl)
    (Some (DefaultStr "'now()'")) true ctx0
  = (Ok (Py.VStr (Py.repr_str "now()")), ctx0).
Proof.
  assert (Hhook : _user_defined_render no_render_item "server_default"
                    (ItemServerDefault (Some (DefaultStr "'now()'"))) ctx0
                  = (Ok None, ctx0)) by reflexivity.
  destruct (server_default_text_loses_outer_quotes no_render_item (Some plain_impl)
              (DefaultStr "'now()'") ctx0 ctx0 Hhook) as [H _].
  apply H. reflexivity.
Defined.

Lemma match_dialect_witness :
  match_dialect "sqlalchemy.dialects.postgresql.base" = Some "postgresql".
Proof.
  apply (proj2 (match_dialect_longest_word _ _)).
  split; [discriminate|]. split; [reflexivity|].
  exists ".base". split; reflexivity.
Defined.

(** A type of the module [sqlalchemy.dialects] itself. *)
Definition bare_dialect_type : TypeEngine :=
  mkTypeEngine false "sqlalchemy.dialects" "thing" "Thing()" None None [].

Lemma dialect_without_name_witness :
  match_dialect (type_module bare_dialect_type) = None
  /\ _repr_type no_render_item (Some plain_impl) re_sub_unavailable
       bare_dialect_type ctx0
     = (Raise AssertionError, ctx0).
Proof.
  split; [reflexivity|].
  apply (dialect_namespace_without_name_fails no_render_item (Some plain_impl)
           re_sub_unavailable bare_dialect_type ctx0 ctx0 None ctx0);
    reflexivity.
Defined.

Lemma type_resolution_witness :
  _repr_type rendering_hook (Some plain_impl) re_sub_unavailable UUID ctx0
  = (Ok (Py.VStr "mytypes.Special()"), ctx0).
Proof.
  destruct (type_rendering_resolution_order rendering_hook (Some plain_impl)
              re_sub_unavailable UUID ctx0) as (H & _).
  apply H. reflexivity.
Defined.

(** A hook that renders every column itself. *)
Definition column_hook : option (string -> RenderItem -> M (option string)) :=
  Some (fun type_ object_ =>
          match object_ with
          | ItemColumn _ => ret (Some "my_column()")
          | _ => ret None
          end).

Lemma hook_overrides_witness :
  _render_column column_hook (Some plain_impl) re_sub_unavailable "auto"
    (id_column "a") ctx0
  = (Ok "my_column()", ctx0).
Proof.
  destruct (render_item_hook_overrides column_hook (Some plain_impl)
              re_sub_unavailable Py.repr_str "auto" "my_column()" ctx0 ctx0)
    as (H & _).
  apply H. reflexivity.
Defined.

Definition identity_options : list (string * Py.Val) :=
  [("start", Py.VInt 1); ("cycle", Py.VNone)].

Lemma identity_witness :
  exists rest,
    _render_identity (Some true) None identity_options ctx0
    = (Ok ("sa." +:+ "Identity("
           +:+ Py.join ", " (map identity_kwarg (("always", Py.VBool true) :: rest))
           +:+ ")"), ctx0)
    /\ Forall (fun kv => snd kv <> Py.VNone) rest.
Proof.
  destruct (identity_renders_always_first (Some true) None identity_options ctx0)
    as (v & rest & Heq & Hr & Hv).
  assert (Hk : Forall (fun kv : string * Py.Val => fst kv <> "always")
                      identity_options)
    by (repeat constructor; discriminate).
  rewrite (Hv Hk) in Heq. exists rest. split; [exact Heq | exact Hr].
Defined.

Lemma atomic_operation_witness :
  atomic_builtin drop_t = true
  /\ exists line,
      ["op.drop_table('t')"] = [line]
      /\ render_op_text plain_renderers drop_t ctx0 = (Ok line, ctx0).
Proof.
  split; [reflexivity|].
  apply (atomic_operation_renders_one_statement no_render_item (Some plain_impl)
           re_sub_unavailable Py.repr_str "auto" plain_renderers drop_t ctx0).
  - exact extends_default_plain.
  - reflexivity.
  - reflexivity.
Defined.

(** A table whose only constraints are a primary key without columns and
    a check constraint bound to a type. *)
Definition bare_table_op : CreateTableOp :=
  mkCreateTable (Str "t") None ∅
    (mkTable [id_column "a"]
             [CPrimaryKey (mkPrimaryKey None []);
              CCheck (mkCheck None (Plain (Py.VStr "a > 0")) true)] None [])
    None.

Lemma absent_constraints_witness :
  forallb renders_to_None (t_constraints (ct_to_table bare_table_op)) = true
  /\ exists rcols,
      mapM (_render_column no_render_item (Some plain_impl) re_sub_unavailable "auto")
           (t_columns (ct_to_table bare_table_op)) ctx0 = (Ok rcols, ctx0)
      /\ [id_column_text] = filter (fun col => Py.truthy col = true) rcols.
Proof.
  split; [reflexivity|].
  assert (Hd : hook_declines_constraints no_render_item)
    by (intros kind item ctx _; reflexivity).
  destruct (absent_constraints_leave_no_argument no_render_item (Some plain_impl)
              re_sub_unavailable Py.repr_str "auto" bare_table_op ctx0 Hd eq_refl)
    as [_ H].
  apply H. reflexivity.
Defined.

Lemma batch_table_witness :
  _has_batch (set_has_batch true batch_ctx) = true
  /\ _drop_column (mkDropColumn None (Str "t") (Str "c")) (set_has_batch true batch_ctx)
     = _drop_column (mkDropColumn (Some (Str "s")) (Str "u") (Str "c"))
         (set_has_batch true batch_ctx)
  /\ _drop_column (mkDropColumn None (Str "t") (Str "c")) (set_has_batch true batch_ctx)
     = (Ok "batch_op.drop_column('c')", set_has_batch true batch_ctx).
Proof.
  split; [reflexivity|]. split; [|reflexivity].
  destruct (batch_rendering_ignores_table no_render_item (Some plain_impl)
              re_sub_unavailable Py.repr_str "auto" (set_has_batch true batch_ctx)
              eq_refl) as (_ & H & _).
  apply H.
Defined.

(** The default registry with a renderer for one more class. *)
Definition extended_renderers : Dispatcher OpKind Renderer :=
  dispatch_for (K_Other "CustomOp") (fun _ _ => text (ret "custom()")) plain_renderers.

Lemma further_registrations_witness :
  render_op extended_renderers custom_op ctx0 = (Ok ["custom()"], ctx0)
  /\ render_op extended_renderers (ModifyTableOps "t" None [drop_t]) batch_ctx
     = render_op plain_renderers (ModifyTableOps "t" None [drop_t]) batch_ctx.
Proof.
  split; [reflexivity|].
  apply (further_registrations_keep_builtin_rendering no_render_item (Some plain_impl)
           re_sub_unavailable Py.repr_str "auto").
  - apply extends_default_dispatch_for, extends_default_plain.
  - reflexivity.
Defined.

Lemma indent_no_trailing_space_witness :
  _indent ("x = 1  " +:+ Py.nl +:+ "y = 2")
  = "x" +:+ String " " ("= 1" +:+ Py.nl +:+ "    y = 2")
  /\ spaces_to_line_end ("= 1" +:+ Py.nl +:+ "    y = 2") = false.
Proof.
  split; [reflexivity|].
  apply (indent_leaves_no_trailing_space ("x = 1  " +:+ Py.nl +:+ "y = 2") "x").
  reflexivity.
Defined.

Lemma indent_layout_witness :
  _indent (Py.join Py.nl ["# commands  "; "with op.batch() as b:"; "    b.f()"; ""; "# end"]
           +:+ Py.nl)
  = Py.join Py.nl
      ["# commands"; "    with op.batch() as b:"; "        b.f()"; ""; "    # end"].
Proof.
  destruct (indent_lays_out_lines "# commands  "
              ["with op.batch() as b:"; "    b.f()"; ""; "# end"]) as [H _].
  - repeat constructor.
  - reflexivity.
  - reflexivity.
  - exact H.
Defined.
